(** * PopCart: the promotion engine of the cart drawer

    A shallow embedding of the reward-tier and Buy-X-Get-Y logic of
    [extensions/cart-drawer/assets/popcart.js].

    - JavaScript numbers that hold quantities, prices (minor currency
      units), thresholds and timestamps are integers, modelled as [Z].
    - Strings are [string]; property bags are [gmap string string]; the
      cheapest-item [Map] is a [gmap string Z].
    - The [Set] of applied reward keys keeps JavaScript's insertion order
      and its behaviour under deletion during iteration.
    - Asynchronous methods run in a small monad over the controller
      object, with the network and the clock given as oracles. *)

From Stdlib Require Import ZArith QArith Lia Ascii.
From stdpp Require Import gmap strings list fin_maps pretty sorting.

Local Open Scope string_scope.
Local Open Scope Z_scope.
Local Open Scope list_scope.
Local Set Warnings "-register-all".

(** ** JavaScript helpers *)

Module JS.

(** [x || d] on a number: [0] is falsy. *)
Definition or_num (x d : Z) : Z := if x =? 0 then d else x.

(** [s || d] on a string: the empty string is falsy. *)
Definition or_str (s d : string) : string :=
  match s with EmptyString => d | _ => s end.

(** [s.includes(c)] for a one-character needle. *)
Fixpoint includes (c : Ascii.ascii) (s : string) : bool :=
  match s with
  | EmptyString => false
  | String a s' => if Ascii.eqb a c then true else includes c s'
  end.

(** [s.split(c)] for a one-character separator. *)
Fixpoint split (c : Ascii.ascii) (s : string) : list string :=
  match s with
  | EmptyString => [EmptyString]
  | String a s' =>
      if Ascii.eqb a c then EmptyString :: split c s'
      else match split c s' with
           | [] => [String a EmptyString]
           | h :: t => String a h :: t
           end
  end.

(** [arr.pop()] read as a value: the last element. *)
Definition pop (l : list string) : string := List.last l EmptyString.

(** [arr.join(sep)]. *)
Fixpoint join (sep : string) (l : list string) : string :=
  match l with
  | [] => EmptyString
  | [x] => x
  | x :: r => x +:+ sep +:+ join sep r
  end.

(** JSON values as [JSON.parse] yields them (numbers: integers only). *)
Inductive json :=
| JNull
| JBool (b : bool)
| JNum (z : Z)
| JStr (s : string)
| JArr (l : list json)
| JObj (fields : list (string * json)).

(** [v.toString()] / [String(v)] on a parsed value; inside an array,
    [null] prints as the empty string. *)
Fixpoint toString (j : json) : string :=
  match j with
  | JNull => "null"
  | JBool true => "true"
  | JBool false => "false"
  | JNum z => pretty z
  | JStr s => s
  | JArr l =>
      join "," (List.map (fun e => match e with
                                   | JNull => EmptyString
                                   | _ => toString e
                                   end) l)
  | JObj _ => "[object Object]"
  end.

Definition is_slash_str (j : json) : bool :=
  match j with JStr s => String.eqb s "/" | _ => false end.

(** [arr.some(f)] where [f] may throw ([None]): the first element that
    throws or yields [true] decides. *)
Fixpoint some (f : json -> option bool) (l : list json) : option bool :=
  match l with
  | [] => Some false
  | x :: r =>
      match f x with
      | None => None
      | Some true => Some true
      | Some false => some f r
      end
  end.

(** Digits for [parseInt]. *)
Definition digit (radix : Z) (a : Ascii.ascii) : option Z :=
  let n := Z.of_N (Ascii.N_of_ascii a) in
  let d :=
    if (48 <=? n) && (n <=? 57) then Some (n - 48)
    else if (97 <=? n) && (n <=? 122) then Some (n - 87)
    else if (65 <=? n) && (n <=? 90) then Some (n - 55)
    else None in
  match d with
  | Some v => if v <? radix then Some v else None
  | None => None
  end.

Fixpoint digits (radix : Z) (acc : option Z) (s : string) : option Z :=
  match s with
  | EmptyString => acc
  | String a s' =>
      match digit radix a with
      | Some v => digits radix (Some (radix * default 0 acc + v)) s'
      | None => acc
      end
  end.

Fixpoint trimStart (s : string) : string :=
  match s with
  | String a s' => if Ascii.is_space a then trimStart s' else s
  | EmptyString => s
  end.

(** [s.trim()] *)
Definition trim (s : string) : string :=
  String.rev (trimStart (String.rev (trimStart s))).

(** [parseInt(s)] without a radix argument: leading white space, a sign,
    an optional [0x] prefix, then the longest run of digits; [None] is
    [NaN]. *)
Definition parseInt (s : string) : option Z :=
  let s := trimStart s in
  let '(sign, s) :=
    match s with
    | String "-"%char r => (-1, r)
    | String "+"%char r => (1, r)
    | _ => (1, s)
    end in
  let '(radix, s) :=
    match s with
    | String "0"%char (String "x"%char r) => (16, r)
    | String "0"%char (String "X"%char r) => (16, r)
    | _ => (10, s)
    end in
  match digits radix None s with
  | Some v => Some (sign * v)
  | None => None
  end.

(** An insertion-ordered [Set] of strings. Deleting leaves an empty slot
    ([None]) so that an iteration in progress keeps its position; adding
    appends. *)
Definition StrSet := list (option string).

Definition set_has (k : string) (s : StrSet) : bool :=
  bool_decide (Some k ∈ s).

Definition set_add (k : string) (s : StrSet) : StrSet :=
  if set_has k s then s else (s ++ [Some k])%list.

Definition set_delete (k : string) (s : StrSet) : StrSet :=
  List.map (fun e => if bool_decide (e = Some k) then None else e) s.

End JS.

(** ** Data model *)

Record CartItem := {
  key : string;
  product_id : Z;
  variant_id : Z;
  quantity : Z;
  price : Z;
  properties : gmap string string
}.

Record Cart := {
  items : list CartItem;
  total_price : Z;
  item_count : Z
}.

Record RewardTier := {
  threshold : Z;
  rewardType : string;
  rewardValue : option string;
  tier_title : string
}.

Record BxgyOffer := {
  offer_title : string;
  buyQuantity : Z;
  getQuantity : Z;
  rewardMode : string;
  appliesToType : string;
  productIds : option string;
  selectionProductIds : string;
  automaticProductHandle : string
}.

(** [item.properties?.[name] === 'true'] *)
Definition prop_is_true (name : string) (item : CartItem) : bool :=
  bool_decide (properties item !! name = Some "true").

Definition is_free_gift : CartItem -> bool := prop_is_true "_popcart_free_gift".
Definition is_bxgy_free : CartItem -> bool := prop_is_true "_popcart_bxgy_free".

(** Stable sort by an integer key, as [Array.prototype.sort] with the
    comparator [(a, b) => key(a) - key(b)]. *)
Section SortBy.
Context {A : Type} (f : A -> Z).

Definition le_by (a b : A) : Prop := f a <= f b.

Fixpoint insert_by (x : A) (l : list A) : list A :=
  match l with
  | [] => [x]
  | y :: r => if f x <=? f y then x :: y :: r else y :: insert_by x r
  end.

Fixpoint sort_by (l : list A) : list A :=
  match l with
  | [] => []
  | x :: r => insert_by x (sort_by r)
  end.
End SortBy.

(** ** Buy X Get Y: qualification, entitlement, cheapest-item allocation *)

Section Bxgy.
(** [JSON.parse]; [None] when it throws. *)
Variable JSON_parse : string -> option JS.json.

(** The callback of [productIds.some(...)]; [None] when it throws. *)
Definition productIdMatches (itemProductId : string) (id : JS.json) : option bool :=
  match id with
  | JS.JStr s =>
      let numericId := if JS.includes "/"%char s then JS.pop (JS.split "/"%char s) else s in
      Some (String.eqb numericId itemProductId)
  | JS.JArr l =>
      if existsb JS.is_slash_str l then None
      else Some (String.eqb (JS.toString id) itemProductId)
  | _ => None
  end.

Definition itemQualifiesForBxgy (item : CartItem) (offer : BxgyOffer) : bool :=
  if String.eqb (appliesToType offer) "all" then true
  else if String.eqb (appliesToType offer) "collection" then true
  else
    match productIds offer with
    | Some ids =>
        if String.eqb (appliesToType offer) "products"
           && negb (String.eqb ids EmptyString)
        then
          match JSON_parse ids with
          | Some (JS.JArr l) =>
              let itemProductId := pretty (product_id item) in
              match JS.some (productIdMatches itemProductId) l with
              | Some b => b
              | None => false
              end
          | _ => false
          end
        else false
    | None => false
    end.

Definition calculateBxgyQualifyingQuantity (cart : Cart) (offer : BxgyOffer) : Z :=
  fold_left
    (fun totalQty item =>
       if is_free_gift item then totalQty
       else if is_bxgy_free item then totalQty
       else if itemQualifiesForBxgy item offer then totalQty + quantity item
       else totalQty)
    (items cart) 0.

Definition countBxgyFreeItemsInCart (cart : Cart) : Z :=
  fold_left
    (fun count item => if is_bxgy_free item then count + quantity item else count)
    (items cart) 0.

(** The loop of [calculateCheapestFreeItems] over the sorted lines. *)
Fixpoint allocate (qualifyingItems : list CartItem) (remaining : Z)
    (freeItemsMap : gmap string Z) : gmap string Z :=
  match qualifyingItems with
  | [] => freeItemsMap
  | item :: rest =>
      if remaining <=? 0 then freeItemsMap
      else
        let freeFromThisItem := Z.min (quantity item) remaining in
        allocate rest (remaining - freeFromThisItem)
                 (<[key item := freeFromThisItem]> freeItemsMap)
  end.

Definition qualifyingItems (cart : Cart) (offer : BxgyOffer) : list CartItem :=
  sort_by price
    (List.filter
       (fun item =>
          if is_free_gift item then false
          else if is_bxgy_free item then false
          else itemQualifiesForBxgy item offer)
       (items cart)).

Definition calculateCheapestFreeItems (cart : Cart) (offer : BxgyOffer)
    (numFreeItems : Z) : gmap string Z :=
  if numFreeItems <=? 0 then ∅
  else allocate (qualifyingItems cart offer) numFreeItems ∅.

(** [earnedFreeItems] as [updateBxgyProgress] computes it. *)
Definition progressEarnedFreeItems (offer : BxgyOffer) (qualifyingQty : Z) : Z :=
  let buyQty := JS.or_num (buyQuantity offer) 3 in
  let getQty := JS.or_num (getQuantity offer) 1 in
  let rewardMode := JS.or_str (rewardMode offer) "cheapest_in_cart" in
  if String.eqb rewardMode "cheapest_in_cart"
  then Z.max 0 (Z.min getQty (qualifyingQty - buyQty))
  else (qualifyingQty / buyQty) * getQty.

(** [earnedCycles] and [earnedFreeItems] as [applyBxgyRewards] computes
    them, for every reward mode. *)
Definition rewardsEarnedCycles (offer : BxgyOffer) (qualifyingQty : Z) : Z :=
  qualifyingQty / JS.or_num (buyQuantity offer) 3.

Definition rewardsEarnedFreeItems (offer : BxgyOffer) (qualifyingQty : Z) : Z :=
  rewardsEarnedCycles offer qualifyingQty * JS.or_num (getQuantity offer) 1.

End Bxgy.

(** ** Reward tiers: keys, unlocked tiers, best discount *)

(** [`${tier.rewardType}-${tier.threshold}`] *)
Definition rewardKey (tier : RewardTier) : string :=
  rewardType tier +:+ "-" +:+ pretty (threshold tier).

Definition unlockedTiers (tiers : list RewardTier) (cart : Cart) : list RewardTier :=
  List.filter (fun tier => threshold tier <=? total_price cart) tiers.

(** [tiers.find(t => t.rewardType === rewardType && t.threshold === parseInt(threshold))]
    for [[rewardType, threshold] = appliedKey.split('-')]. *)
Definition findTierOfKey (tiers : list RewardTier) (appliedKey : string)
  : option RewardTier :=
  let parts := JS.split "-"%char appliedKey in
  let rewardType' := parts !! 0%nat in
  let threshold' := parts !! 1%nat ≫= JS.parseInt in
  List.find
    (fun t => bool_decide (Some (rewardType t) = rewardType')
              && bool_decide (Some (threshold t) = threshold'))
    tiers.

Definition is_discount (t : RewardTier) : bool :=
  String.eqb (rewardType t) "discount_percent"
  || String.eqb (rewardType t) "discount_fixed".

Section BestDiscount.
(** [parseFloat] on a string; [None] is [NaN]. The finite values are
    compared as rationals. *)
Variable parseFloat : string -> option Q.

Definition rewardNumber (t : RewardTier) : option Q :=
  rewardValue t ≫= parseFloat.

(** [a > b] on numbers: false as soon as one side is [NaN]. *)
Definition js_gt (a b : option Q) : bool :=
  match a, b with
  | Some x, Some y => negb (Qle_bool x y)
  | _, _ => false
  end.

(** The callback of [discountTiers.reduce(..., null)]. *)
Definition betterDiscount (best : option RewardTier) (tier : RewardTier)
  : option RewardTier :=
  match best with
  | None => Some tier
  | Some best =>
      if String.eqb (rewardType tier) "discount_percent"
         && String.eqb (rewardType best) "discount_percent"
      then Some (if js_gt (rewardNumber tier) (rewardNumber best) then tier else best)
      else if String.eqb (rewardType tier) "discount_fixed"
              && String.eqb (rewardType best) "discount_fixed"
      then Some (if js_gt (rewardNumber tier) (rewardNumber best) then tier else best)
      else Some (if String.eqb (rewardType tier) "discount_percent" then tier else best)
  end.

Definition bestDiscount (unlocked : list RewardTier) : option RewardTier :=
  fold_left betterDiscount (List.filter is_discount unlocked) None.

(** The attribute object that [updateCartAttributes] posts. *)
Definition cartAttributes (unlocked : list RewardTier)
  : list (string * option string) :=
  [ ("_popcart_rewards_count", Some (pretty (Z.of_nat (length unlocked))));
    ("_popcart_free_shipping",
      Some (if existsb (fun t => String.eqb (rewardType t) "free_shipping") unlocked
            then "true" else "false")) ]
  ++ match bestDiscount unlocked with
     | Some best =>
         [ ("_popcart_discount_type", Some (rewardType best));
           ("_popcart_discount_value", rewardValue best) ]
     | None => []
     end.

End BestDiscount.

(** ** The controller object, the network and the clock *)

Record Product := {
  product_title : string;
  variants : list Z
}.

(** The body of a response, as far as the drawer reads it: a cart, a
    product, another JSON value (one without [items], [item_count] and
    [variants], such as the error object that comes with a 429), or a
    body that is not JSON. *)
Inductive Body :=
| BCart (c : Cart)
| BProduct (p : Product)
| BOther
| BText.

(** What a [fetch] yields: the promise rejects, or a response arrives. *)
Inductive Response :=
| Rejected
| Http (ok : bool) (body : Body).

Inductive Request :=
| GetCart
| GetProduct (handle : string)
| GetSection
| CartAdd (id : Z) (qty : Z) (props : list (string * string))
| CartChange (id : string) (qty : Z)
| CartUpdate (attributes : list (string * option string)).

Inductive Exn :=
| FetchFailed
| TypeError
| SyntaxError.

Record PopCart := {
  bxgyEnabled : bool;
  rewardTiers : list RewardTier;
  bxgyOffers : list BxgyOffer;
  (** [this.cart], which is only read as [this.cart?.items]: [None] when
      it holds no cart, be it [null] or an answer without [items] *)
  this_cart : option Cart;
  isApplyingBxgy : bool;
  lastBxgyState : Z * Z;
  isInternalCartUpdate : bool;
  bxgyFreeItemKeys : gmap string Z;
  selectionPickerActive : bool;
  lastBxgyActionTime : Z;
  remainingFreeSlots : Z;
  selectionProductsCache : bool;
  selectionProductsLoading : bool;
  appliedRewards : JS.StrSet;
  lastRewardsState : Z * bool;
  (** what [renderBxgyProgress] last drew: qualifying quantity, earned
      free items, free items in the cart; [None] while hidden *)
  bxgyProgress : option (Z * Z * Z);
  (** requests sent so far, oldest first *)
  requests : list Request;
  (** reads of [Date.now()] so far *)
  ticks : nat;
  (** refreshes scheduled with [setTimeout] *)
  timers : nat
}.

Definition set_rewardTiers v (s : PopCart) : PopCart :=
  {| bxgyEnabled := bxgyEnabled s; rewardTiers := v; bxgyOffers := bxgyOffers s;
     this_cart := this_cart s; isApplyingBxgy := isApplyingBxgy s;
     lastBxgyState := lastBxgyState s; isInternalCartUpdate := isInternalCartUpdate s;
     bxgyFreeItemKeys := bxgyFreeItemKeys s; selectionPickerActive := selectionPickerActive s;
     lastBxgyActionTime := lastBxgyActionTime s; remainingFreeSlots := remainingFreeSlots s;
     selectionProductsCache := selectionProductsCache s;
     selectionProductsLoading := selectionProductsLoading s;
     appliedRewards := appliedRewards s; lastRewardsState := lastRewardsState s;
     bxgyProgress := bxgyProgress s; requests := requests s; ticks := ticks s;
     timers := timers s |}.

Definition set_this_cart v (s : PopCart) : PopCart :=
  {| bxgyEnabled := bxgyEnabled s; rewardTiers := rewardTiers s; bxgyOffers := bxgyOffers s;
     this_cart := v; isApplyingBxgy := isApplyingBxgy s;
     lastBxgyState := lastBxgyState s; isInternalCartUpdate := isInternalCartUpdate s;
     bxgyFreeItemKeys := bxgyFreeItemKeys s; selectionPickerActive := selectionPickerActive s;
     lastBxgyActionTime := lastBxgyActionTime s; remainingFreeSlots := remainingFreeSlots s;
     selectionProductsCache := selectionProductsCache s;
     selectionProductsLoading := selectionProductsLoading s;
     appliedRewards := appliedRewards s; lastRewardsState := lastRewardsState s;
     bxgyProgress := bxgyProgress s; requests := requests s; ticks := ticks s;
     timers := timers s |}.

Definition set_isApplyingBxgy v (s : PopCart) : PopCart :=
  {| bxgyEnabled := bxgyEnabled s; rewardTiers := rewardTiers s; bxgyOffers := bxgyOffers s;
     this_cart := this_cart s; isApplyingBxgy := v;
     lastBxgyState := lastBxgyState s; isInternalCartUpdate := isInternalCartUpdate s;
     bxgyFreeItemKeys := bxgyFreeItemKeys s; selectionPickerActive := selectionPickerActive s;
     lastBxgyActionTime := lastBxgyActionTime s; remainingFreeSlots := remainingFreeSlots s;
     selectionProductsCache := selectionProductsCache s;
     selectionProductsLoading := selectionProductsLoading s;
     appliedRewards := appliedRewards s; lastRewardsState := lastRewardsState s;
     bxgyProgress := bxgyProgress s; requests := requests s; ticks := ticks s;
     timers := timers s |}.

Definition set_lastBxgyState v (s : PopCart) : PopCart :=
  {| bxgyEnabled := bxgyEnabled s; rewardTiers := rewardTiers s; bxgyOffers := bxgyOffers s;
     this_cart := this_cart s; isApplyingBxgy := isApplyingBxgy s;
     lastBxgyState := v; isInternalCartUpdate := isInternalCartUpdate s;
     bxgyFreeItemKeys := bxgyFreeItemKeys s; selectionPickerActive := selectionPickerActive s;
     lastBxgyActionTime := lastBxgyActionTime s; remainingFreeSlots := remainingFreeSlots s;
     selectionProductsCache := selectionProductsCache s;
     selectionProductsLoading := selectionProductsLoading s;
     appliedRewards := appliedRewards s; lastRewardsState := lastRewardsState s;
     bxgyProgress := bxgyProgress s; requests := requests s; ticks := ticks s;
     timers := timers s |}.

Definition set_isInternalCartUpdate v (s : PopCart) : PopCart :=
  {| bxgyEnabled := bxgyEnabled s; rewardTiers := rewardTiers s; bxgyOffers := bxgyOffers s;
     this_cart := this_cart s; isApplyingBxgy := isApplyingBxgy s;
     lastBxgyState := lastBxgyState s; isInternalCartUpdate := v;
     bxgyFreeItemKeys := bxgyFreeItemKeys s; selectionPickerActive := selectionPickerActive s;
     lastBxgyActionTime := lastBxgyActionTime s; remainingFreeSlots := remainingFreeSlots s;
     selectionProductsCache := selectionProductsCache s;
     selectionProductsLoading := selectionProductsLoading s;
     appliedRewards := appliedRewards s; lastRewardsState := lastRewardsState s;
     bxgyProgress := bxgyProgress s; requests := requests s; ticks := ticks s;
     timers := timers s |}.

Definition set_bxgyFreeItemKeys v (s : PopCart) : PopCart :=
  {| bxgyEnabled := bxgyEnabled s; rewardTiers := rewardTiers s; bxgyOffers := bxgyOffers s;
     this_cart := this_cart s; isApplyingBxgy := isApplyingBxgy s;
     lastBxgyState := lastBxgyState s; isInternalCartUpdate := isInternalCartUpdate s;
     bxgyFreeItemKeys := v; selectionPickerActive := selectionPickerActive s;
     lastBxgyActionTime := lastBxgyActionTime s; remainingFreeSlots := remainingFreeSlots s;
     selectionProductsCache := selectionProductsCache s;
     selectionProductsLoading := selectionProductsLoading s;
     appliedRewards := appliedRewards s; lastRewardsState := lastRewardsState s;
     bxgyProgress := bxgyProgress s; requests := requests s; ticks := ticks s;
     timers := timers s |}.

Definition set_selectionPickerActive v (s : PopCart) : PopCart :=
  {| bxgyEnabled := bxgyEnabled s; rewardTiers := rewardTiers s; bxgyOffers := bxgyOffers s;
     this_cart := this_cart s; isApplyingBxgy := isApplyingBxgy s;
     lastBxgyState := lastBxgyState s; isInternalCartUpdate := isInternalCartUpdate s;
     bxgyFreeItemKeys := bxgyFreeItemKeys s; selectionPickerActive := v;
     lastBxgyActionTime := lastBxgyActionTime s; remainingFreeSlots := remainingFreeSlots s;
     selectionProductsCache := selectionProductsCache s;
     selectionProductsLoading := selectionProductsLoading s;
     appliedRewards := appliedRewards s; lastRewardsState := lastRewardsState s;
     bxgyProgress := bxgyProgress s; requests := requests s; ticks := ticks s;
     timers := timers s |}.

Definition set_lastBxgyActionTime v (s : PopCart) : PopCart :=
  {| bxgyEnabled := bxgyEnabled s; rewardTiers := rewardTiers s; bxgyOffers := bxgyOffers s;
     this_cart := this_cart s; isApplyingBxgy := isApplyingBxgy s;
     lastBxgyState := lastBxgyState s; isInternalCartUpdate := isInternalCartUpdate s;
     bxgyFreeItemKeys := bxgyFreeItemKeys s; selectionPickerActive := selectionPickerActive s;
     lastBxgyActionTime := v; remainingFreeSlots := remainingFreeSlots s;
     selectionProductsCache := selectionProductsCache s;
     selectionProductsLoading := selectionProductsLoading s;
     appliedRewards := appliedRewards s; lastRewardsState := lastRewardsState s;
     bxgyProgress := bxgyProgress s; requests := requests s; ticks := ticks s;
     timers := timers s |}.

Definition set_remainingFreeSlots v (s : PopCart) : PopCart :=
  {| bxgyEnabled := bxgyEnabled s; rewardTiers := rewardTiers s; bxgyOffers := bxgyOffers s;
     this_cart := this_cart s; isApplyingBxgy := isApplyingBxgy s;
     lastBxgyState := lastBxgyState s; isInternalCartUpdate := isInternalCartUpdate s;
     bxgyFreeItemKeys := bxgyFreeItemKeys s; selectionPickerActive := selectionPickerActive s;
     lastBxgyActionTime := lastBxgyActionTime s; remainingFreeSlots := v;
     selectionProductsCache := selectionProductsCache s;
     selectionProductsLoading := selectionProductsLoading s;
     appliedRewards := appliedRewards s; lastRewardsState := lastRewardsState s;
     bxgyProgress := bxgyProgress s; requests := requests s; ticks := ticks s;
     timers := timers s |}.

Definition set_selectionProductsLoading v (s : PopCart) : PopCart :=
  {| bxgyEnabled := bxgyEnabled s; rewardTiers := rewardTiers s; bxgyOffers := bxgyOffers s;
     this_cart := this_cart s; isApplyingBxgy := isApplyingBxgy s;
     lastBxgyState := lastBxgyState s; isInternalCartUpdate := isInternalCartUpdate s;
     bxgyFreeItemKeys := bxgyFreeItemKeys s; selectionPickerActive := selectionPickerActive s;
     lastBxgyActionTime := lastBxgyActionTime s; remainingFreeSlots := remainingFreeSlots s;
     selectionProductsCache := selectionProductsCache s;
     selectionProductsLoading := v;
     appliedRewards := appliedRewards s; lastRewardsState := lastRewardsState s;
     bxgyProgress := bxgyProgress s; requests := requests s; ticks := ticks s;
     timers := timers s |}.

Definition set_appliedRewards v (s : PopCart) : PopCart :=
  {| bxgyEnabled := bxgyEnabled s; rewardTiers := rewardTiers s; bxgyOffers := bxgyOffers s;
     this_cart := this_cart s; isApplyingBxgy := isApplyingBxgy s;
     lastBxgyState := lastBxgyState s; isInternalCartUpdate := isInternalCartUpdate s;
     bxgyFreeItemKeys := bxgyFreeItemKeys s; selectionPickerActive := selectionPickerActive s;
     lastBxgyActionTime := lastBxgyActionTime s; remainingFreeSlots := remainingFreeSlots s;
     selectionProductsCache := selectionProductsCache s;
     selectionProductsLoading := selectionProductsLoading s;
     appliedRewards := v; lastRewardsState := lastRewardsState s;
     bxgyProgress := bxgyProgress s; requests := requests s; ticks := ticks s;
     timers := timers s |}.

Definition set_lastRewardsState v (s : PopCart) : PopCart :=
  {| bxgyEnabled := bxgyEnabled s; rewardTiers := rewardTiers s; bxgyOffers := bxgyOffers s;
     this_cart := this_cart s; isApplyingBxgy := isApplyingBxgy s;
     lastBxgyState := lastBxgyState s; isInternalCartUpdate := isInternalCartUpdate s;
     bxgyFreeItemKeys := bxgyFreeItemKeys s; selectionPickerActive := selectionPickerActive s;
     lastBxgyActionTime := lastBxgyActionTime s; remainingFreeSlots := remainingFreeSlots s;
     selectionProductsCache := selectionProductsCache s;
     selectionProductsLoading := selectionProductsLoading s;
     appliedRewards := appliedRewards s; lastRewardsState := v;
     bxgyProgress := bxgyProgress s; requests := requests s; ticks := ticks s;
     timers := timers s |}.

Definition set_bxgyProgress v (s : PopCart) : PopCart :=
  {| bxgyEnabled := bxgyEnabled s; rewardTiers := rewardTiers s; bxgyOffers := bxgyOffers s;
     this_cart := this_cart s; isApplyingBxgy := isApplyingBxgy s;
     lastBxgyState := lastBxgyState s; isInternalCartUpdate := isInternalCartUpdate s;
     bxgyFreeItemKeys := bxgyFreeItemKeys s; selectionPickerActive := selectionPickerActive s;
     lastBxgyActionTime := lastBxgyActionTime s; remainingFreeSlots := remainingFreeSlots s;
     selectionProductsCache := selectionProductsCache s;
     selectionProductsLoading := selectionProductsLoading s;
     appliedRewards := appliedRewards s; lastRewardsState := lastRewardsState s;
     bxgyProgress := v; requests := requests s; ticks := ticks s;
     timers := timers s |}.

Definition set_requests v (s : PopCart) : PopCart :=
  {| bxgyEnabled := bxgyEnabled s; rewardTiers := rewardTiers s; bxgyOffers := bxgyOffers s;
     this_cart := this_cart s; isApplyingBxgy := isApplyingBxgy s;
     lastBxgyState := lastBxgyState s; isInternalCartUpdate := isInternalCartUpdate s;
     bxgyFreeItemKeys := bxgyFreeItemKeys s; selectionPickerActive := selectionPickerActive s;
     lastBxgyActionTime := lastBxgyActionTime s; remainingFreeSlots := remainingFreeSlots s;
     selectionProductsCache := selectionProductsCache s;
     selectionProductsLoading := selectionProductsLoading s;
     appliedRewards := appliedRewards s; lastRewardsState := lastRewardsState s;
     bxgyProgress := bxgyProgress s; requests := v; ticks := ticks s;
     timers := timers s |}.

Definition set_ticks v (s : PopCart) : PopCart :=
  {| bxgyEnabled := bxgyEnabled s; rewardTiers := rewardTiers s; bxgyOffers := bxgyOffers s;
     this_cart := this_cart s; isApplyingBxgy := isApplyingBxgy s;
     lastBxgyState := lastBxgyState s; isInternalCartUpdate := isInternalCartUpdate s;
     bxgyFreeItemKeys := bxgyFreeItemKeys s; selectionPickerActive := selectionPickerActive s;
     lastBxgyActionTime := lastBxgyActionTime s; remainingFreeSlots := remainingFreeSlots s;
     selectionProductsCache := selectionProductsCache s;
     selectionProductsLoading := selectionProductsLoading s;
     appliedRewards := appliedRewards s; lastRewardsState := lastRewardsState s;
     bxgyProgress := bxgyProgress s; requests := requests s; ticks := v;
     timers := timers s |}.

Definition set_timers v (s : PopCart) : PopCart :=
  {| bxgyEnabled := bxgyEnabled s; rewardTiers := rewardTiers s; bxgyOffers := bxgyOffers s;
     this_cart := this_cart s; isApplyingBxgy := isApplyingBxgy s;
     lastBxgyState := lastBxgyState s; isInternalCartUpdate := isInternalCartUpdate s;
     bxgyFreeItemKeys := bxgyFreeItemKeys s; selectionPickerActive := selectionPickerActive s;
     lastBxgyActionTime := lastBxgyActionTime s; remainingFreeSlots := remainingFreeSlots s;
     selectionProductsCache := selectionProductsCache s;
     selectionProductsLoading := selectionProductsLoading s;
     appliedRewards := appliedRewards s; lastRewardsState := lastRewardsState s;
     bxgyProgress := bxgyProgress s; requests := requests s; ticks := ticks s;
     timers := v |}.

(** The controller as [new PopCart()] leaves it, before the settings load. *)
Definition constructor : PopCart :=
  {| bxgyEnabled := false; rewardTiers := []; bxgyOffers := [];
     this_cart := None; isApplyingBxgy := false; lastBxgyState := (0, 0);
     isInternalCartUpdate := false; bxgyFreeItemKeys := ∅;
     selectionPickerActive := false; lastBxgyActionTime := 0;
     remainingFreeSlots := 0; selectionProductsCache := false;
     selectionProductsLoading := false; appliedRewards := [];
     lastRewardsState := (0, false); bxgyProgress := None;
     requests := []; ticks := 0%nat; timers := 0%nat |}.

(** [this.settings = data.settings; this.rewardTiers = ...;
    this.bxgyOffers = ...] *)
Definition set_settings (enabled : bool) (tiers : list RewardTier)
    (offers : list BxgyOffer) (s : PopCart) : PopCart :=
  {| bxgyEnabled := enabled; rewardTiers := tiers; bxgyOffers := offers;
     this_cart := this_cart s; isApplyingBxgy := isApplyingBxgy s;
     lastBxgyState := lastBxgyState s; isInternalCartUpdate := isInternalCartUpdate s;
     bxgyFreeItemKeys := bxgyFreeItemKeys s; selectionPickerActive := selectionPickerActive s;
     lastBxgyActionTime := lastBxgyActionTime s; remainingFreeSlots := remainingFreeSlots s;
     selectionProductsCache := selectionProductsCache s;
     selectionProductsLoading := selectionProductsLoading s;
     appliedRewards := appliedRewards s; lastRewardsState := lastRewardsState s;
     bxgyProgress := bxgyProgress s; requests := requests s; ticks := ticks s;
     timers := timers s |}.

(** ** A monad for the asynchronous methods

    A method either runs forever, returns, or throws; in the last two
    cases it leaves a controller state behind. *)

Inductive Outcome (A : Type) :=
| Diverges
| Returns (a : A) (s : PopCart)
| Throws (e : Exn) (s : PopCart).
Arguments Diverges {A}.
Arguments Returns {A} a s.
Arguments Throws {A} e s.

Definition M (A : Type) : Type := PopCart -> Outcome A.

#[global] Instance M_ret : MRet M := fun A a s => Returns a s.

#[global] Instance M_bind : MBind M := fun A B k m s =>
  match m s with
  | Diverges => Diverges
  | Returns a s' => k a s'
  | Throws e s' => Throws e s'
  end.

(** [return;] *)
Definition js_return : M unit := mret tt.

Definition throw {A} (e : Exn) : M A := fun s => Throws e s.

Definition diverge {A} : M A := fun _ => Diverges.

(** [this.field] *)
Definition this {A} (field : PopCart -> A) : M A := fun s => Returns (field s) s.

(** [this.field = v] *)
Definition assign (setter : PopCart -> PopCart) : M unit :=
  fun s => Returns tt (setter s).

(** [try { m } catch (e) { h e }] *)
Definition try_catch {A} (m : M A) (h : Exn -> M A) : M A := fun s =>
  match m s with
  | Throws e s' => h e s'
  | o => o
  end.

(** [try { m } finally { fin }] *)
Definition try_finally {A} (m : M A) (fin : M unit) : M A := fun s =>
  match m s with
  | Diverges => Diverges
  | Returns a s' =>
      match fin s' with
      | Diverges => Diverges
      | Returns _ s'' => Returns a s''
      | Throws e s'' => Throws e s''
      end
  | Throws e s' =>
      match fin s' with
      | Diverges => Diverges
      | Returns _ s'' => Throws e s''
      | Throws e' s'' => Throws e' s''
      end
  end.

Definition is_cart_write (r : Request) : bool :=
  match r with
  | CartAdd _ _ _ | CartChange _ _ | CartUpdate _ => true
  | _ => false
  end.

Definition response_ok (r : Response) : bool :=
  match r with Http ok _ => ok | Rejected => false end.

(** [await response.json()] where a cart is expected: it throws on a body
    that is not JSON, and yields any other value as it is, [None] standing
    for a value that holds no cart. *)
Definition json_cart (r : Response) : M (option Cart) :=
  match r with
  | Http _ (BCart c) => mret (Some c)
  | Http _ BText | Rejected => throw SyntaxError
  | Http _ _ => mret None
  end.

(** [await response.json()] where a product is expected, together with the
    first read of the product: a body that is not JSON makes [json()]
    throw, and a value of another shape makes [product.variants[0]] throw. *)
Definition json_product (r : Response) : M Product :=
  match r with
  | Http _ (BProduct p) => mret p
  | _ => throw SyntaxError
  end.

Definition truthy (v : option string) : bool :=
  match v with
  | Some s => negb (String.eqb s EmptyString)
  | None => false
  end.

Definition sumFreeQuantity (cart : Cart) : Z :=
  fold_left (fun sum item => sum + quantity item)
            (List.filter is_bxgy_free (items cart)) 0.

Definition productHandles (offer : BxgyOffer) : list string :=
  List.filter (fun h => negb (String.eqb h EmptyString))
    (List.map JS.trim (JS.split ","%char (selectionProductIds offer))).

Section Engine.
(** The answer to the [n]-th request sent, and the value of the [n]-th
    read of [Date.now()]. *)
Variable net : nat -> Response.
Variable now : nat -> Z.
Variable JSON_parse : string -> option JS.json.
Variable parseFloat : string -> option Q.

(** [window.fetch], as wrapped by [interceptCartActions]: a successful
    cart write that is not marked internal schedules a refresh. *)
Definition fetch (req : Request) : M Response := fun s =>
  let s1 := set_requests (requests s ++ [req]) s in
  match net (length (requests s)) with
  | Rejected => Throws FetchFailed s1
  | Http ok body =>
      Returns (Http ok body)
        (if isInternalCartUpdate s1 then s1
         else if is_cart_write req && ok then set_timers (S (timers s1)) s1
         else s1)
  end.

Definition dateNow : M Z := fun s =>
  Returns (now (ticks s)) (set_ticks (S (ticks s)) s).

(** [setTimeout(() => this.refreshCart(), 100)] *)
Definition scheduleRefresh : M unit :=
  assign (fun s => set_timers (S (timers s)) s).

Definition reloadDrawerSection : M unit :=
  try_catch (fetch GetSection ;; js_return) (fun _ => js_return).

Definition hideSelectionPicker : M unit :=
  assign (set_selectionPickerActive false).

(** The part of [preloadSelectionProducts] that runs before its first
    [await]: it raises the loading flag and sends one product request per
    handle. The answers are awaited in the background, and what is done
    with them is outside a pass. *)
Definition preloadSelectionProducts : M unit :=
  enabled ← this bxgyEnabled;
  offers ← this bxgyOffers;
  match offers with
  | [] => js_return
  | offer :: _ =>
      if negb enabled then js_return
      else if negb (String.eqb (rewardMode offer) "selection") then js_return
      else match productHandles offer with
           | [] => js_return
           | _ :: _ =>
               loading ← this selectionProductsLoading;
               cache ← this selectionProductsCache;
               if loading || cache then js_return
               else
                 assign (set_selectionProductsLoading true) ;;
                 assign (fun s =>
                           set_requests
                             (requests s ++ List.map GetProduct (productHandles offer)) s)
           end
  end.

(** [loadSettings] from the point where the settings were read: it stores
    them and, last, starts the preload of the selection products. The
    requests for the settings themselves are left out of the log. *)
Definition loadSettings (enabled : bool) (tiers : list RewardTier)
    (offers : list BxgyOffer) : M unit :=
  assign (set_settings enabled tiers offers) ;;
  preloadSelectionProducts.

Definition showSelectionPicker (offer : BxgyOffer) (earnedFreeItems : Z)
    (cart : Cart) : M unit :=
  let currentFreeItems := sumFreeQuantity cart in
  let remainingFreeSlots := Z.max 0 (earnedFreeItems - currentFreeItems) in
  assign (set_remainingFreeSlots remainingFreeSlots) ;;
  if remainingFreeSlots =? 0 then hideSelectionPicker
  else
    cache ← this selectionProductsCache;
    loading ← this selectionProductsLoading;
    if negb cache && negb loading then preloadSelectionProducts
    else if loading then js_return
    else assign (set_selectionPickerActive true).

(** The [for] loop of [removeBxgyFreeItems]. *)
Fixpoint removeBxgyFreeItems_loop (freeItems : list CartItem) (remaining : Z)
  : M unit :=
  match freeItems with
  | [] => js_return
  | item :: rest =>
      if remaining <=? 0 then js_return
      else
        let removeQty := Z.min (quantity item) remaining in
        let newQty := quantity item - removeQty in
        fetch (CartChange (key item) newQty) ;;
        removeBxgyFreeItems_loop rest (remaining - removeQty)
  end.

Definition removeBxgyFreeItems (cart : Cart) (quantity : Z) : M unit :=
  if quantity <=? 0 then js_return
  else
    assign (set_isInternalCartUpdate true) ;;
    try_finally
      (try_catch
         (removeBxgyFreeItems_loop (List.filter is_bxgy_free (items cart)) quantity)
         (fun _ => js_return))
      (assign (set_isInternalCartUpdate false)).

Definition bxgyFreeProperties (title : string) : list (string * string) :=
  [ ("_popcart_bxgy_free", "true");
    ("_popcart_bxgy_offer", title);
    ("_popcart_gift_name", title +:+ " - Free Item") ].

Definition addAutomaticBxgyItem (offer : BxgyOffer) (productHandle : string)
    (quantity : Z) : M unit :=
  assign (set_isInternalCartUpdate true) ;;
  assign (set_isApplyingBxgy true) ;;
  try_finally
    (try_catch
       (response ← fetch (GetProduct productHandle);
        if negb (response_ok response) then js_return
        else
          product ← json_product response;
          match variants product with
          | [] => throw TypeError
          | variant :: _ =>
              fetch (CartAdd variant quantity (bxgyFreeProperties (offer_title offer))) ;;
              js_return
          end)
       (fun _ => js_return))
    (assign (set_isInternalCartUpdate false) ;;
     assign (set_isApplyingBxgy false) ;;
     scheduleRefresh).

Definition applyAutomaticBxgyReward (offer : BxgyOffer) (cart : Cart)
    (earnedFreeItems : Z) : M unit :=
  let productHandle := automaticProductHandle offer in
  if String.eqb productHandle EmptyString then js_return
  else
    let currentFreeItems := sumFreeQuantity cart in
    if earnedFreeItems =? currentFreeItems then js_return
    else
      t ← dateNow;
      assign (set_lastBxgyActionTime t) ;;
      if currentFreeItems <? earnedFreeItems
      then addAutomaticBxgyItem offer productHandle (earnedFreeItems - currentFreeItems)
      else removeBxgyFreeItems cart (currentFreeItems - earnedFreeItems).

(** The [switch (rewardMode)] of [applyBxgyRewards]. *)
Definition applyBxgyRewards_dispatch (offer : BxgyOffer) (cart : Cart)
    (rewardMode : string) (earnedFreeItems now' timeSinceLastAction : Z) : M unit :=
  if String.eqb rewardMode "cheapest_in_cart" then hideSelectionPicker
  else if String.eqb rewardMode "selection" then
    let currentSelectionFreeItems := sumFreeQuantity cart in
    if (earnedFreeItems =? 0) && (0 <? currentSelectionFreeItems) then
      assign (set_lastBxgyActionTime now') ;;
      removeBxgyFreeItems cart currentSelectionFreeItems ;;
      hideSelectionPicker
    else if earnedFreeItems <? currentSelectionFreeItems then
      if timeSinceLastAction <? 2000 then js_return
      else
        assign (set_lastBxgyActionTime now') ;;
        removeBxgyFreeItems cart (currentSelectionFreeItems - earnedFreeItems)
    else if 0 <? earnedFreeItems then showSelectionPicker offer earnedFreeItems cart
    else hideSelectionPicker
  else if String.eqb rewardMode "automatic" then
    let currentAutomaticFreeItems := sumFreeQuantity cart in
    if (earnedFreeItems =? 0) && (0 <? currentAutomaticFreeItems) then
      assign (set_lastBxgyActionTime now') ;;
      removeBxgyFreeItems cart currentAutomaticFreeItems
    else if 2000 <=? timeSinceLastAction
    then applyAutomaticBxgyReward offer cart earnedFreeItems
    else js_return
  else js_return.

Definition applyBxgyRewards (cart : Cart) : M unit :=
  applying ← this isApplyingBxgy;
  if (applying : bool) then js_return
  else
    now' ← dateNow;
    last ← this lastBxgyActionTime;
    let timeSinceLastAction := now' - last in
    enabled ← this bxgyEnabled;
    offers ← this bxgyOffers;
    match offers with
    | [] => hideSelectionPicker
    | offer :: _ =>
        if negb enabled then hideSelectionPicker
        else
          try_catch
            (let rewardMode := JS.or_str (rewardMode offer) "cheapest_in_cart" in
             let qualifyingQty := calculateBxgyQualifyingQuantity JSON_parse cart offer in
             let earnedCycles := rewardsEarnedCycles offer qualifyingQty in
             let earnedFreeItems := rewardsEarnedFreeItems offer qualifyingQty in
             applyBxgyRewards_dispatch offer cart rewardMode earnedFreeItems
                                       now' timeSinceLastAction ;;
             assign (set_lastBxgyState (earnedCycles, earnedFreeItems)))
            (fun _ => js_return)
    end.

Definition updateBxgyProgress (cart : Cart) : M unit :=
  enabled ← this bxgyEnabled;
  offers ← this bxgyOffers;
  match offers with
  | [] =>
      assign (set_bxgyProgress None) ;;
      assign (set_bxgyFreeItemKeys ∅)
  | offer :: _ =>
      if negb enabled then
        assign (set_bxgyProgress None) ;;
        assign (set_bxgyFreeItemKeys ∅)
      else
        let qualifyingQty := calculateBxgyQualifyingQuantity JSON_parse cart offer in
        let earnedFreeItems := progressEarnedFreeItems offer qualifyingQty in
        let rewardMode := JS.or_str (rewardMode offer) "cheapest_in_cart" in
        assign (set_bxgyFreeItemKeys
                  (if String.eqb rewardMode "cheapest_in_cart"
                   then calculateCheapestFreeItems JSON_parse cart offer earnedFreeItems
                   else ∅)) ;;
        let freeItemsInCart := countBxgyFreeItemsInCart cart in
        assign (set_bxgyProgress (Some (qualifyingQty, earnedFreeItems, freeItemsInCart)))
  end.

Definition updateCartAttributes (unlocked : list RewardTier) : M unit :=
  let attributes := cartAttributes parseFloat unlocked in
  try_finally
    (try_catch
       (assign (set_isInternalCartUpdate true) ;;
        fetch (CartUpdate attributes) ;;
        js_return)
       (fun _ => js_return))
    (assign (set_isInternalCartUpdate false)).

Definition freeGiftProperties (tier : RewardTier) : list (string * string) :=
  [ ("_popcart_free_gift", "true");
    ("_popcart_tier_threshold", pretty (threshold tier));
    ("_popcart_gift_name", tier_title tier) ].

(** [this.cart?.items?.find(item => item.variant_id === variant.id && ...)]
    where [variant] is [product.variants[0]]: reading [variant.id] throws
    when the product has no variant, at the first line inspected. *)
Definition findExistingGift (variant : option Z) (cart : option Cart)
  : M (option CartItem) :=
  match variant, cart with
  | _, None => mret None
  | Some id, Some c =>
      mret (List.find (fun item => (variant_id item =? id) && is_free_gift item)
                      (items c))
  | None, Some c =>
      match items c with
      | [] => mret None
      | _ :: _ => throw TypeError
      end
  end.

Definition addFreeGiftToCart (refreshCart : M unit) (tier : RewardTier) : M unit :=
  match rewardValue tier with
  | None => js_return
  | Some handle =>
      if String.eqb handle EmptyString then js_return
      else
        try_catch
          (response ← fetch (GetProduct handle);
           if negb (response_ok response) then js_return
           else
             product ← json_product response;
             let variant := head (variants product) in
             cart ← this this_cart;
             existingItem ← findExistingGift variant cart;
             match existingItem with
             | Some _ => js_return
             | None =>
                 assign (set_isInternalCartUpdate true) ;;
                 try_finally
                   (match variant with
                    | None => throw TypeError
                    | Some id =>
                        fetch (CartAdd id 1 (freeGiftProperties tier)) ;;
                        refreshCart
                    end)
                   (assign (set_isInternalCartUpdate false))
             end)
          (fun _ => js_return)
  end.

Definition removeFreeGiftFromCart (refreshCart : M unit) (tier : RewardTier)
  : M unit :=
  cart ← this this_cart;
  match cart with
  | None => js_return
  | Some c =>
      match List.find
              (fun item =>
                 is_free_gift item
                 && bool_decide (properties item !! "_popcart_tier_threshold"
                                 = Some (pretty (threshold tier))))
              (items c) with
      | None => js_return
      | Some giftItem =>
          assign (set_isInternalCartUpdate true) ;;
          try_finally
            (try_catch
               (fetch (CartChange (key giftItem) 0) ;;
                refreshCart)
               (fun _ => js_return))
            (assign (set_isInternalCartUpdate false))
      end
  end.

Definition applyReward (refreshCart : M unit) (tier : RewardTier) (cart : Cart)
  : M unit :=
  if String.eqb (rewardType tier) "free_gift" then addFreeGiftToCart refreshCart tier
  else js_return.

Definition removeReward (refreshCart : M unit) (tier : RewardTier) (cart : Cart)
  : M unit :=
  if String.eqb (rewardType tier) "free_gift" && truthy (rewardValue tier)
  then removeFreeGiftFromCart refreshCart tier
  else js_return.

(** First loop of [applyRewards]: [for (const tier of unlockedTiers)]. *)
Fixpoint applyRewards_unlocked (refreshCart : M unit) (cart : Cart)
    (unlocked : list RewardTier) : M unit :=
  match unlocked with
  | [] => js_return
  | tier :: rest =>
      let rewardKey := rewardKey tier in
      applied ← this appliedRewards;
      (if JS.set_has rewardKey applied then js_return
       else
         applyReward refreshCart tier cart ;;
         assign (fun s => set_appliedRewards (JS.set_add rewardKey (appliedRewards s)) s)) ;;
      applyRewards_unlocked refreshCart cart rest
  end.

(** Second loop of [applyRewards]: [for (const appliedKey of
    this.appliedRewards)], a live iteration over the set, from slot
    [index] on. The set may grow while the loop awaits, so the walk is
    bounded by [fuel]. *)
Fixpoint applyRewards_applied (fuel : nat) (refreshCart : M unit) (cart : Cart)
    (tiers : list RewardTier) (unlockedRewardKeys : list string) (index : nat)
  : M unit :=
  match fuel with
  | O => diverge
  | S fuel' =>
      applied ← this appliedRewards;
      match applied !! index with
      | None => js_return
      | Some None =>
          applyRewards_applied fuel' refreshCart cart tiers unlockedRewardKeys (S index)
      | Some (Some appliedKey) =>
          (if bool_decide (appliedKey ∈ unlockedRewardKeys) then js_return
           else
             match findTierOfKey tiers appliedKey with
             | Some tier => removeReward refreshCart tier cart
             | None => js_return
             end ;;
             assign (fun s =>
                       set_appliedRewards (JS.set_delete appliedKey (appliedRewards s)) s)) ;;
          applyRewards_applied fuel' refreshCart cart tiers unlockedRewardKeys (S index)
      end
  end.

Definition hasFreeShipping (unlocked : list RewardTier) : bool :=
  existsb (fun t => String.eqb (rewardType t) "free_shipping") unlocked.

Definition applyRewards (fuel : nat) (refreshCart : M unit) (cart : Cart) : M unit :=
  rewardTiers' ← this rewardTiers;
  match rewardTiers' with
  | [] => js_return
  | _ :: _ =>
      let tiers := sort_by threshold rewardTiers' in
      assign (set_rewardTiers tiers) ;;
      let unlocked := unlockedTiers tiers cart in
      let unlockedRewardKeys := List.map rewardKey unlocked in
      applyRewards_unlocked refreshCart cart unlocked ;;
      applyRewards_applied fuel refreshCart cart tiers unlockedRewardKeys 0 ;;
      last ← this lastRewardsState;
      let count := Z.of_nat (length unlocked) in
      let hasShipping := hasFreeShipping unlocked in
      let stateChanged :=
        negb (count =? fst last) || negb (Bool.eqb hasShipping (snd last)) in
      if stateChanged then
        updateCartAttributes unlocked ;;
        assign (set_lastRewardsState (count, hasShipping))
      else js_return
  end.

(** [updateCartUI] without its rendering: progress, tiers, then BXGY. *)
Definition updateCartUI (fuel : nat) (refreshCart : M unit) (cart : Cart) : M unit :=
  updateBxgyProgress cart ;;
  applyRewards fuel refreshCart cart ;;
  applyBxgyRewards cart.

(** [refreshCart] stores whatever the answer parses to, and then re-enters
    [updateCartUI], which may refresh again once a free gift was added or
    removed; [fuel] bounds this nesting and the set iterations inside. On a
    value that holds no cart the rendering at the head of [updateCartUI]
    throws, the drawer having its items container: [renderItems] reads
    [cart.items.reduce]. *)
Fixpoint refreshCart (fuel : nat) : M unit :=
  match fuel with
  | O => diverge
  | S fuel' =>
      try_catch
        (response ← fetch GetCart;
         cart ← json_cart response;
         assign (set_this_cart cart) ;;
         match cart with
         | Some cart => updateCartUI fuel' (refreshCart fuel') cart
         | None => throw TypeError
         end)
        (fun _ => reloadDrawerSection)
  end.

End Engine.

(** ** What the drawer draws

    The computations of the rendering methods, without the HTML around
    them. *)

(** An entry of [itemsToRender] in [renderItems]: the cart line with the
    fields that the loop adds. [tile_line_price] is the [final_line_price]
    that a split tile overrides; the other tiles keep the line's own. *)
Record Tile := {
  tile_item : CartItem;
  displayQty : Z;
  isPaidPortion : bool;
  isFreePortionSplit : bool;
  isAllFree : bool;
  tile_line_price : option Z
}.

(** [this.bxgyFreeItemKeys?.get(item.key) || 0] *)
Definition freeQtyOf (bxgyFreeItemKeys : gmap string Z) (item : CartItem) : Z :=
  match bxgyFreeItemKeys !! key item with
  | Some q => JS.or_num q 0
  | None => 0
  end.

(** The body of [for (const item of cart.items)] in [renderItems]. *)
Definition itemTiles (bxgyFreeItemKeys : gmap string Z) (item : CartItem) : list Tile :=
  let freeQty := freeQtyOf bxgyFreeItemKeys item in
  let paidQty := quantity item - freeQty in
  if (0 <? freeQty) && (0 <? paidQty) then
    [ {| tile_item := item; displayQty := paidQty; isPaidPortion := true;
         isFreePortionSplit := false; isAllFree := false;
         tile_line_price := Some (price item * paidQty) |};
      {| tile_item := item; displayQty := freeQty; isPaidPortion := false;
         isFreePortionSplit := true; isAllFree := false;
         tile_line_price := Some (price item * freeQty) |} ]
  else if (0 <? freeQty) && (paidQty =? 0) then
    [ {| tile_item := item; displayQty := quantity item; isPaidPortion := false;
         isFreePortionSplit := false; isAllFree := true; tile_line_price := None |} ]
  else
    [ {| tile_item := item; displayQty := quantity item; isPaidPortion := true;
         isFreePortionSplit := false; isAllFree := false; tile_line_price := None |} ].

Definition itemsToRender (bxgyFreeItemKeys : gmap string Z) (cart : Cart) : list Tile :=
  flat_map (itemTiles bxgyFreeItemKeys) (items cart).

(** [item.isFreePortionSplit || item.isAllFree || false] *)
Definition isCheapestFree (t : Tile) : bool :=
  isFreePortionSplit t || isAllFree t || false.

(** A box of the strip that [renderBxgyProgress] draws: the three marks
    that make up its class, and its label. *)
Record Box := {
  isFreeSlot : bool;
  isFilled : bool;
  isFreeEarned : bool;
  box_label : string
}.

Section BxgyBoxes.
Variable offer : BxgyOffer.
Variable (currentQty earnedFreeItems freeItemsInCart : Z).

Definition bxgyFilledSlots : Z :=
  let buyQty := JS.or_num (buyQuantity offer) 3 in
  let rewardMode := JS.or_str (rewardMode offer) "cheapest_in_cart" in
  if String.eqb rewardMode "cheapest_in_cart" then Z.min currentQty buyQty
  else
    let itemsInCurrentCycle := Z.rem currentQty buyQty in
    let showComplete := buyQty <=? currentQty in
    if showComplete then buyQty else itemsInCurrentCycle.

Definition bxgyHasEarnedFree : bool :=
  let buyQty := JS.or_num (buyQuantity offer) 3 in
  let rewardMode := JS.or_str (rewardMode offer) "cheapest_in_cart" in
  if String.eqb rewardMode "cheapest_in_cart" then 0 <? earnedFreeItems
  else buyQty <=? currentQty.

(** The callback of [Array.from({ length: totalSlots }, (_, i) => ...)]. *)
Definition bxgyBox (i : nat) : Box :=
  let buyQty := JS.or_num (buyQuantity offer) 3 in
  let rewardMode := JS.or_str (rewardMode offer) "cheapest_in_cart" in
  let slotNum := Z.of_nat i + 1 in
  let isFreeSlot := buyQty <? slotNum in
  let isFilled := negb isFreeSlot && (slotNum <=? bxgyFilledSlots) in
  let isFreeEarned :=
    if isFreeSlot then
      let freeSlotIndex := slotNum - buyQty in
      if String.eqb rewardMode "cheapest_in_cart"
      then freeSlotIndex <=? earnedFreeItems
      else bxgyHasEarnedFree && (freeSlotIndex <=? freeItemsInCart)
    else false in
  {| isFreeSlot := isFreeSlot; isFilled := isFilled; isFreeEarned := isFreeEarned;
     box_label := if isFreeSlot then "FREE" else pretty slotNum |}.

Definition bxgyBoxes : list Box :=
  let buyQty := JS.or_num (buyQuantity offer) 3 in
  let getQty := JS.or_num (getQuantity offer) 1 in
  let totalSlots := buyQty + getQty in
  List.map bxgyBox (seq 0 (Z.to_nat totalSlots)).

End BxgyBoxes.

(** The strip for what [updateBxgyProgress] hands to [renderBxgyProgress]. *)
Definition drawnBoxes (offer : BxgyOffer) (progress : Z * Z * Z) : list Box :=
  let '(currentQty, earnedFreeItems, freeItemsInCart) := progress in
  bxgyBoxes offer currentQty earnedFreeItems freeItemsInCart.

(** The [for] loop of [updateMultiTierProgress] over the sorted tiers: it
    stops at the first tier that the cart total does not reach. *)
Fixpoint tierScan (tiers : list RewardTier) (cartTotal : Z)
    (currentTier : option RewardTier) (unlocked : list RewardTier)
  : option RewardTier * option RewardTier * list RewardTier :=
  match tiers with
  | [] => (currentTier, None, unlocked)
  | tier :: rest =>
      if threshold tier <=? cartTotal
      then tierScan rest cartTotal (Some tier) (unlocked ++ [tier])
      else (currentTier, Some tier, unlocked)
  end.

(** What [updateMultiTierProgress] works out before it draws: the sorted
    tiers (the sort is in place), the tier reached last, the tier to reach
    next, the unlocked tiers, the new [unlockedTierCount], the tier to
    celebrate, and the amount of the text [Add ... to unlock]. The width of
    the bar, a floating-point percentage, is left out. *)
Record TierProgress := {
  tp_tiers : list RewardTier;
  tp_currentTier : option RewardTier;
  tp_nextTier : option RewardTier;
  tp_unlocked : list RewardTier;
  tp_unlockedTierCount : Z;
  tp_celebrated : option RewardTier;
  tp_maxThreshold : Z;
  tp_remaining : option Z
}.

Definition updateMultiTierProgress (rewardTiers : list RewardTier)
    (unlockedTierCount : Z) (cart : Cart) : TierProgress :=
  let cartTotal := total_price cart in
  let tiers := sort_by threshold rewardTiers in
  let maxThreshold :=
    match last tiers with
    | Some tier => JS.or_num (threshold tier) 5000
    | None => 5000
    end in
  let '(currentTier, nextTier, unlocked) := tierScan tiers cartTotal None [] in
  let prevUnlockedCount := JS.or_num unlockedTierCount 0 in
  let newlyUnlocked := prevUnlockedCount <? Z.of_nat (length unlocked) in
  {| tp_tiers := tiers;
     tp_currentTier := currentTier;
     tp_nextTier := nextTier;
     tp_unlocked := unlocked;
     tp_unlockedTierCount := Z.of_nat (length unlocked);
     tp_celebrated := if newlyUnlocked then currentTier else None;
     tp_maxThreshold := maxThreshold;
     tp_remaining := (fun tier => threshold tier - cartTotal) <$> nextTier |}.

(** [String(n).padStart(2, '0')] *)
Definition padStart2 (s : string) : string :=
  match s with
  | EmptyString => "00"
  | String _ EmptyString => String "0" s
  | _ => s
  end.

Inductive TimerDisplay :=
| TimerExpired
| TimerShows (timerString : string).

(** [updateTimerDisplay] for [diff = this.timerEndTime - now], in
    milliseconds. *)
Definition updateTimerDisplay (diff : Z) : TimerDisplay :=
  if diff <=? 0 then TimerExpired
  else
    let hours := diff / (1000 * 60 * 60) in
    let minutes := Z.rem diff (1000 * 60 * 60) / (1000 * 60) in
    let seconds := Z.rem diff (1000 * 60) / 1000 in
    TimerShows
      (if 0 <? hours
       then pretty hours +:+ ":" +:+ padStart2 (pretty minutes)
            +:+ ":" +:+ padStart2 (pretty seconds)
       else pretty minutes +:+ ":" +:+ padStart2 (pretty seconds)).

(** ** The quantity controls *)

Section Controls.
Variable net : nat -> Response.
Variable now : nat -> Z.
Variable JSON_parse : string -> option JS.json.
Variable parseFloat : string -> option Q.

(** [setLoading] toggles a class of the drawer and nothing else. *)
Definition setLoading (loading : bool) : M unit := js_return.

Definition updateQuantity (fuel : nat) (key : string) (quantity : Z) : M unit :=
  try_finally
    (try_catch
       (setLoading true ;;
        response ← fetch net (CartChange key quantity);
        if response_ok response
        then refreshCart net now JSON_parse parseFloat fuel
        else js_return)
       (fun _ => js_return))
    (setLoading false).

Definition removeItem (fuel : nat) (key : string) : M unit :=
  updateQuantity fuel key 0.

(** The [change] listener of a quantity input holding the text [value]. *)
Definition onQuantityChange (fuel : nat) (key value : string) : M unit :=
  match JS.parseInt value with
  | Some qty =>
      if 0 <? qty then updateQuantity fuel key qty else removeItem fuel key
  | None => removeItem fuel key
  end.

(** The [click] listener of the decrease button next to that input. *)
Definition onDecrease (fuel : nat) (key value : string) : M unit :=
  match JS.parseInt value with
  | Some v =>
      let newQty := v - 1 in
      if 0 <? newQty then updateQuantity fuel key newQty else removeItem fuel key
  | None => removeItem fuel key
  end.

End Controls.

(** ** The settings endpoints of the app

    [app/routes/api.proxy.ts] and the route of [GET /api/settings]. *)

Module Server.

(** An object: its own properties, in order. *)
Definition Obj := list (string * JS.json).

(** [o[k]]; [None] is [undefined]. *)
Definition field (k : string) (o : Obj) : option JS.json :=
  snd <$> List.find (fun kv => String.eqb (fst kv) k) o.

(** The rest [...r] of a destructuring pattern that names [keys]. *)
Definition rest_without (keys : list string) (o : Obj) : Obj :=
  List.filter (fun kv => negb (existsb (String.eqb (fst kv)) keys)) o.

(** A [CartSettings] row as [findUnique] resolves it: the columns, and the
    rows of the four relations that the query includes. *)
Record CartSettings := {
  columns : Obj;
  row_rewardTiers : list Obj;
  row_upsells : list Obj;
  row_addOns : list Obj;
  row_bxgyOffers : list Obj
}.

Definition settings_object (settings : CartSettings) : Obj :=
  columns settings
  ++ [ ("rewardTiers", JS.JArr (JS.JObj <$> row_rewardTiers settings));
       ("upsells", JS.JArr (JS.JObj <$> row_upsells settings));
       ("addOns", JS.JArr (JS.JObj <$> row_addOns settings));
       ("bxgyOffers", JS.JArr (JS.JObj <$> row_bxgyOffers settings)) ].

Record Reply := {
  status : Z;
  reply_headers : list (string * string);
  reply_body : JS.json
}.

(** Header names are compared without regard to case. *)
Fixpoint lower (s : string) : string :=
  match s with
  | EmptyString => EmptyString
  | String a s' =>
      let n := Ascii.N_of_ascii a in
      String (if ((65 <=? n) && (n <=? 90))%N then Ascii.ascii_of_N (n + 32) else a)
             (lower s')
  end.

(** [headers.has(name)] *)
Definition has_header (name : string) (headers : list (string * string)) : bool :=
  existsb (fun kv => String.eqb (lower (fst kv)) (lower name)) headers.

(** [json(data, { status, headers })] of [@remix-run/node]: the reply
    carries the given headers, and a [Content-Type] of its own unless the
    caller gave one. *)
Definition json (data : JS.json) (status : Z) (headers : list (string * string))
  : Reply :=
  {| status := status;
     reply_headers :=
       if has_header "Content-Type" headers then headers
       else headers ++ [("Content-Type", "application/json; charset=utf-8")];
     reply_body := data |}.

(** [({ id, cartSettingsId, createdAt, updatedAt, ...row }) => row] *)
Definition public_row (row : Obj) : JS.json :=
  JS.JObj (rest_without ["id"; "cartSettingsId"; "createdAt"; "updatedAt"] row).

(** The body of both loaders. [shop] is the query parameter, [None] when
    absent; [findUnique] is the database, [None] when the query throws. *)
Definition loader_body (headers : list (string * string)) (getDefaultSettings : Obj)
    (findUnique : string -> option (option CartSettings)) (shop : option string)
  : Reply :=
  match shop with
  | None | Some EmptyString =>
      json (JS.JObj [("error", JS.JStr "Shop parameter required")]) 400 headers
  | Some shop =>
      match findUnique shop with
      | None => json (JS.JObj [("error", JS.JStr "Failed to fetch settings")]) 500 headers
      | Some None =>
          json (JS.JObj [ ("settings", JS.JObj getDefaultSettings);
                          ("rewardTiers", JS.JArr []);
                          ("upsells", JS.JArr []);
                          ("addOns", JS.JArr []);
                          ("bxgyOffers", JS.JArr []) ]) 200 headers
      | Some (Some settings) =>
          let publicSettings :=
            rest_without ["id"; "shop"; "createdAt"; "updatedAt"]
                         (settings_object settings) in
          json (JS.JObj
                  [ ("settings", JS.JObj publicSettings);
                    ("rewardTiers", JS.JArr (public_row <$> row_rewardTiers settings));
                    ("upsells", JS.JArr (public_row <$> row_upsells settings));
                    ("addOns", JS.JArr (public_row <$> row_addOns settings));
                    ("bxgyOffers", JS.JArr (public_row <$> row_bxgyOffers settings)) ])
               200 headers
      end
  end.

(** [app/routes/api.proxy.ts] *)
Module Proxy.

Definition headers : list (string * string) :=
  [ ("Access-Control-Allow-Origin", "*");
    ("Access-Control-Allow-Methods", "GET, OPTIONS");
    ("Access-Control-Allow-Headers", "Content-Type");
    ("Cache-Control", "no-cache, no-store, must-revalidate");
    ("Content-Type", "application/json") ].

Definition getDefaultSettings : Obj :=
  [
    ("enabled", JS.JBool true);
    ("cartTitle", JS.JStr "Your Cart");
    ("emptyCartText", JS.JStr "Your cart is empty");
    ("emptyCartBtnText", JS.JStr "Continue Shopping");
    ("emptyCartBtnUrl", JS.JStr "/collections/all");
    ("announcementEnabled", JS.JBool true);
    ("announcementText", JS.JStr "Free shipping on orders over $50!");
    ("announcementBgColor", JS.JStr "#000000");
    ("announcementTextColor", JS.JStr "#ffffff");
    ("announcementLink", JS.JNull);
    ("announcementIcon", JS.JNull);
    ("timerEnabled", JS.JBool false);
    ("timerType", JS.JStr "daily");
    ("timerDailyReset", JS.JStr "00:00");
    ("timerFixedEnd", JS.JNull);
    ("timerDuration", JS.JNum 30);
    ("timerExpiredAction", JS.JStr "hide");
    ("progressBarEnabled", JS.JBool true);
    ("progressBarBgColor", JS.JStr "#e5e7eb");
    ("progressBarFillColor", JS.JStr "#10b981");
    ("progressBarTextColor", JS.JStr "#1a1a1a");
    ("bxgyEnabled", JS.JBool false);
    ("bxgyBgColor", JS.JStr "#e5e7eb");
    ("bxgyFillColor", JS.JStr "#6366f1");
    ("bxgyTextColor", JS.JStr "#1a1a1a");
    ("checkoutBtnText", JS.JStr "Checkout");
    ("checkoutBtnBgColor", JS.JStr "#000000");
    ("checkoutBtnTextColor", JS.JStr "#ffffff");
    ("showViewCartLink", JS.JBool true);
    ("showSubtotal", JS.JBool true);
    ("subtotalLabel", JS.JStr "Subtotal");
    ("taxShippingNote", JS.JStr "Shipping & taxes calculated at checkout");
    ("upsellsEnabled", JS.JBool false);
    ("upsellsTitle", JS.JStr "You may also like");
    ("upsellsStyle", JS.JStr "list");
    ("addOnsEnabled", JS.JBool false);
    ("addOnsTitle", JS.JStr "Add to your order");
    ("drawerWidth", JS.JNum 420);
    ("drawerPosition", JS.JStr "right");
    ("overlayColor", JS.JStr "rgba(0, 0, 0, 0.5)");
    ("drawerBgColor", JS.JStr "#ffffff");
    ("drawerTextColor", JS.JStr "#1a1a1a");
    ("drawerBorderRadius", JS.JNum 0);
    ("fontFamily", JS.JStr "inherit");
    ("showItemImage", JS.JBool true);
    ("showItemVariant", JS.JBool true);
    ("showItemVendor", JS.JBool false);
    ("showQuantitySelector", JS.JBool true);
    ("showRemoveButton", JS.JBool true);
    ("itemImageSize", JS.JNum 80) ].

Definition loader := loader_body headers getDefaultSettings.

End Proxy.

(** The route of [GET /api/settings] *)
Module Settings.

Definition headers : list (string * string) :=
  [ ("Access-Control-Allow-Origin", "*");
    ("Access-Control-Allow-Methods", "GET, OPTIONS");
    ("Access-Control-Allow-Headers", "Content-Type");
    ("Cache-Control", "no-cache, no-store, must-revalidate") ].

Definition getDefaultSettings : Obj :=
  [
    ("enabled", JS.JBool true);
    ("cartTitle", JS.JStr "Your Cart");
    ("emptyCartText", JS.JStr "Your cart is empty");
    ("emptyCartBtnText", JS.JStr "Continue Shopping");
    ("emptyCartBtnUrl", JS.JStr "/collections/all");
    ("announcementEnabled", JS.JBool true);
    ("announcementText", JS.JStr "Free shipping on orders over $50!");
    ("announcementBgColor", JS.JStr "#000000");
    ("announcementTextColor", JS.JStr "#ffffff");
    ("announcementLink", JS.JNull);
    ("announcementIcon", JS.JNull);
    ("progressBarEnabled", JS.JBool true);
    ("progressBarBgColor", JS.JStr "#e5e7eb");
    ("progressBarFillColor", JS.JStr "#10b981");
    ("progressBarTextColor", JS.JStr "#1a1a1a");
    ("checkoutBtnText", JS.JStr "Checkout");
    ("checkoutBtnBgColor", JS.JStr "#000000");
    ("checkoutBtnTextColor", JS.JStr "#ffffff");
    ("showViewCartLink", JS.JBool true);
    ("showSubtotal", JS.JBool true);
    ("subtotalLabel", JS.JStr "Subtotal");
    ("taxShippingNote", JS.JStr "Shipping & taxes calculated at checkout");
    ("upsellsEnabled", JS.JBool false);
    ("upsellsTitle", JS.JStr "You may also like");
    ("upsellsStyle", JS.JStr "list");
    ("addOnsEnabled", JS.JBool false);
    ("addOnsTitle", JS.JStr "Add to your order");
    ("drawerWidth", JS.JNum 420);
    ("drawerPosition", JS.JStr "right");
    ("overlayColor", JS.JStr "rgba(0, 0, 0, 0.5)");
    ("drawerBgColor", JS.JStr "#ffffff");
    ("drawerTextColor", JS.JStr "#1a1a1a");
    ("drawerBorderRadius", JS.JNum 0);
    ("fontFamily", JS.JStr "inherit");
    ("showItemImage", JS.JBool true);
    ("showItemVariant", JS.JBool true);
    ("showItemVendor", JS.JBool false);
    ("showQuantitySelector", JS.JBool true);
    ("showRemoveButton", JS.JBool true);
    ("itemImageSize", JS.JNum 80) ].

Definition loader := loader_body headers getDefaultSettings.

(** The handler of the other methods; an [OPTIONS] preflight gets an empty
    answer. *)
Definition action (method : string) : Reply :=
  if String.eqb method "OPTIONS" then
    {| status := 204;
       reply_headers :=
         [ ("Access-Control-Allow-Origin", "*");
           ("Access-Control-Allow-Methods", "GET, OPTIONS");
           ("Access-Control-Allow-Headers", "Content-Type") ];
       reply_body := JS.JNull |}
  else json (JS.JObj [("error", JS.JStr "Method not allowed")]) 405 [].

End Settings.

End Server.

(** ** Definitions used to state the properties *)

Definition sumZ (l : list Z) : Z := foldr Z.add 0 l.

(** The qualifying quantity in the words of the specification: the sum of
    the quantities of the lines that satisfy the offer's product predicate,
    leaving out the lines tagged as free gift or as BXGY free item. *)
Definition qualifying_line (JSON_parse : string -> option JS.json)
    (offer : BxgyOffer) (item : CartItem) : bool :=
  itemQualifiesForBxgy JSON_parse item offer
  && negb (is_free_gift item) && negb (is_bxgy_free item).

Definition qualifyingQuantity_spec (JSON_parse : string -> option JS.json)
    (cart : Cart) (offer : BxgyOffer) : Z :=
  sumZ (List.map quantity (List.filter (qualifying_line JSON_parse offer) (items cart))).

(** The same offer with another scope. *)
Definition rescope (offer : BxgyOffer) (type : string) (ids : option string)
  : BxgyOffer :=
  {| offer_title := offer_title offer; buyQuantity := buyQuantity offer;
     getQuantity := getQuantity offer; rewardMode := rewardMode offer;
     appliesToType := type; productIds := ids;
     selectionProductIds := selectionProductIds offer;
     automaticProductHandle := automaticProductHandle offer |}.

(** Sum of the values of a [Map]. *)
Definition map_sum (m : gmap string Z) : Z :=
  map_fold (fun _ v acc => v + acc) 0 m.

(** The requests that the loop of [removeBxgyFreeItems] is about to send,
    one per line, while units remain to be removed. *)
Fixpoint plannedChanges (freeItems : list CartItem) (remaining : Z) : list Request :=
  match freeItems with
  | [] => []
  | item :: rest =>
      if remaining <=? 0 then []
      else
        let removeQty := Z.min (quantity item) remaining in
        CartChange (key item) (quantity item - removeQty)
        :: plannedChanges rest (remaining - removeQty)
  end.

(** Of the requests [reqs], sent one after the other from request number
    [n] on, those that go out when sending stops at the first rejected one;
    the flag tells whether one was rejected. *)
Fixpoint sentUntilRejected (net : nat -> Response) (n : nat) (reqs : list Request)
  : list Request * bool :=
  match reqs with
  | [] => ([], false)
  | r :: rest =>
      match net n with
      | Rejected => ([r], true)
      | Http _ _ =>
          let '(sent, rejected) := sentUntilRejected net (S n) rest in
          (r :: sent, rejected)
      end
  end.

Definition set_bxgyOffers v (s : PopCart) : PopCart :=
  {| bxgyEnabled := bxgyEnabled s; rewardTiers := rewardTiers s; bxgyOffers := v;
     this_cart := this_cart s; isApplyingBxgy := isApplyingBxgy s;
     lastBxgyState := lastBxgyState s; isInternalCartUpdate := isInternalCartUpdate s;
     bxgyFreeItemKeys := bxgyFreeItemKeys s; selectionPickerActive := selectionPickerActive s;
     lastBxgyActionTime := lastBxgyActionTime s; remainingFreeSlots := remainingFreeSlots s;
     selectionProductsCache := selectionProductsCache s;
     selectionProductsLoading := selectionProductsLoading s;
     appliedRewards := appliedRewards s; lastRewardsState := lastRewardsState s;
     bxgyProgress := bxgyProgress s; requests := requests s; ticks := ticks s;
     timers := timers s |}.

Definition outcome_map {A} (f : PopCart -> PopCart) (o : Outcome A) : Outcome A :=
  match o with
  | Diverges => Diverges
  | Returns a s => Returns a (f s)
  | Throws e s => Throws e (f s)
  end.

(** The state that an outcome leaves, [d] when there is none. *)
Definition final_state (o : Outcome unit) (d : PopCart) : PopCart :=
  match o with
  | Returns _ s => s
  | Throws _ s => s
  | Diverges => d
  end.

(** [m] relates every state it starts from to the state it leaves. *)
Definition keeps (Rel : PopCart -> PopCart -> Prop) {A} (m : M A) : Prop :=
  forall s,
    match m s with
    | Diverges => True
    | Returns _ s' => Rel s s'
    | Throws _ s' => Rel s s'
    end.

(** [m] never runs forever. *)
Definition halts {A} (m : M A) : Prop := forall s, m s <> Diverges.

(** [m] always returns: it neither runs forever nor throws. *)
Definition safe {A} (m : M A) : Prop := forall s, exists a s', m s = Returns a s'.

(** The part of the controller that the reward-tier pass owns. *)
Definition rewards_of (s : PopCart) : list RewardTier * JS.StrSet * (Z * bool) :=
  (rewardTiers s, appliedRewards s, lastRewardsState s).

Definition same_rewards (s s' : PopCart) : Prop := rewards_of s' = rewards_of s.

(** The controller with its offer list cut down to the first offer. *)
Definition firstOfferOnly (s : PopCart) : PopCart :=
  set_bxgyOffers (take 1 (bxgyOffers s)) s.

(** [m] does not look past the first offer. *)
Definition firstOfferSuffices {A} (m : M A) : Prop :=
  forall s, outcome_map firstOfferOnly (m s)
            = outcome_map firstOfferOnly (m (firstOfferOnly s)).

Definition sortedTiers (s : PopCart) : list RewardTier :=
  sort_by threshold (rewardTiers s).

(** The keys of the tiers that a cart unlocks. *)
Definition unlockedKeys (s : PopCart) (cart : Cart) : list string :=
  List.map rewardKey (unlockedTiers (sortedTiers s) cart).


(** What a pass over a cart of at least the same total may do to the tiers
    and to the applied set while another pass is waiting: the tiers stay
    the same up to sorting, the keys that the snapshot unlocks stay
    applied, and the slots of the set are only emptied or appended to. *)
Definition rewards_rel (cart : Cart) (s s' : PopCart) : Prop :=
  sortedTiers s' = sortedTiers s
  /\ (StronglySorted (fun a b => threshold a <= threshold b) (rewardTiers s) ->
      rewardTiers s' = rewardTiers s)
  /\ (forall k, k ∈ unlockedKeys s cart ->
                Some k ∈ appliedRewards s -> Some k ∈ appliedRewards s')
  /\ (length (appliedRewards s) <= length (appliedRewards s'))%nat
  /\ (forall j k, appliedRewards s' !! j = Some (Some k) ->
                  appliedRewards s !! j = Some (Some k)
                  \/ (length (appliedRewards s) <= j)%nat).

Definition is_percent (t : RewardTier) : Prop := rewardType t = "discount_percent".

(** [b] is a best choice among the discount tiers [l]: a percent tier as
    soon as there is one, and of the largest value among the tiers of its
    type. *)
Definition best_of (parseFloat : string -> option Q) (l : list RewardTier)
    (b : RewardTier) : Prop :=
  b ∈ l
  /\ ((exists t, t ∈ l /\ is_percent t) -> is_percent b)
  /\ (forall t, t ∈ l -> rewardType t = rewardType b ->
        exists w v, rewardNumber parseFloat t = Some w
                    /\ rewardNumber parseFloat b = Some v /\ (w <= v)%Q).

Definition numeric_discount (parseFloat : string -> option Q) (t : RewardTier) : Prop :=
  is_discount t = true /\ is_Some (rewardNumber parseFloat t).

(** A number below 100 written with two decimal digits. *)
Definition digitChar (d : Z) : Ascii.ascii := Ascii.ascii_of_N (Z.to_N (48 + d)).

Definition twoDigits (n : Z) : string :=
  String (digitChar (n / 10)) (String (digitChar (n mod 10)) EmptyString).

(** What [addAutomaticBxgyItem] sends when the next request is number [n]:
    the product lookup and, once the product is read and has a variant, the
    request that adds [qty] units of its first variant. *)
Definition automaticSent (net : nat -> Response) (n : nat) (offer : BxgyOffer)
    (handle : string) (qty : Z) : list Request :=
  match net n with
  | Http true (BProduct p) =>
      match variants p with
      | variant :: _ =>
          [GetProduct handle; CartAdd variant qty (bxgyFreeProperties (offer_title offer))]
      | [] => [GetProduct handle]
      end
  | _ => [GetProduct handle]
  end.

(** No refresh was scheduled between two states of the controller. *)
Definition same_timers (s s' : PopCart) : Prop := timers s' = timers s.

(** Between two states nothing was sent, no refresh was scheduled, and the
    cart, the tiers and the recorded reward state were left alone. *)
Definition quiet (s s' : PopCart) : Prop :=
  requests s' = requests s /\ timers s' = timers s /\ this_cart s' = this_cart s
  /\ rewardTiers s' = rewardTiers s /\ lastRewardsState s' = lastRewardsState s
  /\ isInternalCartUpdate s' = isInternalCartUpdate s.

(** The properties of the object that a reply carries. *)
Definition body_fields (reply : Server.Reply) : Server.Obj :=
  match Server.reply_body reply with
  | JS.JObj o => o
  | _ => []
  end.

(** ** Example data *)

Definition ex_line (k : string) (id q p : Z) (tags : list (string * string)) : CartItem :=
  {| key := k; product_id := id; variant_id := id; quantity := q; price := p;
     properties := list_to_map tags |}.

(** The controller once the settings are loaded. *)
Definition ex_loaded (enabled : bool) (tiers : list RewardTier)
    (offers : list BxgyOffer) : PopCart :=
  final_state (loadSettings enabled tiers offers constructor) constructor.

(** An offer that names no products for the picker, and the same offer
    with two products to pick from. *)
Definition ex_offer (B G : Z) (mode scope : string) : BxgyOffer :=
  {| offer_title := "Bundle"; buyQuantity := B; getQuantity := G; rewardMode := mode;
     appliesToType := scope; productIds := None; selectionProductIds := "";
     automaticProductHandle := "sticker" |}.

Definition ex_offer_picker (B G : Z) : BxgyOffer :=
  {| offer_title := "Bundle"; buyQuantity := B; getQuantity := G;
     rewardMode := "selection"; appliesToType := "all"; productIds := None;
     selectionProductIds := "tee, cap"; automaticProductHandle := "" |}.

(** A [JSON.parse] that rejects every text, and a [parseFloat] that reads
    unsigned decimal integers. *)
Definition no_JSON : string -> option JS.json := fun _ => None.

Definition ex_parseFloat (s : string) : option Q :=
  inject_Z <$> JS.digits 10 None s.

Definition bxgy_free_tag : list (string * string) := [("_popcart_bxgy_free", "true")].

(** Lines A ($5, 3 units), B ($2, 2 units), C ($8, 1 unit). *)
Definition ex_cart_abc : Cart :=
  {| items := [ex_line "A" 1 3 500 []; ex_line "B" 2 2 200 []; ex_line "C" 3 1 800 []];
     total_price := 2700; item_count := 6 |}.

(** Two paid units and two free BXGY lines of one unit each. *)
Definition ex_cart_free : Cart :=
  {| items := [ex_line "A" 1 2 500 []; ex_line "F1" 7 1 300 bxgy_free_tag;
               ex_line "F2" 8 1 400 bxgy_free_tag];
     total_price := 1700; item_count := 4 |}.

Definition ex_tier_gift : RewardTier :=
  {| threshold := 1000; rewardType := "free_gift"; rewardValue := Some "mug";
     tier_title := "Mug" |}.

Definition ex_tier_ship : RewardTier :=
  {| threshold := 500; rewardType := "free_shipping"; rewardValue := None;
     tier_title := "Ship" |}.

Definition ex_tier_pct (v : string) : RewardTier :=
  {| threshold := 500; rewardType := "discount_percent"; rewardValue := Some v;
     tier_title := "Pct" |}.

Definition ex_tier_fix (v : string) : RewardTier :=
  {| threshold := 700; rewardType := "discount_fixed"; rewardValue := Some v;
     tier_title := "Fix" |}.

Definition ex_now (n : nat) : Z := 10000 + Z.of_nat n.


Definition ex_cart0 : Cart :=
  {| items := [ex_line "A" 1 3 500 []]; total_price := 1500; item_count := 3 |}.




(** The first request is rejected, the later ones succeed. *)
Definition ex_net_first_rejected (n : nat) : Response :=
  match n with
  | 0%nat => Rejected
  | _ => Http true BOther
  end.

(** The product lookup answers with an error status. *)
Definition ex_net_not_found (n : nat) : Response := Http false BOther.

Definition ex_net_ok (n : nat) : Response := Http true BOther.

Definition ex_state0 : PopCart :=
  ex_loaded true [ex_tier_gift; ex_tier_ship] [ex_offer 3 1 "selection" "all"].


(** Settings with a selection offer that has two products to pick from:
    loading them has begun. *)
Definition ex_state_picker : PopCart := ex_loaded true [] [ex_offer_picker 3 1].

Definition ex_two_offers : PopCart :=
  ex_loaded true []
    [ex_offer 3 3 "cheapest_in_cart" "all"; ex_offer 5 1 "selection" "all"].

Definition ex_second_offer_only : PopCart :=
  ex_loaded true [] [ex_offer 5 1 "selection" "all"].

(** An offer for two products, the first written as a GID (the quotes of
    the JSON text are left out), and a [JSON.parse] that reads this text. *)
Definition ex_offer_products : BxgyOffer :=
  {| offer_title := "Bundle"; buyQuantity := 3; getQuantity := 1;
     rewardMode := "selection"; appliesToType := "products";
     productIds := Some "[gid://shopify/Product/42, 7]";
     selectionProductIds := "tee"; automaticProductHandle := "" |}.

Definition ex_JSON_ids (s : string) : option JS.json :=
  if String.eqb s "[gid://shopify/Product/42, 7]"
  then Some (JS.JArr [JS.JStr "gid://shopify/Product/42"; JS.JStr "7"])
  else None.

(** The same list with the second id written as a number. *)
Definition ex_JSON_number (s : string) : option JS.json :=
  if String.eqb s "[gid://shopify/Product/42, 7]"
  then Some (JS.JArr [JS.JStr "gid://shopify/Product/42"; JS.JNum 7])
  else None.

(** Automatic mode: the sticker is found, and every request succeeds. *)
Definition ex_sticker : Product := {| product_title := "Sticker"; variants := [55] |}.

Definition ex_net_sticker (n : nat) : Response :=
  match n with
  | 0%nat => Http true (BProduct ex_sticker)
  | _ => Http true BOther
  end.

Definition ex_state_auto : PopCart :=
  ex_loaded true [] [ex_offer 3 1 "automatic" "all"].



(** Free shipping and ten percent off, both from $5 on, and no gift. *)
Definition ex_state_attr : PopCart :=
  ex_loaded true [ex_tier_ship; ex_tier_pct "10"] [].

(** A database with one shop, which has one reward tier. *)
Definition ex_settings_row : Server.CartSettings :=
  {| Server.columns :=
       [ ("id", JS.JStr "cs_1"); ("shop", JS.JStr "toys.example");
         ("createdAt", JS.JStr "2026-01-14"); ("updatedAt", JS.JStr "2026-01-15");
         ("enabled", JS.JBool true); ("cartTitle", JS.JStr "Your Cart") ];
     Server.row_rewardTiers :=
       [ [ ("id", JS.JStr "tier_1"); ("cartSettingsId", JS.JStr "cs_1");
           ("threshold", JS.JNum 1000); ("rewardType", JS.JStr "free_gift") ] ];
     Server.row_upsells := []; Server.row_addOns := []; Server.row_bxgyOffers := [] |}.

Definition ex_db (shop : string) : option (option Server.CartSettings) :=
  if String.eqb shop "toys.example" then Some (Some ex_settings_row) else Some None.










(** * Properties *)

(** ** Qualification *)

Section QualificationFacts.
Variable JSON_parse : string -> option JS.json.

Lemma qualifying_fold_acc offer l acc :
  fold_left
    (fun totalQty item =>
       if is_free_gift item then totalQty
       else if is_bxgy_free item then totalQty
       else if itemQualifiesForBxgy JSON_parse item offer then totalQty + quantity item
       else totalQty) l acc
  = acc + sumZ (List.map quantity (List.filter (qualifying_line JSON_parse offer) l)).
Proof.
  revert acc. induction l as [|item l IH]; intros acc; simpl.
  - unfold sumZ. simpl. lia.
  - rewrite IH. unfold qualifying_line at 2.
    destruct (is_free_gift item), (is_bxgy_free item),
      (itemQualifiesForBxgy JSON_parse item offer); simpl; unfold sumZ; simpl; lia.
Qed.

Lemma calculateBxgyQualifyingQuantity_spec cart offer :
  calculateBxgyQualifyingQuantity JSON_parse cart offer
  = qualifyingQuantity_spec JSON_parse cart offer.
Proof.
  unfold calculateBxgyQualifyingQuantity, qualifyingQuantity_spec.
  rewrite qualifying_fold_acc. lia.
Qed.

Lemma itemQualifies_collection item offer :
  appliesToType offer = "collection" ->
  itemQualifiesForBxgy JSON_parse item offer = true.
Proof. intros H. unfold itemQualifiesForBxgy. rewrite H. reflexivity. Qed.

Lemma itemQualifies_all item offer :
  appliesToType offer = "all" ->
  itemQualifiesForBxgy JSON_parse item offer = true.
Proof. intros H. unfold itemQualifiesForBxgy. rewrite H. reflexivity. Qed.

Lemma itemQualifies_products_unparsable item offer ids :
  JSON_parse ids = None ->
  itemQualifiesForBxgy JSON_parse item (rescope offer "products" (Some ids)) = false.
Proof.
  intros H. unfold itemQualifiesForBxgy. simpl. rewrite H.
  destruct (negb (String.eqb ids "")); reflexivity.
Qed.

End QualificationFacts.

(** C10. An offer scoped to a collection qualifies every cart line,
    whatever the line is: the qualification predicate returns [true], so
    the qualifying quantity is the one the same offer would have with scope
    [all]. The [products] scope behaves differently: a product-id list that
    does not parse matches no line. *)
Theorem collection_scope_qualifies_every_item
    (JSON_parse : string -> option JS.json) (item : CartItem) (offer : BxgyOffer) :
  appliesToType offer = "collection" ->
  itemQualifiesForBxgy JSON_parse item offer = true
  /\ (forall cart,
        calculateBxgyQualifyingQuantity JSON_parse cart offer
        = calculateBxgyQualifyingQuantity JSON_parse cart (rescope offer "all" (productIds offer)))
  /\ (forall ids,
        JSON_parse ids = None ->
        itemQualifiesForBxgy JSON_parse item (rescope offer "products" (Some ids)) = false).
Proof.
  intros Hc. split; [|split].
  - by apply itemQualifies_collection.
  - intros cart. rewrite !calculateBxgyQualifyingQuantity_spec.
    unfold qualifyingQuantity_spec. f_equal. f_equal.
    apply filter_ext. intros it. unfold qualifying_line.
    rewrite (itemQualifies_collection JSON_parse it offer Hc).
    by rewrite (itemQualifies_all JSON_parse it
                  (rescope offer "all" (productIds offer)) eq_refl).
  - intros ids Hp. by apply itemQualifies_products_unparsable.
Qed.

(** ** Entitlement *)

Lemma or_num_pos x d : 1 <= x -> JS.or_num x d = x.
Proof. intros H. unfold JS.or_num. destruct (Z.eqb_spec x 0); lia. Qed.

(** C1. In cheapest-in-cart mode with B >= 1 and G >= 1, the progress
    pass computes the qualifying quantity Q as the sum of the quantities of
    the qualifying lines that are not tagged free, and earns
    max(0, min(G, Q - B)) free items: this is the entitlement it draws and
    hands to the cheapest-item allocator. With Q = B nothing is earned. *)
Theorem cheapest_in_cart_entitlement
    (JSON_parse : string -> option JS.json) (s : PopCart) (cart : Cart)
    (offer : BxgyOffer) (rest : list BxgyOffer) :
  bxgyEnabled s = true ->
  bxgyOffers s = offer :: rest ->
  JS.or_str (rewardMode offer) "cheapest_in_cart" = "cheapest_in_cart" ->
  1 <= buyQuantity offer ->
  1 <= getQuantity offer ->
  let Q := qualifyingQuantity_spec JSON_parse cart offer in
  let earned := Z.max 0 (Z.min (getQuantity offer) (Q - buyQuantity offer)) in
  calculateBxgyQualifyingQuantity JSON_parse cart offer = Q
  /\ progressEarnedFreeItems offer Q = earned
  /\ (exists s',
        updateBxgyProgress JSON_parse cart s = Returns tt s'
        /\ bxgyProgress s' = Some (Q, earned, countBxgyFreeItemsInCart cart)
        /\ bxgyFreeItemKeys s' = calculateCheapestFreeItems JSON_parse cart offer earned)
  /\ (Q = buyQuantity offer -> earned = 0).
Proof.
  intros Hen Hoff Hmode HB HG Q earned.
  assert (HQ : calculateBxgyQualifyingQuantity JSON_parse cart offer = Q)
    by apply calculateBxgyQualifyingQuantity_spec.
  assert (He : progressEarnedFreeItems offer Q = earned).
  { unfold progressEarnedFreeItems. rewrite Hmode. simpl.
    by rewrite !or_num_pos. }
  split; [done|]. split; [done|]. split.
  - unfold updateBxgyProgress, this, assign, mbind, M_bind.
    rewrite Hen, Hoff. simpl. rewrite HQ, He, Hmode. simpl.
    eexists. split; [reflexivity|]. simpl. done.
  - intros HQB. subst earned. lia.
Qed.

(** ** The stable sort *)

Section SortByFacts.
Context {A : Type} (f : A -> Z).

Lemma insert_by_Permutation x l : insert_by f x l ≡ₚ x :: l.
Proof.
  induction l as [|y l IH]; simpl; [done|].
  destruct (f x <=? f y); [done|].
  rewrite IH. apply perm_swap.
Qed.

Lemma sort_by_Permutation l : sort_by f l ≡ₚ l.
Proof.
  induction l as [|x l IH]; simpl; [done|].
  by rewrite insert_by_Permutation, IH.
Qed.

Lemma insert_by_sorted x l :
  StronglySorted (le_by f) l -> StronglySorted (le_by f) (insert_by f x l).
Proof.
  induction l as [|y l IH]; intros Hs; simpl.
  - repeat constructor.
  - apply StronglySorted_inv in Hs as [Hl Hy].
    destruct (Z.leb_spec (f x) (f y)) as [Hxy|Hxy].
    + constructor; [by constructor|].
      constructor; [done|].
      eapply Forall_impl; [exact Hy|]. intros z Hz. unfold le_by in *. lia.
    + constructor; [by apply IH|].
      rewrite insert_by_Permutation. constructor; [|done].
      unfold le_by. lia.
Qed.

Lemma sort_by_sorted l : StronglySorted (le_by f) (sort_by f l).
Proof.
  induction l as [|x l IH]; simpl; [constructor|]. by apply insert_by_sorted.
Qed.

Lemma insert_by_filter_eq p x l :
  List.filter (fun a => f a =? p) (insert_by f x l)
  = List.filter (fun a => f a =? p) (x :: l).
Proof.
  induction l as [|y l IH]; [done|].
  cbn [insert_by]. destruct (Z.leb_spec (f x) (f y)) as [Hxy|Hxy]; [done|].
  cbn [List.filter] in *. rewrite IH.
  destruct (Z.eqb_spec (f x) p), (Z.eqb_spec (f y) p); try done. lia.
Qed.

(** Stability: lines of equal key keep their original relative order. *)
Lemma sort_by_stable p l :
  List.filter (fun a => f a =? p) (sort_by f l)
  = List.filter (fun a => f a =? p) l.
Proof.
  induction l as [|x l IH]; [done|].
  cbn [sort_by]. rewrite insert_by_filter_eq. cbn [List.filter]. by rewrite IH.
Qed.




End SortByFacts.

(** ** The cheapest-item allocator *)

Lemma sumZ_app l1 l2 : sumZ (l1 ++ l2) = sumZ l1 + sumZ l2.
Proof. unfold sumZ. induction l1; simpl; lia. Qed.

Lemma sumZ_nonneg l : Forall (fun z => 0 <= z) l -> 0 <= sumZ l.
Proof. unfold sumZ. induction 1; simpl; lia. Qed.

Lemma sumZ_Permutation l1 l2 : l1 ≡ₚ l2 -> sumZ l1 = sumZ l2.
Proof. unfold sumZ. induction 1; simpl; lia. Qed.

Lemma map_sum_empty : map_sum ∅ = 0.
Proof. unfold map_sum. apply map_fold_empty. Qed.

Lemma map_sum_insert (m : gmap string Z) k v :
  m !! k = None -> map_sum (<[k:=v]> m) = v + map_sum m.
Proof.
  intros H. unfold map_sum. rewrite map_fold_insert_L; [done| |done].
  intros. lia.
Qed.

Lemma elem_of_List_map {A B} (f : A -> B) (l : list A) (x : A) :
  x ∈ l -> f x ∈ List.map f l.
Proof. intros H. apply list_elem_of_In, in_map, list_elem_of_In, H. Qed.

Lemma elem_of_List_filter {A} (P : A -> bool) (l : list A) (x : A) :
  x ∈ List.filter P l <-> x ∈ l /\ P x = true.
Proof. rewrite !list_elem_of_In. apply filter_In. Qed.

Lemma allocate_lookup_notin l r (m : gmap string Z) k :
  k ∉ List.map key l -> allocate l r m !! k = m !! k.
Proof.
  revert r m. induction l as [|item l IH]; intros r m Hk; simpl; [done|].
  destruct (r <=? 0); [done|].
  simpl in Hk. apply not_elem_of_cons in Hk as [Hne Hk].
  rewrite IH by done. by rewrite lookup_insert_ne.
Qed.

Lemma allocate_lookup_mid before item after r (m : gmap string Z) :
  Forall (fun i => 0 <= quantity i) before ->
  key item ∉ List.map key before ->
  key item ∉ List.map key after ->
  allocate (before ++ item :: after) r m !! key item
  = let remaining := r - sumZ (List.map quantity before) in
    if 0 <? remaining then Some (Z.min (quantity item) remaining)
    else m !! key item.
Proof.
  revert r m. induction before as [|b before IH]; intros r m Hq Hb Ha; simpl.
  - unfold sumZ. simpl. replace (r - 0) with r by lia.
    destruct (Z.leb_spec r 0), (Z.ltb_spec 0 r); try lia; [done|].
    rewrite allocate_lookup_notin by done. by rewrite lookup_insert_eq.
  - apply Forall_cons in Hq as [Hqb Hq].
    simpl in Hb. apply not_elem_of_cons in Hb as [Hne Hb].
    pose proof (sumZ_nonneg (List.map quantity before)) as Hs.
    rewrite Forall_map in Hs. specialize (Hs Hq).
    change (sumZ (quantity b :: List.map quantity before))
      with (quantity b + sumZ (List.map quantity before)).
    destruct (Z.leb_spec r 0).
    + destruct (Z.ltb_spec 0 (r - (quantity b + sumZ (List.map quantity before))));
        [lia|done].
    + rewrite IH by done. simpl.
      rewrite lookup_insert_ne by done.
      destruct (Z.ltb_spec 0 (r - Z.min (quantity b) r - sumZ (List.map quantity before))),
        (Z.ltb_spec 0 (r - (quantity b + sumZ (List.map quantity before))));
        try done; try lia.
      f_equal. lia.
Qed.

Lemma allocate_sum l r (m : gmap string Z) :
  NoDup (List.map key l) ->
  Forall (fun i => m !! key i = None) l ->
  Forall (fun i => 0 <= quantity i) l ->
  map_sum (allocate l r m)
  = map_sum m + Z.min (Z.max 0 r) (sumZ (List.map quantity l)).
Proof.
  revert r m. induction l as [|item l IH]; intros r m Hnd Hm Hq; simpl.
  - unfold sumZ. simpl. lia.
  - apply Forall_cons in Hq as [Hq0 Hq].
    apply Forall_cons in Hm as [Hm0 Hm].
    simpl in Hnd. apply NoDup_cons in Hnd as [Hk Hnd].
    pose proof (sumZ_nonneg (List.map quantity l)) as Hs.
    rewrite Forall_map in Hs. specialize (Hs Hq).
    change (sumZ (quantity item :: List.map quantity l))
      with (quantity item + sumZ (List.map quantity l)).
    destruct (Z.leb_spec r 0); [lia|].
    rewrite IH; [|done| |done].
    + rewrite map_sum_insert by done. lia.
    + rewrite Forall_forall in Hm |- *. intros i Hi.
      rewrite lookup_insert_ne; [by apply Hm|].
      intros Heq. apply Hk. rewrite Heq. by apply elem_of_List_map.
Qed.

Lemma allocate_lookup_bound l r (m : gmap string Z) k n :
  Forall (fun i => 0 <= quantity i) l ->
  allocate l r m !! k = Some n ->
  m !! k = Some n
  \/ exists item, item ∈ l /\ key item = k /\ 0 <= n <= quantity item.
Proof.
  revert r m. induction l as [|item l IH]; intros r m Hq H; simpl in H; [by left|].
  apply Forall_cons in Hq as [Hq0 Hq].
  destruct (Z.leb_spec r 0); [by left|].
  apply IH in H as [H|(i & Hi & Hk & Hn)]; [| |done].
  - destruct (decide (key item = k)) as [Heq|Hne].
    + subst k. rewrite lookup_insert_eq in H. injection H as <-.
      right. exists item. split; [apply list_elem_of_here|]. split; [done|lia].
    + rewrite lookup_insert_ne in H by done. by left.
  - right. exists i. split; [by apply list_elem_of_further|done].
Qed.

Lemma NoDup_map_filter {A B} (f : A -> B) (P : A -> bool) (l : list A) :
  NoDup (List.map f l) -> NoDup (List.map f (List.filter P l)).
Proof.
  induction l as [|x l IH]; simpl; [done|].
  intros [Hx Hl]%NoDup_cons. destruct (P x); simpl; [|by apply IH].
  apply NoDup_cons. split; [|by apply IH].
  intros Hin. apply Hx.
  apply list_elem_of_In, in_map_iff in Hin as (y & Hy & Hin).
  apply filter_In in Hin as [Hin _].
  rewrite <- Hy. by apply elem_of_List_map, list_elem_of_In.
Qed.

Lemma qualifyingItems_filter JSON_parse cart offer :
  qualifyingItems JSON_parse cart offer
  = sort_by price (List.filter (qualifying_line JSON_parse offer) (items cart)).
Proof.
  unfold qualifyingItems. f_equal. apply filter_ext. intros item.
  unfold qualifying_line.
  by destruct (is_free_gift item), (is_bxgy_free item),
    (itemQualifiesForBxgy JSON_parse item offer).
Qed.

(** C2. For an entitlement N >= 0 and a cart whose lines have distinct
    keys and non-negative quantities, the allocator walks the qualifying,
    non-free lines by ascending unit price, lines of equal price in cart
    order; a line preceded in this walk by lines of total quantity S gets
    min(quantity, N - S) free units while N - S is positive and no entry
    afterwards. The free units sum up to min(N, total qualifying quantity),
    and every entry belongs to a qualifying line and lies between 0 and
    that line's quantity. *)
Theorem cheapest_allocation
    (JSON_parse : string -> option JS.json) (cart : Cart) (offer : BxgyOffer) (N : Z) :
  0 <= N ->
  NoDup (List.map key (items cart)) ->
  Forall (fun item => 0 <= quantity item) (items cart) ->
  let lines := List.filter (qualifying_line JSON_parse offer) (items cart) in
  let walk := qualifyingItems JSON_parse cart offer in
  let free := calculateCheapestFreeItems JSON_parse cart offer N in
  walk ≡ₚ lines
  /\ StronglySorted (fun a b => price a <= price b) walk
  /\ (forall p, List.filter (fun i => price i =? p) walk
                = List.filter (fun i => price i =? p) lines)
  /\ (forall before item after,
        walk = before ++ item :: after ->
        free !! key item
        = let remaining := N - sumZ (List.map quantity before) in
          if 0 <? remaining then Some (Z.min (quantity item) remaining) else None)
  /\ map_sum free = Z.min N (sumZ (List.map quantity lines))
  /\ sumZ (List.map quantity lines) = calculateBxgyQualifyingQuantity JSON_parse cart offer
  /\ (forall k n,
        free !! k = Some n ->
        exists item, item ∈ lines /\ key item = k /\ 0 <= n <= quantity item).
Proof.
  intros HN Hnd Hq lines walk free.
  assert (Hwalk : walk = sort_by price lines) by apply qualifyingItems_filter.
  assert (Hperm : walk ≡ₚ lines) by (rewrite Hwalk; apply sort_by_Permutation).
  assert (Hql : Forall (fun item => 0 <= quantity item) lines).
  { rewrite Forall_forall in Hq |- *. intros i Hi.
    apply elem_of_List_filter in Hi as [Hi _]. by apply Hq. }
  assert (Hqw : Forall (fun item => 0 <= quantity item) walk) by by rewrite Hperm.
  assert (Hndw : NoDup (List.map key walk)).
  { rewrite (Permutation_map key Hperm). by apply NoDup_map_filter. }
  assert (Hsum : sumZ (List.map quantity walk) = sumZ (List.map quantity lines))
    by (apply sumZ_Permutation, Permutation_map, Hperm).
  assert (Hs0 : 0 <= sumZ (List.map quantity lines))
    by (apply sumZ_nonneg; by rewrite Forall_map).
  split; [done|]. split.
  { rewrite Hwalk. apply (sort_by_sorted price). }
  split.
  { intros p. rewrite Hwalk. apply sort_by_stable. }
  split.
  { intros before item after Hw. subst free. unfold calculateCheapestFreeItems.
    fold walk. rewrite Hw in Hndw, Hqw.
    rewrite map_app in Hndw. simpl in Hndw.
    apply NoDup_app in Hndw as (_ & Hba & Hia).
    apply NoDup_cons in Hia as [Hia _].
    apply Forall_app in Hqw as [Hqb _].
    pose proof (sumZ_nonneg (List.map quantity before)) as Hsb.
    rewrite Forall_map in Hsb. specialize (Hsb Hqb).
    assert (Hib : key item ∉ List.map key before).
    { intros Hin. apply (Hba _ Hin). apply list_elem_of_here. }
    destruct (Z.leb_spec N 0).
    - rewrite lookup_empty. simpl.
      destruct (Z.ltb_spec 0 (N - sumZ (List.map quantity before))); [lia|done].
    - rewrite Hw, allocate_lookup_mid by done. by rewrite lookup_empty. }
  split.
  { subst free. unfold calculateCheapestFreeItems. fold walk.
    destruct (Z.leb_spec N 0).
    - rewrite map_sum_empty. lia.
    - rewrite allocate_sum; [| done | | done].
      + rewrite map_sum_empty, Hsum. lia.
      + apply Forall_forall. intros. apply lookup_empty. }
  split.
  { subst lines. symmetry. apply calculateBxgyQualifyingQuantity_spec. }
  intros k n Hk. subst free. unfold calculateCheapestFreeItems in Hk. fold walk in Hk.
  destruct (N <=? 0); [by rewrite lookup_empty in Hk|].
  apply allocate_lookup_bound in Hk as [Hk|(i & Hi & Hki & Hn)]; [| |done].
  - by rewrite lookup_empty in Hk.
  - exists i. by rewrite <- Hperm.
Qed.

(** ** The best discount *)

Section BestDiscountFacts.
Variable parseFloat : string -> option Q.

Lemma is_discount_cases t :
  is_discount t = true ->
  rewardType t = "discount_percent" \/ rewardType t = "discount_fixed".
Proof.
  unfold is_discount. intros [H|H]%orb_true_iff; apply String.eqb_eq in H; auto.
Qed.

Lemma js_gt_true a b x y :
  a = Some x -> b = Some y -> js_gt a b = true -> (y <= x)%Q.
Proof.
  intros -> ->. simpl. intros H%negb_true_iff.
  apply Qlt_le_weak, Qnot_le_lt. intros Hle.
  apply Qle_bool_iff in Hle. congruence.
Qed.

Lemma js_gt_false a b x y :
  a = Some x -> b = Some y -> js_gt a b = false -> (x <= y)%Q.
Proof.
  intros -> ->. simpl. intros H%negb_false_iff. by apply Qle_bool_iff.
Qed.

Lemma betterDiscount_best_of seen best tier :
  best_of parseFloat seen best ->
  Forall (numeric_discount parseFloat) seen ->
  numeric_discount parseFloat tier ->
  exists b, betterDiscount parseFloat (Some best) tier = Some b
            /\ best_of parseFloat (tier :: seen) b.
Proof.
  intros (Hin & Hpct & Hmax) Hseen [Hd [x Hx]].
  assert (Hbest : numeric_discount parseFloat best)
    by (rewrite Forall_forall in Hseen; by apply Hseen).
  destruct Hbest as [Hbd [y Hy]].
  assert (Hself : forall t v, rewardNumber parseFloat t = Some v ->
            exists w v', rewardNumber parseFloat t = Some w
                         /\ rewardNumber parseFloat t = Some v' /\ (w <= v')%Q).
  { intros t v Ht. exists v, v. repeat split; try done. apply Qle_refl. }
  unfold betterDiscount.
  destruct (is_discount_cases _ Hd) as [Ht|Ht],
           (is_discount_cases _ Hbd) as [Hb|Hb]; rewrite Ht, Hb; simpl.
  - (* percent against percent *)
    destruct (js_gt (rewardNumber parseFloat tier) (rewardNumber parseFloat best)) eqn:Hgt;
      eexists; (split; [reflexivity|]).
    + pose proof (js_gt_true _ _ _ _ Hx Hy Hgt) as Hle.
      split; [apply list_elem_of_here|]. split; [done|].
      intros t [->|Hts]%elem_of_cons Hty; [by eapply Hself|].
      destruct (Hmax t Hts) as (w & v & Hw & Hv & Hwv); [congruence|].
      exists w, x. repeat split; try done.
      rewrite Hy in Hv. injection Hv as <-. by eapply Qle_trans.
    + pose proof (js_gt_false _ _ _ _ Hx Hy Hgt) as Hle.
      split; [by apply list_elem_of_further|]. split; [done|].
      intros t [->|Hts]%elem_of_cons Hty; [by exists x, y|by apply Hmax].
  - (* percent against fixed *)
    eexists. split; [reflexivity|].
    split; [apply list_elem_of_here|]. split; [done|].
    intros t [->|Hts]%elem_of_cons Hty; [by eapply Hself|].
    assert (is_percent best) as Hbp
      by (apply Hpct; exists t; split; [done|unfold is_percent; congruence]).
    unfold is_percent in Hbp. congruence.
  - (* fixed against percent *)
    eexists. split; [reflexivity|].
    split; [by apply list_elem_of_further|]. split; [done|].
    intros t [->|Hts]%elem_of_cons Hty; [congruence|by apply Hmax].
  - (* fixed against fixed *)
    assert (Hnp : (exists t, t ∈ tier :: seen /\ is_percent t) -> False).
    { intros (t & [->|Hts]%elem_of_cons & Htp); unfold is_percent in *; [congruence|].
      assert (is_percent best) as Hbp by (apply Hpct; by exists t).
      unfold is_percent in Hbp. congruence. }
    destruct (js_gt (rewardNumber parseFloat tier) (rewardNumber parseFloat best)) eqn:Hgt;
      eexists; (split; [reflexivity|]).
    + pose proof (js_gt_true _ _ _ _ Hx Hy Hgt) as Hle.
      split; [apply list_elem_of_here|]. split; [by intros ?%Hnp|].
      intros t [->|Hts]%elem_of_cons Hty; [by eapply Hself|].
      destruct (Hmax t Hts) as (w & v & Hw & Hv & Hwv); [congruence|].
      exists w, x. repeat split; try done.
      rewrite Hy in Hv. injection Hv as <-. by eapply Qle_trans.
    + pose proof (js_gt_false _ _ _ _ Hx Hy Hgt) as Hle.
      split; [by apply list_elem_of_further|]. split; [by intros ?%Hnp|].
      intros t [->|Hts]%elem_of_cons Hty; [by exists x, y|by apply Hmax].
Qed.

Lemma best_of_ext l l' b :
  (forall t, t ∈ l <-> t ∈ l') -> best_of parseFloat l b -> best_of parseFloat l' b.
Proof.
  intros Hext (Hin & Hpct & Hmax). split; [by apply Hext|]. split.
  - intros (t & Ht & Hp). apply Hpct. exists t. by rewrite Hext.
  - intros t Ht. apply Hmax. by apply Hext.
Qed.

Lemma fold_betterDiscount_best_of l seen best :
  best_of parseFloat seen best ->
  Forall (numeric_discount parseFloat) seen ->
  Forall (numeric_discount parseFloat) l ->
  exists b, fold_left (betterDiscount parseFloat) l (Some best) = Some b
            /\ best_of parseFloat (l ++ seen) b.
Proof.
  revert seen best. induction l as [|t l IH]; intros seen best Hb Hs Hl.
  - by exists best.
  - apply Forall_cons in Hl as [Ht Hl].
    destruct (betterDiscount_best_of seen best t Hb Hs Ht) as (b1 & Hb1 & Hbest1).
    destruct (IH (t :: seen) b1 Hbest1) as (b & Hfold & Hbest);
      [by constructor|done|].
    exists b. cbn [fold_left]. rewrite Hb1. split; [done|].
    eapply best_of_ext; [|exact Hbest].
    intros x. simpl. rewrite !elem_of_app, !elem_of_cons, ?elem_of_app. tauto.
Qed.

Lemma bestDiscount_best_of unlocked :
  (exists t, t ∈ unlocked /\ is_discount t = true) ->
  (forall t, t ∈ unlocked -> is_discount t = true ->
             is_Some (rewardNumber parseFloat t)) ->
  exists b, bestDiscount parseFloat unlocked = Some b
            /\ best_of parseFloat (List.filter is_discount unlocked) b.
Proof.
  intros (t0 & Ht0 & Hd0) Hnum. unfold bestDiscount.
  assert (Hall : Forall (numeric_discount parseFloat) (List.filter is_discount unlocked)).
  { apply Forall_forall. intros t [Ht Hd]%elem_of_List_filter.
    split; [done|by apply Hnum]. }
  destruct (List.filter is_discount unlocked) as [|t l] eqn:Hf.
  { assert (t0 ∈ List.filter is_discount unlocked)
      by by apply elem_of_List_filter.
    rewrite Hf in *. by apply elem_of_nil in H. }
  apply Forall_cons in Hall as [[Hd [x Hx]] Hl]. simpl.
  destruct (fold_betterDiscount_best_of l [t] t) as (b & Hb & Hbest); [| |done|].
  - split; [apply list_elem_of_here|]. split.
    + by intros (? & ->%list_elem_of_singleton & ?).
    + intros ? ->%list_elem_of_singleton _. exists x, x.
      repeat split; try done. apply Qle_refl.
  - by repeat constructor.
  - exists b. split; [done|].
    eapply best_of_ext; [|exact Hbest].
    intros y. rewrite elem_of_app, !elem_of_cons, elem_of_nil. tauto.
Qed.

End BestDiscountFacts.

Lemma is_discount_same_type t b :
  rewardType t = rewardType b -> is_discount b = true -> is_discount t = true.
Proof. unfold is_discount. by intros ->. Qed.

Lemma best_of_unique parseFloat l l' b b' :
  (forall t, t ∈ l <-> t ∈ l') ->
  Forall (fun t => is_discount t = true) l ->
  best_of parseFloat l b -> best_of parseFloat l' b' ->
  rewardType b' = rewardType b
  /\ exists v v', rewardNumber parseFloat b = Some v
                  /\ rewardNumber parseFloat b' = Some v' /\ (v' == v)%Q.
Proof.
  intros Hext Hd (Hin & Hpct & Hmax) (Hin' & Hpct' & Hmax').
  rewrite Forall_forall in Hd.
  assert (Hty : rewardType b' = rewardType b).
  { destruct (is_discount_cases b (Hd _ Hin)) as [Hb|Hb].
    - rewrite Hb. apply Hpct'. exists b. by rewrite <- Hext.
    - destruct (is_discount_cases b' (Hd _ (proj2 (Hext _) Hin'))) as [Hb'|Hb'];
        [|congruence].
      assert (is_percent b) as Hp by (apply Hpct; exists b'; by rewrite Hext).
      unfold is_percent in Hp. congruence. }
  split; [done|].
  destruct (Hmax b' (proj2 (Hext _) Hin') Hty) as (w & v & Hw & Hv & Hwv).
  destruct (Hmax' b (proj1 (Hext _) Hin) (eq_sym Hty)) as (w' & v' & Hw' & Hv' & Hwv').
  exists v, w. repeat split; try done.
  rewrite Hv in Hw'. injection Hw' as <-.
  rewrite Hw in Hv'. injection Hv' as <-.
  by apply Qle_antisym.
Qed.

(** C5 (as amended). Among the unlocked tiers, provided at least one is a
    discount tier and the discount tiers carry numeric values, the discount
    written to the cart attributes is a percent tier as soon as one percent
    tier is unlocked, whatever the values of the fixed tiers, and has the
    largest value among the unlocked tiers of its type; listing the tiers
    in another order yields a discount of the same type and the same value.
    The attribute update that is sent, whatever the network answers,
    carries the type and the value of this tier. *)
Theorem best_discount_choice
    (net : nat -> Response) (parseFloat : string -> option Q)
    (unlocked unlocked' : list RewardTier) (s : PopCart) :
  (exists t, t ∈ unlocked /\ is_discount t = true) ->
  (forall t, t ∈ unlocked -> is_discount t = true ->
             is_Some (rewardNumber parseFloat t)) ->
  unlocked ≡ₚ unlocked' ->
  exists best best' v v',
    bestDiscount parseFloat unlocked = Some best
    /\ bestDiscount parseFloat unlocked' = Some best'
    /\ best ∈ unlocked /\ is_discount best = true
    /\ rewardNumber parseFloat best = Some v
    /\ rewardNumber parseFloat best' = Some v'
    /\ ((exists t, t ∈ unlocked /\ rewardType t = "discount_percent") ->
        rewardType best = "discount_percent")
    /\ (forall t w, t ∈ unlocked -> rewardType t = rewardType best ->
                    rewardNumber parseFloat t = Some w -> (w <= v)%Q)
    /\ rewardType best' = rewardType best /\ (v' == v)%Q
    /\ cartAttributes parseFloat unlocked
       = [ ("_popcart_rewards_count", Some (pretty (Z.of_nat (length unlocked))));
           ("_popcart_free_shipping",
             Some (if hasFreeShipping unlocked then "true" else "false"));
           ("_popcart_discount_type", Some (rewardType best));
           ("_popcart_discount_value", rewardValue best) ]
    /\ exists s',
         updateCartAttributes net parseFloat unlocked s = Returns tt s'
         /\ requests s'
            = requests s
              ++ [ CartUpdate
                     [ ("_popcart_rewards_count",
                         Some (pretty (Z.of_nat (length unlocked))));
                       ("_popcart_free_shipping",
                         Some (if hasFreeShipping unlocked then "true" else "false"));
                       ("_popcart_discount_type", Some (rewardType best));
                       ("_popcart_discount_value", rewardValue best) ] ].
Proof.
  intros Hex Hnum Hperm.
  destruct (bestDiscount_best_of parseFloat unlocked Hex Hnum) as (b & Hb & Hbest).
  destruct (bestDiscount_best_of parseFloat unlocked') as (b' & Hb' & Hbest').
  { destruct Hex as (t & Ht & Hd). exists t. by rewrite <- Hperm. }
  { intros t Ht. apply Hnum. by rewrite Hperm. }
  assert (Hext : forall t, t ∈ List.filter is_discount unlocked
                           <-> t ∈ List.filter is_discount unlocked').
  { intros t. rewrite !elem_of_List_filter. by rewrite Hperm. }
  assert (Hd : Forall (fun t => is_discount t = true) (List.filter is_discount unlocked)).
  { apply Forall_forall. by intros t [_ ?]%elem_of_List_filter. }
  destruct (best_of_unique parseFloat _ _ b b' Hext Hd Hbest Hbest')
    as (Hty & v & v' & Hv & Hv' & Heq).
  destruct Hbest as (Hin & Hpct & Hmax).
  apply elem_of_List_filter in Hin as [Hin Hbd].
  exists b, b', v, v'. repeat split; try done.
  - intros (t & Ht & Hp). apply Hpct. exists t. split; [|done].
    apply elem_of_List_filter. split; [done|].
    unfold is_discount. by rewrite Hp.
  - intros t w Ht Hsame Hw.
    destruct (Hmax t) as (w1 & v1 & Hw1 & Hv1 & Hle); [|done|].
    + apply elem_of_List_filter. split; [done|]. by eapply is_discount_same_type.
    + congruence.
  - unfold cartAttributes. by rewrite Hb.
  - unfold updateCartAttributes, try_finally, try_catch, mbind, M_bind, assign, fetch.
    cbn [requests isInternalCartUpdate set_isInternalCartUpdate set_requests].
    unfold cartAttributes. rewrite Hb.
    destruct (net (length (requests s))); eexists; (split; [reflexivity|]);
      by cbn [requests isInternalCartUpdate set_isInternalCartUpdate set_requests].
Qed.

(** ** Removing free BXGY lines *)

Lemma sentUntilRejected_all net n reqs :
  (forall j, (j < length reqs)%nat -> net (n + j)%nat <> Rejected) ->
  sentUntilRejected net n reqs = (reqs, false).
Proof.
  revert n. induction reqs as [|r reqs IH]; intros n H; simpl; [done|].
  pose proof (H 0%nat ltac:(simpl; lia)) as H0. rewrite Nat.add_0_r in H0.
  destruct (net n); [done|].
  rewrite IH; [done|]. intros j Hj.
  replace (S n + j)%nat with (n + S j)%nat by lia. apply H. simpl. lia.
Qed.

Lemma sentUntilRejected_at net n reqs j :
  (j < length reqs)%nat ->
  net (n + j)%nat = Rejected ->
  (forall i, (i < j)%nat -> net (n + i)%nat <> Rejected) ->
  sentUntilRejected net n reqs = (take (S j) reqs, true).
Proof.
  revert n j. induction reqs as [|r reqs IH]; intros n j Hj Hr Hbefore; simpl in *; [lia|].
  destruct j as [|j].
  - rewrite Nat.add_0_r in Hr. rewrite Hr. by rewrite take_0.
  - pose proof (Hbefore 0%nat ltac:(lia)) as H0. rewrite Nat.add_0_r in H0.
    destruct (net n); [done|].
    rewrite (IH (S n) j); [done|lia| |].
    + by replace (S n + j)%nat with (n + S j)%nat by lia.
    + intros i Hi. replace (S n + i)%nat with (n + S i)%nat by lia.
      apply Hbefore. lia.
Qed.

Lemma set_requests_twice l1 l2 s :
  set_requests l2 (set_requests l1 s) = set_requests l2 s.
Proof. reflexivity. Qed.

Lemma set_requests_same s : set_requests (requests s) s = s.
Proof. by destruct s. Qed.

Section RemovalFacts.
Variable net : nat -> Response.

Lemma removeBxgyFreeItems_loop_run freeItems remaining s :
  isInternalCartUpdate s = true ->
  let '(sent, rejected) :=
    sentUntilRejected net (length (requests s)) (plannedChanges freeItems remaining) in
  removeBxgyFreeItems_loop net freeItems remaining s
  = if rejected
    then Throws FetchFailed (set_requests (requests s ++ sent) s)
    else Returns tt (set_requests (requests s ++ sent) s).
Proof.
  revert remaining s. induction freeItems as [|item rest IH]; intros remaining s Hflag.
  - simpl. rewrite app_nil_r, set_requests_same. reflexivity.
  - simpl. destruct (remaining <=? 0).
    + simpl. rewrite app_nil_r, set_requests_same. reflexivity.
    + cbn [sentUntilRejected].
      unfold mbind, M_bind, fetch. cbn [requests set_requests].
      destruct (net (length (requests s))) as [|ok body]; [done|].
      cbn [isInternalCartUpdate set_requests]. rewrite Hflag.
      set (req := CartChange (key item) (quantity item - Z.min (quantity item) remaining)).
      set (s1 := set_requests (requests s ++ [req]) s).
      specialize (IH (remaining - Z.min (quantity item) remaining) s1 Hflag).
      assert (Hlen : length (requests s1) = S (length (requests s)))
        by (subst s1; cbn [requests set_requests]; rewrite length_app; simpl; lia).
      rewrite Hlen in IH.
      destruct (sentUntilRejected net (S (length (requests s)))
                  (plannedChanges rest (remaining - Z.min (quantity item) remaining)))
        as [sent rejected].
      rewrite IH. subst s1. cbn [requests set_requests].
      rewrite <- app_assoc. simpl. by destruct rejected.
Qed.

(** [removeBxgyFreeItems] always returns; it sends the planned changes up
    to the first rejected one, and leaves the internal-update mark off. *)
Lemma removeBxgyFreeItems_run cart qty s :
  0 < qty ->
  removeBxgyFreeItems net cart qty s
  = Returns tt
      (set_isInternalCartUpdate false
         (set_requests
            (requests s
             ++ fst (sentUntilRejected net (length (requests s))
                       (plannedChanges (List.filter is_bxgy_free (items cart)) qty)))
            s)).
Proof.
  intros Hq. unfold removeBxgyFreeItems.
  destruct (Z.leb_spec qty 0); [lia|].
  unfold mbind, M_bind, assign, try_finally, try_catch.
  pose proof (removeBxgyFreeItems_loop_run
                (List.filter is_bxgy_free (items cart)) qty
                (set_isInternalCartUpdate true s) eq_refl) as Hloop.
  cbn [requests set_isInternalCartUpdate] in Hloop.
  destruct (sentUntilRejected net (length (requests s))
              (plannedChanges (List.filter is_bxgy_free (items cart)) qty))
    as [sent rejected].
  rewrite Hloop. by destruct rejected.
Qed.

Lemma removeBxgyFreeItems_nothing cart qty s :
  qty <= 0 -> removeBxgyFreeItems net cart qty s = Returns tt s.
Proof.
  intros Hq. unfold removeBxgyFreeItems. by destruct (Z.leb_spec qty 0); [|lia].
Qed.

End RemovalFacts.

(** C8 (as amended). Trimming free units is not best-effort: the loop
    sends the planned changes one after the other and stops at the first
    request that is rejected; the error is caught and the method returns,
    and the lines after the rejected one get no request. A response that
    arrives, whatever its status, does not stop the loop. *)
Theorem removal_batch_stops_at_first_rejection
    (net : nat -> Response) (cart : Cart) (qty : Z) (s : PopCart) :
  0 < qty ->
  let planned := plannedChanges (List.filter is_bxgy_free (items cart)) qty in
  let n0 := length (requests s) in
  exists s',
    removeBxgyFreeItems net cart qty s = Returns tt s'
    /\ isInternalCartUpdate s' = false
    /\ ((forall j, (j < length planned)%nat -> net (n0 + j)%nat <> Rejected) ->
        requests s' = requests s ++ planned)
    /\ (forall j,
          (j < length planned)%nat ->
          net (n0 + j)%nat = Rejected ->
          (forall i, (i < j)%nat -> net (n0 + i)%nat <> Rejected) ->
          requests s' = requests s ++ take (S j) planned).
Proof.
  intros Hq planned n0. eexists. split; [by apply removeBxgyFreeItems_run|].
  cbn [isInternalCartUpdate requests set_isInternalCartUpdate set_requests].
  split; [done|]. split.
  - intros Hok. fold planned n0. by rewrite sentUntilRejected_all.
  - intros j Hj Hr Hbefore. fold planned n0.
    by rewrite (sentUntilRejected_at net n0 planned j).
Qed.

Lemma sumFreeQuantity_sumZ cart :
  sumFreeQuantity cart
  = sumZ (List.map quantity (List.filter is_bxgy_free (items cart))).
Proof.
  unfold sumFreeQuantity.
  assert (H : forall l acc,
             fold_left (fun sum item => sum + quantity item) l acc
             = acc + sumZ (List.map quantity l)).
  { induction l as [|i l IH]; intros acc; simpl.
    - unfold sumZ. simpl. lia.
    - rewrite IH. unfold sumZ. simpl. lia. }
  rewrite H. lia.
Qed.



(** ** The reward pass for BXGY in selection mode *)


(** ** Reasoning about the methods *)

Lemma bind_run {A B} (m : M A) (k : A -> M B) s :
  (m ≫= k) s
  = match m s with
    | Diverges => Diverges
    | Returns a s' => k a s'
    | Throws e s' => Throws e s'
    end.
Proof. reflexivity. Qed.

Section KeepsFacts.
Context (Rel : PopCart -> PopCart -> Prop) `{!Reflexive Rel, !Transitive Rel}.

Lemma keeps_ret {A} (a : A) : keeps Rel (mret a).
Proof. intros s. simpl. reflexivity. Qed.

Lemma keeps_return : keeps Rel js_return.
Proof. apply keeps_ret. Qed.

Lemma keeps_throw {A} e : keeps Rel (@throw A e).
Proof. intros s. simpl. reflexivity. Qed.


Lemma keeps_this {A} (field : PopCart -> A) : keeps Rel (this field).
Proof. intros s. simpl. reflexivity. Qed.

Lemma keeps_assign f : (forall s, Rel s (f s)) -> keeps Rel (assign f).
Proof. intros H s. apply H. Qed.

Lemma keeps_bind {A B} (m : M A) (k : A -> M B) :
  keeps Rel m -> (forall a, keeps Rel (k a)) -> keeps Rel (m ≫= k).
Proof.
  intros Hm Hk s. rewrite bind_run. specialize (Hm s).
  destruct (m s) as [|a s'|e s']; [done| |done].
  specialize (Hk a s'). destruct (k a s'); [done| |]; by etrans.
Qed.

Lemma keeps_try_catch {A} (m : M A) (h : Exn -> M A) :
  keeps Rel m -> (forall e, keeps Rel (h e)) -> keeps Rel (try_catch m h).
Proof.
  intros Hm Hh s. unfold try_catch. specialize (Hm s).
  destruct (m s) as [|a s'|e s']; [done|done|].
  specialize (Hh e s'). destruct (h e s'); [done| |]; by etrans.
Qed.

Lemma keeps_try_finally {A} (m : M A) (fin : M unit) :
  keeps Rel m -> keeps Rel fin -> keeps Rel (try_finally m fin).
Proof.
  intros Hm Hf s. unfold try_finally. specialize (Hm s).
  destruct (m s) as [|a s'|e s']; [done| |];
    specialize (Hf s'); destruct (fin s'); try done; by etrans.
Qed.


End KeepsFacts.

#[global] Instance same_rewards_refl : Reflexive same_rewards.
Proof. by intros s. Qed.

#[global] Instance same_rewards_trans : Transitive same_rewards.
Proof. unfold same_rewards. intros s1 s2 s3 H12 H23. congruence. Qed.


Section FrameFacts.
Variable net : nat -> Response.
Variable now : nat -> Z.
Variable JSON_parse : string -> option JS.json.
Variable parseFloat : string -> option Q.



Lemma json_cart_same_rewards r : keeps same_rewards (json_cart r).
Proof. destruct r as [|ok []]; by intros s. Qed.














End FrameFacts.

(** ** Only the first offer is looked at *)

Lemma take_1_take_1 {A} (l : list A) : take 1 (take 1 l) = take 1 l.
Proof. by destruct l. Qed.

Lemma firstOfferOnly_idemp s : firstOfferOnly (firstOfferOnly s) = firstOfferOnly s.
Proof. unfold firstOfferOnly. cbn. by rewrite take_1_take_1. Qed.

Lemma fos_ret {A} (a : A) : firstOfferSuffices (mret a).
Proof. intros s. cbn. by rewrite firstOfferOnly_idemp. Qed.

Lemma fos_return : firstOfferSuffices js_return.
Proof. apply fos_ret. Qed.

Lemma fos_throw {A} e : firstOfferSuffices (@throw A e).
Proof. intros s. cbn. by rewrite firstOfferOnly_idemp. Qed.

Lemma fos_this {A} (field : PopCart -> A) :
  (forall s, field (firstOfferOnly s) = field s) ->
  firstOfferSuffices (this field).
Proof. intros H s. cbn. by rewrite H, firstOfferOnly_idemp. Qed.

Lemma fos_assign f :
  (forall s, firstOfferOnly (f s) = firstOfferOnly (f (firstOfferOnly s))) ->
  firstOfferSuffices (assign f).
Proof. intros H s. cbn. by rewrite H. Qed.

Lemma Returns_inj {A} (a a' : A) (s s' : PopCart) :
  Returns a s = Returns a' s' -> a = a' /\ s = s'.
Proof. intros H. by injection H. Qed.

Lemma Throws_inj {A} (e e' : Exn) (s s' : PopCart) :
  @Throws A e s = Throws e' s' -> e = e' /\ s = s'.
Proof. intros H. by injection H. Qed.

Lemma fos_bind {A B} (m : M A) (k : A -> M B) :
  firstOfferSuffices m -> (forall a, firstOfferSuffices (k a)) ->
  firstOfferSuffices (m ≫= k).
Proof.
  intros Hm Hk s. rewrite !bind_run. specialize (Hm s).
  destruct (m s) as [|a s1|e s1], (m (firstOfferOnly s)) as [|a' s2|e' s2];
    try discriminate; try done.
  2:{ apply (Throws_inj e e' (firstOfferOnly s1) (firstOfferOnly s2)) in Hm as [-> Hs].
      unfold outcome_map. by rewrite Hs. }
  apply (Returns_inj a a' (firstOfferOnly s1) (firstOfferOnly s2)) in Hm as [-> Hs].
  transitivity (outcome_map firstOfferOnly (k a' (firstOfferOnly s1))); [apply Hk|].
  rewrite Hs. symmetry. apply Hk.
Qed.

Lemma fos_try_catch {A} (m : M A) (h : Exn -> M A) :
  firstOfferSuffices m -> (forall e, firstOfferSuffices (h e)) ->
  firstOfferSuffices (try_catch m h).
Proof.
  intros Hm Hh s. unfold try_catch. specialize (Hm s).
  destruct (m s) as [|a s1|e s1], (m (firstOfferOnly s)) as [|a' s2|e' s2];
    try discriminate; try done.
  apply (Throws_inj e e' (firstOfferOnly s1) (firstOfferOnly s2)) in Hm as [-> Hs].
  transitivity (outcome_map firstOfferOnly (h e' (firstOfferOnly s1))); [apply Hh|].
  rewrite Hs. symmetry. apply Hh.
Qed.

Lemma fos_try_finally {A} (m : M A) (fin : M unit) :
  firstOfferSuffices m -> firstOfferSuffices fin ->
  firstOfferSuffices (try_finally m fin).
Proof.
  intros Hm Hf s. unfold try_finally. specialize (Hm s).
  destruct (m s) as [|a s1|e s1], (m (firstOfferOnly s)) as [|a' s2|e' s2];
    try discriminate; try done.
  - apply (Returns_inj a a' (firstOfferOnly s1) (firstOfferOnly s2)) in Hm as [-> Hs].
    pose proof (Hf s1) as H1. pose proof (Hf s2) as H2.
    rewrite Hs, <- H2 in H1.
    destruct (fin s1) as [|[] t1|e1 t1], (fin s2) as [|[] t2|e2 t2];
      try discriminate; try done.
    + apply (Returns_inj tt tt (firstOfferOnly t1) (firstOfferOnly t2)) in H1 as [_ Ht].
      unfold outcome_map. by rewrite Ht.
    + apply (Throws_inj e1 e2 (firstOfferOnly t1) (firstOfferOnly t2)) in H1 as [-> Ht].
      unfold outcome_map. by rewrite Ht.
  - apply (Throws_inj e e' (firstOfferOnly s1) (firstOfferOnly s2)) in Hm as [-> Hs].
    pose proof (Hf s1) as H1. pose proof (Hf s2) as H2.
    rewrite Hs, <- H2 in H1.
    destruct (fin s1) as [|[] t1|e1 t1], (fin s2) as [|[] t2|e2 t2];
      try discriminate; try done.
    + apply (Returns_inj tt tt (firstOfferOnly t1) (firstOfferOnly t2)) in H1 as [_ Ht].
      unfold outcome_map. by rewrite Ht.
    + apply (Throws_inj e1 e2 (firstOfferOnly t1) (firstOfferOnly t2)) in H1 as [-> Ht].
      unfold outcome_map. by rewrite Ht.
Qed.

(** Reading [this.bxgyOffers] to use its first element only. *)
Lemma fos_offers {B} (k : list BxgyOffer -> M B) :
  (forall l, k (take 1 l) = k l) ->
  (forall l, firstOfferSuffices (k l)) ->
  firstOfferSuffices (this bxgyOffers ≫= k).
Proof.
  intros Hhead Hk s. rewrite !bind_run. cbn [this].
  replace (bxgyOffers (firstOfferOnly s)) with (take 1 (bxgyOffers s)) by done.
  rewrite Hhead. apply Hk.
Qed.

Ltac fos_setter :=
  intros ?; unfold firstOfferOnly; cbn; by rewrite ?take_1_take_1.

Ltac fos_step :=
  match goal with
  | |- firstOfferSuffices (this bxgyOffers ≫= _) =>
      apply fos_offers; [by intros [|? ?] | intros [|? ?]]
  | |- firstOfferSuffices (mbind _ _) => apply fos_bind; [|intros ?]
  | |- firstOfferSuffices (try_catch _ _) => apply fos_try_catch; [|intros ?]
  | |- firstOfferSuffices (try_finally _ _) => apply fos_try_finally
  | |- firstOfferSuffices js_return => apply fos_return
  | |- firstOfferSuffices (mret _) => apply fos_ret
  | |- firstOfferSuffices (throw _) => apply fos_throw
  | |- firstOfferSuffices (this _) => apply fos_this; intros ?; reflexivity
  | |- firstOfferSuffices (assign _) => apply fos_assign; fos_setter
  | |- firstOfferSuffices (if ?b then _ else _) => destruct b
  | |- firstOfferSuffices (match ?x with _ => _ end) => destruct x
  end.

Section FirstOfferFacts.
Variable net : nat -> Response.
Variable now : nat -> Z.
Variable JSON_parse : string -> option JS.json.

Lemma fos_fetch req : firstOfferSuffices (fetch net req).
Proof.
  intros s. unfold fetch, firstOfferOnly. cbn.
  destruct (net (length (requests s))) as [|ok body]; cbn.
  - by rewrite take_1_take_1.
  - destruct (isInternalCartUpdate s); cbn; [by rewrite take_1_take_1|].
    destruct (is_cart_write req && ok); cbn; by rewrite take_1_take_1.
Qed.

Lemma fos_dateNow : firstOfferSuffices (dateNow now).
Proof. intros s. cbn. unfold firstOfferOnly. cbn. by rewrite take_1_take_1. Qed.

Lemma fos_json_product r : firstOfferSuffices (json_product r).
Proof. destruct r as [|ok []]; first [apply fos_throw | apply fos_ret]. Qed.

Lemma fos_hideSelectionPicker : firstOfferSuffices hideSelectionPicker.
Proof. unfold hideSelectionPicker. fos_step. Qed.

Lemma fos_preloadSelectionProducts : firstOfferSuffices preloadSelectionProducts.
Proof. unfold preloadSelectionProducts. repeat fos_step. Qed.

Lemma fos_showSelectionPicker offer earned cart :
  firstOfferSuffices (showSelectionPicker offer earned cart).
Proof.
  unfold showSelectionPicker. repeat fos_step;
    first [apply fos_hideSelectionPicker | apply fos_preloadSelectionProducts].
Qed.

Lemma fos_removeBxgyFreeItems_loop l r :
  firstOfferSuffices (removeBxgyFreeItems_loop net l r).
Proof.
  revert r. induction l as [|item l IH]; intros r; simpl; repeat fos_step.
  - apply fos_fetch.
  - apply IH.
Qed.

Lemma fos_removeBxgyFreeItems cart qty :
  firstOfferSuffices (removeBxgyFreeItems net cart qty).
Proof.
  unfold removeBxgyFreeItems. repeat fos_step. apply fos_removeBxgyFreeItems_loop.
Qed.

Lemma fos_addAutomaticBxgyItem offer handle qty :
  firstOfferSuffices (addAutomaticBxgyItem net offer handle qty).
Proof.
  unfold addAutomaticBxgyItem, scheduleRefresh. repeat fos_step;
    first [apply fos_fetch | apply fos_json_product].
Qed.

Lemma fos_applyAutomaticBxgyReward offer cart earned :
  firstOfferSuffices (applyAutomaticBxgyReward net now offer cart earned).
Proof.
  unfold applyAutomaticBxgyReward. repeat fos_step;
    first [apply fos_dateNow | apply fos_addAutomaticBxgyItem
          |apply fos_removeBxgyFreeItems].
Qed.

Lemma fos_applyBxgyRewards_dispatch offer cart mode earned t dt :
  firstOfferSuffices (applyBxgyRewards_dispatch net now offer cart mode earned t dt).
Proof.
  unfold applyBxgyRewards_dispatch. repeat fos_step;
    first [apply fos_hideSelectionPicker | apply fos_removeBxgyFreeItems
          |apply fos_showSelectionPicker | apply fos_applyAutomaticBxgyReward].
Qed.

Lemma fos_applyBxgyRewards cart :
  firstOfferSuffices (applyBxgyRewards net now JSON_parse cart).
Proof.
  unfold applyBxgyRewards. repeat fos_step;
    first [apply fos_dateNow | apply fos_hideSelectionPicker
          |apply fos_applyBxgyRewards_dispatch].
Qed.

Lemma fos_updateBxgyProgress cart :
  firstOfferSuffices (updateBxgyProgress JSON_parse cart).
Proof. unfold updateBxgyProgress. repeat fos_step. Qed.

End FirstOfferFacts.

(** C9 (as amended). A pass evaluates the first offer of the configured
    list only: both the progress pass and the reward pass leave the same
    outcome (same requests, same controller fields) as they do when the
    list holds nothing but its first offer. *)
Theorem only_first_offer_is_evaluated
    (net : nat -> Response) (now : nat -> Z) (JSON_parse : string -> option JS.json)
    (cart : Cart) (s : PopCart) :
  outcome_map firstOfferOnly (applyBxgyRewards net now JSON_parse cart s)
  = outcome_map firstOfferOnly
      (applyBxgyRewards net now JSON_parse cart (firstOfferOnly s))
  /\ outcome_map firstOfferOnly (updateBxgyProgress JSON_parse cart s)
     = outcome_map firstOfferOnly
         (updateBxgyProgress JSON_parse cart (firstOfferOnly s)).
Proof.
  split; [apply fos_applyBxgyRewards | apply fos_updateBxgyProgress].
Qed.

(** ** The set of applied keys *)


Lemma set_has_false k (s : JS.StrSet) : JS.set_has k s = false <-> Some k ∉ s.
Proof. unfold JS.set_has. apply bool_decide_eq_false. Qed.



Lemma set_add_lookup k (s : JS.StrSet) j k' :
  JS.set_add k s !! j = Some (Some k') -> s !! j = Some (Some k') \/ k' = k.
Proof.
  unfold JS.set_add. destruct (JS.set_has k s); [by left|].
  intros H. apply lookup_app_Some in H as [H|[_ H]]; [by left|].
  right. apply list_lookup_singleton_Some in H as [_ H]. congruence.
Qed.

Lemma set_add_new k (s : JS.StrSet) :
  JS.set_has k s = false -> JS.set_add k s = s ++ [Some k].
Proof. intros H. unfold JS.set_add. by rewrite H. Qed.



(** ** A pass over a settled controller does nothing *)


Section SettledFacts.
Variable net : nat -> Response.
Variable parseFloat : string -> option Q.
Variable refreshCart : M unit.
Variable cart : Cart.




End SettledFacts.

(** ** A pass settles the controller *)

#[global] Instance rewards_rel_refl cart : Reflexive (rewards_rel cart).
Proof. intros s. repeat split; auto. Qed.

#[global] Instance rewards_rel_trans cart : Transitive (rewards_rel cart).
Proof.
  intros s1 s2 s3 (Ht & Hs & Hf & Hl & Hg) (Ht' & Hs' & Hf' & Hl' & Hg').
  assert (Hk : unlockedKeys s2 cart = unlockedKeys s1 cart)
    by (unfold unlockedKeys; by rewrite Ht).
  rewrite Hk in *.
  split; [congruence|]. split; [|split; [|split]].
  - intros Hsorted. rewrite Hs', Hs; [done|done|]. by rewrite Hs.
  - intros k Hk1 Hin. by apply Hf', Hf.
  - lia.
  - intros j k Hj. destruct (Hg' j k Hj) as [H|H]; [by apply Hg|right; lia].
Qed.







Section PassFacts.
Variable net : nat -> Response.
Variable parseFloat : string -> option Q.
Variable cart : Cart.
Variable refreshCart' : M unit.
Hypothesis refresh_keeps : keeps (rewards_rel cart) refreshCart'.














End PassFacts.

Section RefreshFacts.
Variable net : nat -> Response.
Variable now : nat -> Z.
Variable JSON_parse : string -> option JS.json.
Variable parseFloat : string -> option Q.
Variable cart : Cart.

(** The remote cart does not fall below the total of the snapshot. *)
Hypothesis total_kept :
  forall n ok c, net n = Http ok (BCart c) -> total_price cart <= total_price c.



End RefreshFacts.


(** ** Marking a reward key *)




(** ** The BXGY reward pass always returns *)

Lemma safe_halts {A} (m : M A) : safe m -> halts m.
Proof. intros H s. destruct (H s) as (a & s' & ->). done. Qed.

Lemma halts_ret {A} (a : A) : halts (mret a).
Proof. by intros s. Qed.

Lemma halts_throw {A} e : halts (@throw A e).
Proof. by intros s. Qed.

Lemma halts_bind {A B} (m : M A) (k : A -> M B) :
  halts m -> (forall a, halts (k a)) -> halts (m ≫= k).
Proof.
  intros Hm Hk s. rewrite bind_run. specialize (Hm s).
  destruct (m s) as [|a s'|e s']; [done|apply Hk|done].
Qed.

Lemma safe_ret {A} (a : A) : safe (mret a).
Proof. intros s. by exists a, s. Qed.

Lemma safe_return : safe js_return.
Proof. apply safe_ret. Qed.

Lemma safe_this {A} (field : PopCart -> A) : safe (this field).
Proof. intros s. by exists (field s), s. Qed.

Lemma safe_assign f : safe (assign f).
Proof. intros s. by exists tt, (f s). Qed.

Lemma safe_bind {A B} (m : M A) (k : A -> M B) :
  safe m -> (forall a, safe (k a)) -> safe (m ≫= k).
Proof.
  intros Hm Hk s. rewrite bind_run. destruct (Hm s) as (a & s' & ->). apply Hk.
Qed.

Lemma safe_try_catch {A} (m : M A) (h : Exn -> M A) :
  halts m -> (forall e, safe (h e)) -> safe (try_catch m h).
Proof.
  intros Hm Hh s. unfold try_catch. specialize (Hm s).
  destruct (m s) as [|a s'|e s']; [done|by exists a, s'|apply Hh].
Qed.

Lemma safe_try_finally {A} (m : M A) (fin : M unit) :
  safe m -> safe fin -> safe (try_finally m fin).
Proof.
  intros Hm Hf s. unfold try_finally. destruct (Hm s) as (a & s' & ->).
  destruct (Hf s') as ([] & s'' & ->). by exists a, s''.
Qed.

(** One step of a proof that a method halts, or that it always returns. *)
Ltac safe_step :=
  match goal with
  | |- halts (mbind _ _) => apply halts_bind; [|intros ?]
  | |- halts (mret _) => apply halts_ret
  | |- halts js_return => apply halts_ret
  | |- halts (throw _) => apply halts_throw
  | |- halts (if ?b then _ else _) => destruct b
  | |- halts (match ?x with _ => _ end) => destruct x
  | |- safe (mbind _ _) => apply safe_bind; [|intros ?]
  | |- safe (try_catch _ _) => apply safe_try_catch; [|intros ?]
  | |- safe (try_finally _ _) => apply safe_try_finally
  | |- safe js_return => apply safe_return
  | |- safe (mret _) => apply safe_ret
  | |- safe (this _) => apply safe_this
  | |- safe (assign _) => apply safe_assign
  | |- safe (if ?b then _ else _) => destruct b
  | |- safe (match ?x with _ => _ end) => destruct x
  end.

Section SafetyFacts.
Variable net : nat -> Response.
Variable now : nat -> Z.
Variable JSON_parse : string -> option JS.json.

Lemma halts_fetch req : halts (fetch net req).
Proof. intros s. unfold fetch. by destruct (net (length (requests s))). Qed.

Lemma halts_json_product r : halts (json_product r).
Proof. by destruct r as [|ok []]; intros s. Qed.

Lemma safe_dateNow : safe (dateNow now).
Proof. intros s. by eexists _, _. Qed.

Lemma safe_hideSelectionPicker : safe hideSelectionPicker.
Proof. unfold hideSelectionPicker. safe_step. Qed.

Lemma safe_preloadSelectionProducts : safe preloadSelectionProducts.
Proof. unfold preloadSelectionProducts. repeat safe_step. Qed.

Lemma safe_showSelectionPicker offer earned cart :
  safe (showSelectionPicker offer earned cart).
Proof.
  unfold showSelectionPicker. repeat safe_step;
    first [apply safe_hideSelectionPicker | apply safe_preloadSelectionProducts].
Qed.

Lemma halts_removeBxgyFreeItems_loop l r : halts (removeBxgyFreeItems_loop net l r).
Proof.
  revert r. induction l as [|item l IH]; intros r; simpl; repeat safe_step.
  - apply halts_fetch.
  - apply IH.
Qed.

Lemma safe_removeBxgyFreeItems cart qty : safe (removeBxgyFreeItems net cart qty).
Proof.
  unfold removeBxgyFreeItems. repeat safe_step.
  apply halts_removeBxgyFreeItems_loop.
Qed.

Lemma safe_addAutomaticBxgyItem offer handle qty :
  safe (addAutomaticBxgyItem net offer handle qty).
Proof.
  unfold addAutomaticBxgyItem, scheduleRefresh. repeat safe_step;
    first [apply halts_fetch | apply halts_json_product].
Qed.

Lemma safe_applyAutomaticBxgyReward offer cart earned :
  safe (applyAutomaticBxgyReward net now offer cart earned).
Proof.
  unfold applyAutomaticBxgyReward. repeat safe_step;
    first [apply safe_dateNow | apply safe_addAutomaticBxgyItem
          |apply safe_removeBxgyFreeItems].
Qed.

Lemma safe_applyBxgyRewards_dispatch offer cart mode earned t dt :
  safe (applyBxgyRewards_dispatch net now offer cart mode earned t dt).
Proof.
  unfold applyBxgyRewards_dispatch. repeat safe_step;
    first [apply safe_hideSelectionPicker | apply safe_removeBxgyFreeItems
          |apply safe_showSelectionPicker | apply safe_applyAutomaticBxgyReward].
Qed.

(** An enabled pass that is not already applying always returns, and
    records the completed cycles and the cycle-based entitlement of the
    first offer. *)
Lemma applyBxgyRewards_records cart s offer rest :
  isApplyingBxgy s = false ->
  bxgyEnabled s = true ->
  bxgyOffers s = offer :: rest ->
  let Q := calculateBxgyQualifyingQuantity JSON_parse cart offer in
  exists s',
    applyBxgyRewards net now JSON_parse cart s = Returns tt s'
    /\ lastBxgyState s' = (rewardsEarnedCycles offer Q, rewardsEarnedFreeItems offer Q).
Proof.
  intros Hguard Hen Hoff Q.
  unfold applyBxgyRewards, this, dateNow. rewrite !bind_run. rewrite Hguard.
  rewrite !bind_run. cbn [lastBxgyActionTime bxgyEnabled bxgyOffers set_ticks].
  rewrite Hen, Hoff. cbn [negb]. unfold try_catch. rewrite bind_run. fold Q.
  destruct (safe_applyBxgyRewards_dispatch offer cart
              (JS.or_str (rewardMode offer) "cheapest_in_cart")
              (rewardsEarnedFreeItems offer Q) (now (ticks s))
              (now (ticks s) - lastBxgyActionTime s)
              (set_ticks (S (ticks s)) s)) as ([] & s1 & ->).
  eexists. split; reflexivity.
Qed.

End SafetyFacts.

(** C4. In selection and automatic mode with B >= 1 and G >= 1, both the
    progress pass and the reward pass compute floor(Q / B) * G, where
    floor(Q / B) is the number of completed cycles: the progress pass draws
    it, and the reward pass, which always returns, dispatches on it and
    records it together with the cycles. With Q = B the first cycle of G
    free items is earned. *)
Theorem cycle_entitlement
    (net : nat -> Response) (now : nat -> Z)
    (JSON_parse : string -> option JS.json) (s : PopCart) (cart : Cart)
    (offer : BxgyOffer) (rest : list BxgyOffer) :
  isApplyingBxgy s = false ->
  bxgyEnabled s = true ->
  bxgyOffers s = offer :: rest ->
  rewardMode offer = "selection" \/ rewardMode offer = "automatic" ->
  1 <= buyQuantity offer ->
  1 <= getQuantity offer ->
  let B := buyQuantity offer in
  let G := getQuantity offer in
  let Q := calculateBxgyQualifyingQuantity JSON_parse cart offer in
  (B * (Q / B) <= Q < B * (Q / B) + B)
  /\ (exists s',
        updateBxgyProgress JSON_parse cart s = Returns tt s'
        /\ bxgyProgress s' = Some (Q, (Q / B) * G, countBxgyFreeItemsInCart cart))
  /\ (exists s',
        applyBxgyRewards net now JSON_parse cart s = Returns tt s'
        /\ lastBxgyState s' = (Q / B, (Q / B) * G))
  /\ (Q = B -> (Q / B) * G = G).
Proof.
  intros Hguard Hen Hoff Hmode HB HG B G Q.
  assert (Hp : progressEarnedFreeItems offer Q = (Q / B) * G).
  { unfold progressEarnedFreeItems.
    rewrite !or_num_pos by done.
    destruct Hmode as [-> | ->]; reflexivity. }
  assert (Hc : rewardsEarnedCycles offer Q = Q / B).
  { unfold rewardsEarnedCycles. by rewrite or_num_pos. }
  assert (Hr : rewardsEarnedFreeItems offer Q = (Q / B) * G).
  { unfold rewardsEarnedFreeItems, rewardsEarnedCycles. by rewrite !or_num_pos. }
  split.
  { pose proof (Z.mul_div_le Q B ltac:(lia)).
    pose proof (Z.mul_succ_div_gt Q B ltac:(lia)). lia. }
  split.
  { unfold updateBxgyProgress, this, assign, mbind, M_bind.
    rewrite Hen, Hoff. simpl. fold Q. rewrite Hp.
    eexists. split; [reflexivity|]. simpl. done. }
  split.
  { destruct (applyBxgyRewards_records net now JSON_parse cart s offer rest
                Hguard Hen Hoff) as (s' & Hrun & Hlast).
    exists s'. split; [done|]. fold Q in Hlast. by rewrite Hlast, Hc, Hr. }
  intros ->. rewrite Z.div_same by lia. lia.
Qed.

(** * The properties on the example data *)

(** A collection-scoped offer takes line C, whatever its product. *)
Lemma collection_scope_example :
  itemQualifiesForBxgy no_JSON (ex_line "C" 3 1 800 [])
    (ex_offer 3 1 "selection" "collection") = true.
Proof.
  apply (collection_scope_qualifies_every_item no_JSON (ex_line "C" 3 1 800 [])
           (ex_offer 3 1 "selection" "collection")).
  reflexivity.
Defined.

(** Buy 3 get 3 on six units: three free items, the two B and one A. *)
Lemma cheapest_in_cart_entitlement_example :
  progressEarnedFreeItems (ex_offer 3 3 "cheapest_in_cart" "all")
    (qualifyingQuantity_spec no_JSON ex_cart_abc (ex_offer 3 3 "cheapest_in_cart" "all"))
  = Z.max 0 (Z.min 3 (6 - 3)).
Proof.
  apply (cheapest_in_cart_entitlement no_JSON
           (ex_loaded true [] [ex_offer 3 3 "cheapest_in_cart" "all"])
           ex_cart_abc (ex_offer 3 3 "cheapest_in_cart" "all") []);
    [reflexivity | reflexivity | reflexivity | simpl; lia | simpl; lia].
Defined.

Lemma cheapest_allocation_example :
  map_sum (calculateCheapestFreeItems no_JSON ex_cart_abc
             (ex_offer 3 3 "cheapest_in_cart" "all") 3)
  = Z.min 3
      (sumZ (List.map quantity
               (List.filter (qualifying_line no_JSON (ex_offer 3 3 "cheapest_in_cart" "all"))
                  (items ex_cart_abc)))).
Proof.
  apply (cheapest_allocation no_JSON ex_cart_abc
           (ex_offer 3 3 "cheapest_in_cart" "all") 3).
  - lia.
  - apply (bool_decide_unpack _). vm_compute. exact I.
  - repeat constructor; simpl; lia.
Defined.


(** Buy 3 get 1 on six units: two cycles, two free items. *)
Lemma cycle_entitlement_example :
  exists s',
    applyBxgyRewards ex_net_ok ex_now no_JSON ex_cart_abc ex_state0 = Returns tt s'
    /\ lastBxgyState s' = (2, 2).
Proof.
  destruct (cycle_entitlement ex_net_ok ex_now no_JSON ex_state0 ex_cart_abc
              (ex_offer 3 1 "selection" "all") [])
    as (_ & _ & (s' & Hrun & Hlast) & _);
    [reflexivity | reflexivity | reflexivity | by left | simpl; lia | simpl; lia |].
  exists s'. split; [exact Hrun|]. rewrite Hlast. reflexivity.
Defined.

(** Fixed 900 against percent 10 and percent 15: percent 15 is written. *)
Lemma best_discount_example :
  exists best,
    bestDiscount ex_parseFloat
      [ex_tier_fix "900"; ex_tier_pct "10"; ex_tier_pct "15"; ex_tier_ship] = Some best
    /\ rewardType best = "discount_percent".
Proof.
  destruct (best_discount_choice ex_net_ok ex_parseFloat
              [ex_tier_fix "900"; ex_tier_pct "10"; ex_tier_pct "15"; ex_tier_ship]
              (List.rev [ex_tier_fix "900"; ex_tier_pct "10"; ex_tier_pct "15"; ex_tier_ship])
              ex_state0)
    as (best & best' & v & v' & Hb & _ & _ & _ & _ & _ & Hpct & _).
  - exists (ex_tier_fix "900"). split; [apply list_elem_of_here|reflexivity].
  - intros t Ht Hd.
    repeat (apply elem_of_cons in Ht as [->|Ht]).
    all: first [ by apply elem_of_nil in Ht
               | discriminate Hd
               | eexists; reflexivity ].
  - apply Permutation_rev.
  - exists best. split; [exact Hb|]. apply Hpct.
    exists (ex_tier_pct "10"). split; [|reflexivity].
    apply list_elem_of_further, list_elem_of_here.
Defined.




(** Two units to remove from two free lines, the first request rejected:
    what goes out is the planned list cut after its first request. *)
Lemma removal_batch_example :
  exists s',
    removeBxgyFreeItems ex_net_first_rejected ex_cart_free 2 ex_state0 = Returns tt s'
    /\ requests s'
       = requests ex_state0
         ++ take 1 (plannedChanges (List.filter is_bxgy_free (items ex_cart_free)) 2).
Proof.
  destruct (removal_batch_stops_at_first_rejection ex_net_first_rejected
              ex_cart_free 2 ex_state0) as (s' & Hrun & _ & _ & Hstop); [lia|].
  exists s'. split; [exact Hrun|].
  apply (Hstop 0%nat); [vm_compute; lia | reflexivity | intros i Hi; lia].
Defined.

(** C8, counterexample. Lines F1 and F2 are both to be set to zero; the
    request for F1 is rejected, and no request is sent for F2 although the
    network would have accepted it. *)
Lemma removal_batch_aborted_by_one_failure :
  exists s',
    removeBxgyFreeItems ex_net_first_rejected ex_cart_free 2 ex_state0 = Returns tt s'
    /\ plannedChanges (List.filter is_bxgy_free (items ex_cart_free)) 2
       = [CartChange "F1" 0; CartChange "F2" 0]
    /\ ex_net_first_rejected 1 = Http true BOther
    /\ requests s' = [CartChange "F1" 0].
Proof. eexists. split; [vm_compute; reflexivity|]. by vm_compute. Qed.

(** C9, counterexample. The list holds a cheapest-in-cart offer and then a
    selection offer under which the two free lines are no longer earned: a
    pass over the list sends nothing, whereas a pass with the second offer
    alone removes both lines. The second offer is not evaluated. *)
Lemma second_offer_is_not_evaluated :
  (exists s',
     applyBxgyRewards ex_net_ok ex_now no_JSON ex_cart_free ex_two_offers = Returns tt s'
     /\ requests s' = [])
  /\ (exists s',
        applyBxgyRewards ex_net_ok ex_now no_JSON ex_cart_free ex_second_offer_only
        = Returns tt s'
        /\ requests s' = [CartChange "F1" 0; CartChange "F2" 0]).
Proof.
  split; (eexists; split; [vm_compute; reflexivity|]); by vm_compute.
Qed.


(** C5, counterexample. Two percent tiers are unlocked, and the value of
    one does not parse to a number: every comparison with it is false, so
    the tier listed first is kept. In one order the attribute update
    carries the value [abc], in the other the value [10]. *)
Lemma best_discount_follows_the_order_without_numbers :
  ex_parseFloat "abc" = None
  /\ bestDiscount ex_parseFloat [ex_tier_pct "abc"; ex_tier_pct "10"]
     = Some (ex_tier_pct "abc")
  /\ bestDiscount ex_parseFloat [ex_tier_pct "10"; ex_tier_pct "abc"]
     = Some (ex_tier_pct "10")
  /\ (exists s',
        updateCartAttributes ex_net_ok ex_parseFloat
          [ex_tier_pct "abc"; ex_tier_pct "10"] ex_state0 = Returns tt s'
        /\ requests s'
           = [ CartUpdate [ ("_popcart_rewards_count", Some "2");
                            ("_popcart_free_shipping", Some "false");
                            ("_popcart_discount_type", Some "discount_percent");
                            ("_popcart_discount_value", Some "abc") ] ])
  /\ (exists s',
        updateCartAttributes ex_net_ok ex_parseFloat
          [ex_tier_pct "10"; ex_tier_pct "abc"] ex_state0 = Returns tt s'
        /\ requests s'
           = [ CartUpdate [ ("_popcart_rewards_count", Some "2");
                            ("_popcart_free_shipping", Some "false");
                            ("_popcart_discount_type", Some "discount_percent");
                            ("_popcart_discount_value", Some "10") ] ]).
Proof.
  repeat (split; [by vm_compute|]).
  split; (eexists; split; [vm_compute; reflexivity|]); by vm_compute.
Qed.


(** * Further properties of the drawer *)

(** ** Product ids *)

Lemma split_nonempty c s : JS.split c s <> [].
Proof.
  destruct s as [|a s]; simpl; [done|].
  destruct (Ascii.eqb a c); [done|]. by destruct (JS.split c s).
Qed.

Lemma split_without c s : JS.includes c s = false -> JS.split c s = [s].
Proof.
  induction s as [|a s IH]; simpl; [done|].
  destruct (Ascii.eqb a c); [done|]. intros H. by rewrite IH.
Qed.

Lemma split_app_sep c a b :
  JS.split c (a +:+ String c b) = JS.split c a ++ JS.split c b.
Proof.
  induction a as [|x a IH]; simpl.
  - by rewrite Ascii.eqb_refl.
  - destruct (Ascii.eqb x c); [by rewrite IH|].
    rewrite IH. pose proof (split_nonempty c a).
    by destruct (JS.split c a).
Qed.

Lemma pop_app l1 l2 : l2 <> [] -> JS.pop (l1 ++ l2) = JS.pop l2.
Proof.
  intros H. unfold JS.pop. induction l1 as [|x l1 IH]; simpl; [done|].
  rewrite IH. destruct (l1 ++ l2) eqn:E; [|done].
  by apply app_eq_nil in E as [_ ->].
Qed.

(** The last segment of a text that holds the separator: the text ends
    with the separator followed by that segment. *)
Lemma pop_split_with c s :
  JS.includes c s = true ->
  exists prefix, s = prefix +:+ String c (JS.pop (JS.split c s)).
Proof.
  induction s as [|a s IH]; simpl; [done|].
  destruct (Ascii.eqb_spec a c) as [->|Hne].
  - intros _. destruct (JS.includes c s) eqn:Hs.
    + destruct (IH eq_refl) as [p Hp]. exists (String c p).
      change ("" :: JS.split c s) with ([""] ++ JS.split c s).
      rewrite pop_app by apply split_nonempty.
      exact (f_equal (String c) Hp).
    + exists "". rewrite split_without by done. done.
  - intros Hs. destruct (IH Hs) as [p Hp]. exists (String a p).
    assert (Hpop : JS.pop (match JS.split c s with
                           | [] => [String a ""]
                           | h :: t => String a h :: t
                           end) = JS.pop (JS.split c s)).
    { pose proof (split_nonempty c s) as Hn.
      destruct (JS.split c s) as [|h [|h' t]] eqn:E; [done| |done].
      exfalso. rewrite Hp, split_app_sep in E.
      pose proof (split_nonempty c p). pose proof (split_nonempty c (JS.pop [h])).
      destruct (JS.split c p), (JS.split c (JS.pop [h])); try done.
      simpl in E. destruct l; done. }
    rewrite Hpop. exact (f_equal (String a) Hp).
Qed.

(** The id that the callback compares: the text after the last slash. *)
Lemma productIdMatches_text itemProductId t :
  productIdMatches itemProductId (JS.JStr t)
  = Some (String.eqb (JS.pop (JS.split "/" t)) itemProductId).
Proof.
  unfold productIdMatches. destruct (JS.includes "/" t) eqn:H; [done|].
  by rewrite split_without.
Qed.

Lemma includes_pretty_N_go c x s :
  (forall d, pretty_N_char d <> c) ->
  JS.includes c (pretty_N_go x s) = JS.includes c s.
Proof.
  intros Hc. revert s. induction (N.lt_wf_0 x) as [x _ IH]; intros s.
  destruct (decide (x = 0)%N) as [->|Hx]; [done|].
  rewrite pretty_N_go_step by lia. rewrite IH by (apply N.div_lt; lia).
  simpl. destruct (Ascii.eqb_spec (pretty_N_char (x `mod` 10)) c) as [E|]; [|done].
  by destruct (Hc _ E).
Qed.

Lemma includes_pretty_N c (x : N) :
  (forall d, pretty_N_char d <> c) -> JS.includes c (pretty x) = false.
Proof.
  intros Hc. unfold pretty, pretty_N. destruct (decide (x = 0)%N).
  - change (JS.includes c "0") with (if Ascii.eqb "0" c then true else false).
    destruct (Ascii.eqb_spec "0" c) as [E|]; [|done].
    destruct (Hc 0%N). exact E.
  - by rewrite includes_pretty_N_go.
Qed.

Lemma pretty_N_char_not_slash d : pretty_N_char d <> "/"%char.
Proof. unfold pretty_N_char. by repeat case_match. Qed.

Lemma includes_slash_pretty_Z (z : Z) : JS.includes "/" (pretty z) = false.
Proof.
  destruct z as [|p|p]; [done| |].
  - apply (includes_pretty_N _ (N.pos p)), pretty_N_char_not_slash.
  - change (pretty (Z.neg p)) with ("-" +:+ pretty (N.pos p)). simpl.
    apply (includes_pretty_N _ (N.pos p)), pretty_N_char_not_slash.
Qed.

Lemma some_texts itemProductId texts :
  JS.some (productIdMatches itemProductId) (List.map JS.JStr texts)
  = Some (existsb (fun t => String.eqb (JS.pop (JS.split "/" t)) itemProductId) texts).
Proof.
  induction texts as [|t texts IH]; [done|].
  cbn [List.map JS.some existsb]. rewrite productIdMatches_text.
  destruct (String.eqb _ _); [done|]. by rewrite IH.
Qed.

Lemma itemQualifies_products JSON_parse item offer ids l :
  appliesToType offer = "products" ->
  productIds offer = Some ids ->
  ids <> "" ->
  JSON_parse ids = Some (JS.JArr l) ->
  itemQualifiesForBxgy JSON_parse item offer
  = match JS.some (productIdMatches (pretty (product_id item))) l with
    | Some b => b
    | None => false
    end.
Proof.
  intros Hty Hids Hne Hparse. unfold itemQualifiesForBxgy.
  rewrite Hty, Hids, Hparse. cbn [String.eqb Ascii.eqb Bool.eqb andb].
  destruct (String.eqb_spec ids ""); [done|]. done.
Qed.

(** X1. For an offer scoped to products whose id list parses to an array
    of texts, a cart line qualifies exactly when one of the texts is the
    decimal product id of the line, or ends with a slash followed by it
    (a GID). *)
Theorem products_scope_matches_plain_id_or_gid
    (JSON_parse : string -> option JS.json) (item : CartItem) (offer : BxgyOffer)
    (ids : string) (texts : list string) :
  appliesToType offer = "products" ->
  productIds offer = Some ids ->
  ids <> "" ->
  JSON_parse ids = Some (JS.JArr (List.map JS.JStr texts)) ->
  itemQualifiesForBxgy JSON_parse item offer = true
  <-> exists t, t ∈ texts
                /\ (t = pretty (product_id item)
                    \/ exists prefix, t = prefix +:+ "/" +:+ pretty (product_id item)).
Proof.
  intros Hty Hids Hne Hparse.
  rewrite (itemQualifies_products JSON_parse item offer ids _ Hty Hids Hne Hparse).
  rewrite some_texts.
  set (pid := pretty (product_id item)).
  assert (Hpid : JS.includes "/" pid = false) by apply includes_slash_pretty_Z.
  split.
  - intros H. apply existsb_exists in H as (t & Ht & Heq).
    apply String.eqb_eq in Heq. exists t. split; [by apply list_elem_of_In|].
    destruct (JS.includes "/" t) eqn:Hs.
    + right. destruct (pop_split_with "/" t Hs) as [p Hp]. exists p.
      by rewrite <- Heq.
    + left. by rewrite split_without in Heq.
  - intros (t & Ht & Hcase). apply existsb_exists. exists t.
    split; [by apply list_elem_of_In|]. apply String.eqb_eq.
    destruct Hcase as [->|[p ->]].
    + by rewrite split_without.
    + change (p +:+ "/" +:+ pid) with (p +:+ String "/" pid).
      rewrite split_app_sep, pop_app by apply split_nonempty.
      by rewrite split_without.
Qed.

(** X2. A products-scoped offer matches no line at all when its id list
    parses to something that is not an array, and a line does not match
    when a number stands in the array before any text that names the
    line's product: the callback throws on the number and the error is
    answered with [false]. *)
Theorem products_scope_number_in_list_matches_nothing
    (JSON_parse : string -> option JS.json) (item : CartItem) (offer : BxgyOffer)
    (ids : string) :
  appliesToType offer = "products" ->
  productIds offer = Some ids ->
  (forall l, JSON_parse ids <> Some (JS.JArr l)) \/
  (exists texts n rest,
     JSON_parse ids = Some (JS.JArr (List.map JS.JStr texts ++ JS.JNum n :: rest))
     /\ forall t, t ∈ texts -> JS.pop (JS.split "/" t) <> pretty (product_id item)) ->
  itemQualifiesForBxgy JSON_parse item offer = false.
Proof.
  intros Hty Hids Hcase. unfold itemQualifiesForBxgy. rewrite Hty, Hids.
  cbn [String.eqb Ascii.eqb Bool.eqb andb].
  destruct (negb (String.eqb ids "")); [|done].
  destruct Hcase as [Hno|(texts & n & rest & -> & Hnone)].
  - destruct (JSON_parse ids) as [[]|]; try done. by destruct (Hno l).
  - assert (H : JS.some (productIdMatches (pretty (product_id item)))
                  (List.map JS.JStr texts ++ JS.JNum n :: rest) = None).
    { induction texts as [|t texts IH]; [done|].
      cbn [List.map app JS.some]. rewrite productIdMatches_text.
      destruct (String.eqb_spec (JS.pop (JS.split "/" t)) (pretty (product_id item)))
        as [E|_].
      - destruct (Hnone t); [apply list_elem_of_here|done].
      - apply IH. intros t' Ht'. by apply Hnone, list_elem_of_further. }
    by rewrite H.
Qed.

(** Product 42 is listed as a GID, product 7 by its number. *)
Lemma products_scope_example :
  itemQualifiesForBxgy ex_JSON_ids (ex_line "A" 42 1 500 []) ex_offer_products = true
  <-> exists t, t ∈ ["gid://shopify/Product/42"; "7"]
                /\ (t = "42" \/ exists prefix, t = prefix +:+ "/" +:+ "42").
Proof.
  apply (products_scope_matches_plain_id_or_gid ex_JSON_ids (ex_line "A" 42 1 500 [])
           ex_offer_products "[gid://shopify/Product/42, 7]"
           ["gid://shopify/Product/42"; "7"]);
    [reflexivity | reflexivity | discriminate | reflexivity].
Defined.

(** Product 7 written as a number is not matched. *)
Lemma products_scope_number_example :
  itemQualifiesForBxgy ex_JSON_number (ex_line "B" 7 1 500 []) ex_offer_products = false.
Proof.
  apply (products_scope_number_in_list_matches_nothing ex_JSON_number
           (ex_line "B" 7 1 500 []) ex_offer_products "[gid://shopify/Product/42, 7]");
    [reflexivity | reflexivity |].
  right. exists ["gid://shopify/Product/42"], 7, []. split; [reflexivity|].
  intros t Ht. apply list_elem_of_singleton in Ht as ->. vm_compute. discriminate.
Defined.

(** ** Free lines *)

Lemma countBxgyFreeItemsInCart_sumZ cart :
  countBxgyFreeItemsInCart cart
  = sumZ (List.map quantity (List.filter is_bxgy_free (items cart))).
Proof.
  unfold countBxgyFreeItemsInCart.
  assert (H : forall l acc,
             fold_left (fun count item =>
                          if is_bxgy_free item then count + quantity item else count) l acc
             = acc + sumZ (List.map quantity (List.filter is_bxgy_free l))).
  { induction l as [|i l IH]; intros acc; simpl.
    - unfold sumZ. simpl. lia.
    - rewrite IH. destruct (is_bxgy_free i); unfold sumZ; simpl; lia. }
  rewrite H. lia.
Qed.

(** X3. A line tagged as BXGY free item counts with its quantity as free,
    in the progress display and in the reward pass alike, and never as
    qualifying: putting it into a cart leaves the qualifying quantity, and
    with it the cycle-based entitlement, as they were. *)
Theorem free_line_counts_as_free_not_as_qualifying
    (JSON_parse : string -> option JS.json) (offer : BxgyOffer)
    (before after : list CartItem) (line : CartItem) (total total' count count' : Z) :
  is_bxgy_free line = true ->
  let without :=
    {| items := before ++ after; total_price := total; item_count := count |} in
  let with_line :=
    {| items := before ++ line :: after; total_price := total'; item_count := count' |} in
  calculateBxgyQualifyingQuantity JSON_parse with_line offer
  = calculateBxgyQualifyingQuantity JSON_parse without offer
  /\ countBxgyFreeItemsInCart with_line = countBxgyFreeItemsInCart without + quantity line
  /\ sumFreeQuantity with_line = countBxgyFreeItemsInCart with_line
  /\ sumFreeQuantity without = countBxgyFreeItemsInCart without.
Proof.
  intros Hfree without with_line.
  rewrite !calculateBxgyQualifyingQuantity_spec, !countBxgyFreeItemsInCart_sumZ,
    !sumFreeQuantity_sumZ.
  unfold qualifyingQuantity_spec, without, with_line. cbn [items].
  rewrite !List.filter_app. cbn [List.filter]. rewrite Hfree.
  assert (Hq : qualifying_line JSON_parse offer line = false).
  { unfold qualifying_line. rewrite Hfree. cbn. by rewrite andb_false_r. }
  rewrite Hq, !List.map_app. cbn [List.map]. rewrite !sumZ_app.
  change (sumZ (quantity line :: List.map quantity (List.filter is_bxgy_free after)))
    with (quantity line + sumZ (List.map quantity (List.filter is_bxgy_free after))).
  repeat split; lia.
Qed.

(** A free unit put between the lines of the cart A, B, C. *)
Lemma free_line_example :
  calculateBxgyQualifyingQuantity no_JSON
    {| items := [ex_line "A" 1 3 500 []; ex_line "F" 9 1 300 bxgy_free_tag;
                 ex_line "B" 2 2 200 []; ex_line "C" 3 1 800 []];
       total_price := 3000; item_count := 7 |}
    (ex_offer 3 1 "selection" "all")
  = calculateBxgyQualifyingQuantity no_JSON ex_cart_abc (ex_offer 3 1 "selection" "all").
Proof.
  apply (free_line_counts_as_free_not_as_qualifying no_JSON (ex_offer 3 1 "selection" "all")
           [ex_line "A" 1 3 500 []] [ex_line "B" 2 2 200 []; ex_line "C" 3 1 800 []]
           (ex_line "F" 9 1 300 bxgy_free_tag) 2700 3000 6 7).
  reflexivity.
Defined.

(** ** The tiles of the cart *)

Lemma sumZ_cons z l : sumZ (z :: l) = z + sumZ l.
Proof. reflexivity. Qed.

Lemma itemTiles_units m item :
  sumZ (List.map displayQty (itemTiles m item)) = quantity item.
Proof.
  unfold itemTiles.
  destruct (Z.ltb_spec 0 (freeQtyOf m item)),
    (Z.ltb_spec 0 (quantity item - freeQtyOf m item)),
    (Z.eqb_spec (quantity item - freeQtyOf m item) 0);
    cbn [andb List.map displayQty]; rewrite ?sumZ_cons; unfold sumZ; simpl; lia.
Qed.

Lemma itemTiles_free_units m item :
  sumZ (List.map displayQty (List.filter isCheapestFree (itemTiles m item)))
  = if (0 <? freeQtyOf m item) && (freeQtyOf m item <=? quantity item)
    then freeQtyOf m item else 0.
Proof.
  unfold itemTiles, isCheapestFree.
  destruct (Z.ltb_spec 0 (freeQtyOf m item)),
    (Z.ltb_spec 0 (quantity item - freeQtyOf m item)),
    (Z.eqb_spec (quantity item - freeQtyOf m item) 0),
    (Z.leb_spec (freeQtyOf m item) (quantity item));
    cbn [andb orb List.map List.filter displayQty isFreePortionSplit isAllFree];
    rewrite ?sumZ_cons; unfold sumZ; simpl; lia.
Qed.

Lemma elem_of_itemTiles m item t :
  t ∈ itemTiles m item ->
  tile_item t = item
  /\ (0 < quantity item -> 0 < displayQty t)
  /\ (isCheapestFree t = true ->
      0 < displayQty t <= quantity item /\ displayQty t = freeQtyOf m item).
Proof.
  unfold itemTiles, isCheapestFree.
  destruct (Z.ltb_spec 0 (freeQtyOf m item)),
    (Z.ltb_spec 0 (quantity item - freeQtyOf m item)),
    (Z.eqb_spec (quantity item - freeQtyOf m item) 0);
    cbn [andb]; intros Ht;
    repeat (apply elem_of_cons in Ht as [->|Ht]); try (by apply elem_of_nil in Ht);
    cbn [tile_item displayQty isFreePortionSplit isAllFree orb];
    (split; [done|]); (split; [lia|]); intros; try done; lia.
Qed.

Lemma elem_of_flat_map {A B} (f : A -> list B) (l : list A) (y : B) :
  y ∈ flat_map f l <-> exists x, x ∈ l /\ y ∈ f x.
Proof.
  rewrite list_elem_of_In, in_flat_map. split; intros (x & Hx & Hy); exists x.
  - by rewrite !list_elem_of_In.
  - by rewrite <- !list_elem_of_In.
Qed.

(** X4. Whatever the map of free units holds, and it is the one that the
    previous pass left, the tiles of [renderItems] show every unit of the
    cart exactly once: the quantities on the tiles add up to the quantities
    of the lines. A tile stands for a line of the cart, shows a positive
    quantity when its line has one, and a tile drawn as free shows the
    free units of the map, never more than its line holds. *)
Theorem tiles_show_every_unit_once (m : gmap string Z) (cart : Cart) :
  sumZ (List.map displayQty (itemsToRender m cart))
  = sumZ (List.map quantity (items cart))
  /\ forall t, t ∈ itemsToRender m cart ->
       tile_item t ∈ items cart
       /\ (0 < quantity (tile_item t) -> 0 < displayQty t)
       /\ (isCheapestFree t = true ->
           0 < displayQty t <= quantity (tile_item t)
           /\ m !! key (tile_item t) = Some (displayQty t)).
Proof.
  unfold itemsToRender. split.
  - induction (items cart) as [|item l IH]; [done|].
    cbn [flat_map List.map]. rewrite List.map_app, sumZ_app, itemTiles_units, IH.
    by rewrite sumZ_cons.
  - intros t Ht. apply elem_of_flat_map in Ht as (item & Hitem & Ht).
    apply elem_of_itemTiles in Ht as (-> & Hpos & Hfree).
    split; [done|]. split; [done|]. intros Hf.
    destruct (Hfree Hf) as [Hb Heq]. split; [done|].
    unfold freeQtyOf in Heq. destruct (m !! key item) as [q|]; [|lia].
    unfold JS.or_num in Heq. destruct (Z.eqb_spec q 0); [lia|by subst].
Qed.

Lemma map_sum_lookups (l : list CartItem) (m : gmap string Z) :
  NoDup (List.map key l) ->
  (forall k, is_Some (m !! k) -> k ∈ List.map key l) ->
  sumZ (List.map (fun i => default 0 (m !! key i)) l) = map_sum m.
Proof.
  revert m. induction l as [|i l IH]; intros m Hnd Hdom.
  - assert (m = ∅) as ->.
    { apply map_empty. intros k. destruct (m !! k) eqn:E; [|done].
      assert (Hk : k ∈ List.map key []) by (apply Hdom; by rewrite E).
      by apply elem_of_nil in Hk. }
    by rewrite map_sum_empty.
  - cbn [List.map] in *. apply NoDup_cons in Hnd as [Hi Hnd].
    rewrite sumZ_cons.
    assert (Hrest : List.map (fun j => default 0 (m !! key j)) l
                    = List.map (fun j => default 0 (delete (key i) m !! key j)) l).
    { apply map_ext_in. intros j Hj. rewrite lookup_delete_ne; [done|].
      intros Heq. apply Hi. rewrite Heq. by apply elem_of_List_map, list_elem_of_In. }
    rewrite Hrest, (IH (delete (key i) m)); [|done|].
    + destruct (m !! key i) as [v|] eqn:E.
      * rewrite <- (insert_delete_id m (key i) v E) at 2.
        rewrite map_sum_insert by apply lookup_delete_eq. done.
      * rewrite delete_id by done. simpl. lia.
    + intros k [v Hk]. destruct (decide (k = key i)) as [->|Hne].
      * by rewrite lookup_delete_eq in Hk.
      * rewrite lookup_delete_ne in Hk by done.
        assert (Hin : k ∈ key i :: List.map key l) by (apply Hdom; by rewrite Hk).
        by apply elem_of_cons in Hin as [->|Hin].
Qed.

Section CheapestFacts.
Variable JSON_parse : string -> option JS.json.
Variable cart : Cart.
Variable offer : BxgyOffer.
Variable N : Z.
Hypothesis N_nonneg : 0 <= N.
Hypothesis keys_distinct : NoDup (List.map key (items cart)).
Hypothesis quantities_nonneg : Forall (fun item => 0 <= quantity item) (items cart).

Lemma calculateCheapestFreeItems_entry k n :
  calculateCheapestFreeItems JSON_parse cart offer N !! k = Some n ->
  exists item, item ∈ items cart /\ qualifying_line JSON_parse offer item = true
               /\ key item = k /\ 0 <= n <= quantity item.
Proof.
  unfold calculateCheapestFreeItems. destruct (N <=? 0); [by rewrite lookup_empty|].
  intros Hk. rewrite qualifyingItems_filter in Hk.
  apply allocate_lookup_bound in Hk as [Hk|(i & Hi & Hki & Hn)].
  - by rewrite lookup_empty in Hk.
  - rewrite sort_by_Permutation in Hi. apply elem_of_List_filter in Hi as [Hi Hq].
    by exists i.
  - rewrite sort_by_Permutation. rewrite Forall_forall in quantities_nonneg |- *.
    intros i [Hi _]%elem_of_List_filter. by apply quantities_nonneg.
Qed.

Lemma calculateCheapestFreeItems_sum :
  map_sum (calculateCheapestFreeItems JSON_parse cart offer N)
  = Z.min N (qualifyingQuantity_spec JSON_parse cart offer).
Proof.
  unfold calculateCheapestFreeItems, qualifyingQuantity_spec.
  set (lines := List.filter (qualifying_line JSON_parse offer) (items cart)).
  assert (Hql : Forall (fun item => 0 <= quantity item) lines).
  { rewrite Forall_forall in quantities_nonneg |- *.
    intros i [Hi _]%elem_of_List_filter. by apply quantities_nonneg. }
  assert (Hs0 : 0 <= sumZ (List.map quantity lines))
    by (apply sumZ_nonneg; by rewrite Forall_map).
  destruct (Z.leb_spec N 0); [rewrite map_sum_empty; lia|].
  rewrite qualifyingItems_filter. fold lines.
  pose proof (sort_by_Permutation price lines) as Hperm.
  rewrite allocate_sum.
  - rewrite map_sum_empty, (sumZ_Permutation _ _ (Permutation_map quantity Hperm)). lia.
  - rewrite (Permutation_map key Hperm). by apply NoDup_map_filter.
  - apply Forall_forall. intros. apply lookup_empty.
  - by rewrite Hperm.
Qed.

End CheapestFacts.

Lemma NoDup_map_key_eq (l : list CartItem) x y :
  NoDup (List.map key l) -> x ∈ l -> y ∈ l -> key x = key y -> x = y.
Proof.
  induction l as [|i l IH]; intros Hnd Hx Hy Hk; [by apply elem_of_nil in Hx|].
  cbn [List.map] in Hnd. apply NoDup_cons in Hnd as [Hi Hnd].
  apply elem_of_cons in Hx as [->|Hx]; apply elem_of_cons in Hy as [->|Hy];
    [done| | |by apply IH].
  - destruct Hi. rewrite Hk. by apply elem_of_List_map.
  - destruct Hi. rewrite <- Hk. by apply elem_of_List_map.
Qed.

Lemma freeQtyOf_lookup m item : freeQtyOf m item = default 0 (m !! key item).
Proof.
  unfold freeQtyOf, JS.or_num. destruct (m !! key item) as [q|]; [|done].
  simpl. by destruct (Z.eqb_spec q 0).
Qed.

Lemma flat_map_free_units m (l : list CartItem) :
  sumZ (List.map displayQty (List.filter isCheapestFree (flat_map (itemTiles m) l)))
  = sumZ (List.map
            (fun item => if (0 <? freeQtyOf m item) && (freeQtyOf m item <=? quantity item)
                         then freeQtyOf m item else 0) l).
Proof.
  induction l as [|item l IH]; [done|].
  cbn [flat_map List.map].
  by rewrite List.filter_app, List.map_app, sumZ_app, itemTiles_free_units, IH, sumZ_cons.
Qed.

(** X5. When the map of free units is the one computed for the cart that
    is drawn, for an entitlement N >= 0 and a cart with distinct line keys
    and non-negative quantities, the units on the tiles drawn as free add
    up to min(N, qualifying quantity), and only qualifying lines that are
    not tagged free carry such a tile. *)
Theorem free_tiles_show_the_entitlement
    (JSON_parse : string -> option JS.json) (cart : Cart) (offer : BxgyOffer) (N : Z) :
  0 <= N ->
  NoDup (List.map key (items cart)) ->
  Forall (fun item => 0 <= quantity item) (items cart) ->
  let tiles := itemsToRender (calculateCheapestFreeItems JSON_parse cart offer N) cart in
  sumZ (List.map displayQty (List.filter isCheapestFree tiles))
  = Z.min N (calculateBxgyQualifyingQuantity JSON_parse cart offer)
  /\ forall t, t ∈ tiles -> isCheapestFree t = true ->
       itemQualifiesForBxgy JSON_parse (tile_item t) offer = true
       /\ is_free_gift (tile_item t) = false
       /\ is_bxgy_free (tile_item t) = false.
Proof.
  intros HN Hnd Hq tiles. subst tiles. unfold itemsToRender.
  set (m := calculateCheapestFreeItems JSON_parse cart offer N).
  assert (Hentry : forall item, item ∈ items cart ->
            forall n, m !! key item = Some n ->
              qualifying_line JSON_parse offer item = true /\ 0 <= n <= quantity item).
  { intros item Hitem n Hn.
    destruct (calculateCheapestFreeItems_entry JSON_parse cart offer N Hq _ _ Hn)
      as (item' & Hitem' & Hql & Hk & Hb).
    by rewrite <- (NoDup_map_key_eq (items cart) item' item Hnd Hitem' Hitem Hk). }
  split.
  - rewrite flat_map_free_units.
    rewrite calculateBxgyQualifyingQuantity_spec,
      <- (calculateCheapestFreeItems_sum JSON_parse cart offer N HN Hnd Hq).
    fold m. rewrite <- (map_sum_lookups (items cart) m Hnd).
    + f_equal. apply map_ext_in. intros item Hitem%list_elem_of_In.
      rewrite freeQtyOf_lookup. destruct (m !! key item) as [n|] eqn:E; [|done].
      destruct (Hentry item Hitem n E) as [_ Hb]. simpl.
      destruct (Z.ltb_spec 0 n), (Z.leb_spec n (quantity item)); simpl; lia.
    + intros k [n Hk].
      destruct (calculateCheapestFreeItems_entry JSON_parse cart offer N Hq _ _ Hk)
        as (item & Hitem & _ & <- & _).
      by apply elem_of_List_map.
  - intros t Ht Hf. apply elem_of_flat_map in Ht as (item & Hitem & Ht).
    apply elem_of_itemTiles in Ht as (-> & _ & Hfree).
    destruct (Hfree Hf) as [Hpos Heq]. rewrite freeQtyOf_lookup in Heq.
    destruct (m !! key item) as [n|] eqn:E; [|simpl in Heq; lia].
    destruct (Hentry item Hitem n E) as [Hql _]. unfold qualifying_line in Hql.
    apply andb_prop in Hql as [Hql Hb]. apply andb_prop in Hql as [Hql Hg].
    by rewrite negb_true_iff in Hg, Hb.
Qed.

(** Three free units on the cart A, B, C: the two B and one A. *)
Lemma free_tiles_example :
  sumZ (List.map displayQty
          (List.filter isCheapestFree
             (itemsToRender
                (calculateCheapestFreeItems no_JSON ex_cart_abc
                   (ex_offer 3 3 "cheapest_in_cart" "all") 3)
                ex_cart_abc)))
  = Z.min 3 (calculateBxgyQualifyingQuantity no_JSON ex_cart_abc
               (ex_offer 3 3 "cheapest_in_cart" "all")).
Proof.
  apply (free_tiles_show_the_entitlement no_JSON ex_cart_abc
           (ex_offer 3 3 "cheapest_in_cart" "all") 3).
  - lia.
  - apply (bool_decide_unpack _). vm_compute. exact I.
  - repeat constructor; simpl; lia.
Defined.

(** ** The strip of the BXGY progress *)

Lemma bxgyBoxes_lookup offer Q E F i box :
  bxgyBoxes offer Q E F !! i = Some box ->
  box = bxgyBox offer Q E F i
  /\ Z.of_nat i < JS.or_num (buyQuantity offer) 3 + JS.or_num (getQuantity offer) 1.
Proof.
  unfold bxgyBoxes. intros H.
  change (List.map ?f ?l) with (f <$> l) in H.
  rewrite list_lookup_fmap in H.
  destruct (seq 0 _ !! i) as [j|] eqn:Hj; [|done].
  apply lookup_seq in Hj as [-> Hlt]. simpl in H. injection H as <-.
  split; [done|]. lia.
Qed.

(** X6. For an offer with B >= 1 and G >= 1 and a qualifying quantity
    Q >= 0, the strip that the progress pass draws has B + G boxes, the
    first B numbered from 1 and the last G labelled FREE. The numbered box
    n is filled exactly when n <= Q. In cheapest-in-cart mode the strip
    reads as a gauge of Q over all its boxes: the FREE box in place n is
    lit exactly when n <= Q. In the other modes a FREE box is lit exactly
    when a cycle is complete and the cart holds as many free units as the
    box's rank among the FREE boxes. *)
Theorem bxgy_strip_is_a_gauge (offer : BxgyOffer) (Q F : Z) :
  1 <= buyQuantity offer ->
  1 <= getQuantity offer ->
  0 <= Q ->
  let B := buyQuantity offer in
  let G := getQuantity offer in
  let cheapest :=
    String.eqb (JS.or_str (rewardMode offer) "cheapest_in_cart") "cheapest_in_cart" in
  let boxes := drawnBoxes offer (Q, progressEarnedFreeItems offer Q, F) in
  length boxes = Z.to_nat (B + G)
  /\ forall i box,
       boxes !! i = Some box ->
       let n := Z.of_nat i + 1 in
       n <= B + G
       /\ (n <= B ->
           isFreeSlot box = false /\ box_label box = pretty n
           /\ isFreeEarned box = false /\ (isFilled box = true <-> n <= Q))
       /\ (B < n ->
           isFreeSlot box = true /\ box_label box = "FREE" /\ isFilled box = false
           /\ (isFreeEarned box = true
               <-> if cheapest then n <= Q else B <= Q /\ n - B <= F)).
Proof.
  intros HB HG HQ B G cheapest boxes. subst boxes. unfold drawnBoxes.
  assert (HoB : JS.or_num (buyQuantity offer) 3 = B) by by apply or_num_pos.
  assert (HoG : JS.or_num (getQuantity offer) 1 = G) by by apply or_num_pos.
  split.
  { unfold bxgyBoxes. by rewrite length_map, length_seq, HoB, HoG. }
  intros i box Hbox. apply bxgyBoxes_lookup in Hbox as [-> Hi].
  rewrite HoB, HoG in Hi. set (n := Z.of_nat i + 1).
  unfold bxgyBox, bxgyFilledSlots, bxgyHasEarnedFree, progressEarnedFreeItems.
  rewrite HoB, HoG. fold cheapest. fold n.
  cbn [isFreeSlot isFilled isFreeEarned box_label].
  split; [lia|]. split.
  - intros Hn. destruct (Z.ltb_spec B n); [lia|]. cbn [negb andb].
    repeat split; try done.
    + destruct cheapest.
      * intros Hle%Z.leb_le. lia.
      * destruct (Z.leb_spec B Q); intros Hle%Z.leb_le; [lia|].
        rewrite Z.rem_small in Hle by lia. lia.
    + intros Hq. apply Z.leb_le. destruct cheapest; [lia|].
      destruct (Z.leb_spec B Q); [lia|]. rewrite Z.rem_small by lia. lia.
  - intros Hn. destruct (Z.ltb_spec B n); [|lia]. cbn [negb andb].
    repeat split; try done.
    + destruct cheapest.
      * intros Hle%Z.leb_le. lia.
      * intros [H1%Z.leb_le H2%Z.leb_le]%andb_prop. lia.
    + destruct cheapest.
      * intros Hq. apply Z.leb_le. lia.
      * intros [H1 H2]. apply andb_true_intro. split; apply Z.leb_le; lia.
Qed.

(** Buy 3 get 3 with four qualifying units: six boxes, of which the three
    numbered ones and the first FREE box are lit. *)
Lemma bxgy_strip_example :
  length (drawnBoxes (ex_offer 3 3 "cheapest_in_cart" "all")
            (4, progressEarnedFreeItems (ex_offer 3 3 "cheapest_in_cart" "all") 4, 0))
  = 6%nat.
Proof.
  apply (bxgy_strip_is_a_gauge (ex_offer 3 3 "cheapest_in_cart" "all") 4 0);
    simpl; lia.
Defined.

(** ** The tiers on the progress bar *)

Lemma tierScan_sorted tiers total cur acc :
  StronglySorted (fun a b => threshold a <= threshold b) tiers ->
  let unlocked := List.filter (fun t => threshold t <=? total) tiers in
  let locked := List.filter (fun t => negb (threshold t <=? total)) tiers in
  tierScan tiers total cur acc
  = (match last unlocked with Some t => Some t | None => cur end,
     head locked, acc ++ unlocked).
Proof.
  revert cur acc. induction tiers as [|t tiers IH]; intros cur acc Hs; cbn zeta.
  - simpl. by rewrite app_nil_r.
  - apply StronglySorted_inv in Hs as [Hs Hall].
    cbn [tierScan List.filter]. destruct (Z.leb_spec (threshold t) total) as [Hle|Hgt].
    + rewrite IH by done. cbn zeta. cbn [negb head].
      rewrite <- app_assoc. cbn [app]. f_equal. f_equal.
      rewrite last_cons. by destruct (last _).
    + cbn [negb head].
      assert (Hnone : List.filter (fun t0 => threshold t0 <=? total) tiers = []).
      { clear IH Hs. induction tiers as [|u us IHu]; [done|].
        apply Forall_cons in Hall as [Hu Hall]. cbn [List.filter].
        destruct (Z.leb_spec (threshold u) total); [lia|]. by apply IHu. }
      rewrite Hnone. cbn [last]. by rewrite app_nil_r.
Qed.

(** X7. The progress bar and the reward pass agree on the unlocked tiers:
    the scan of [updateMultiTierProgress], which stops at the first tier
    out of reach, finds the tiers that [applyRewards] filters from the
    sorted list. The tier reached last is the last of them; the tier to
    reach next is the first tier out of reach, no tier out of reach is
    cheaper, and the amount still to add for it is positive. *)
Theorem progress_bar_agrees_with_reward_pass
    (tiers : list RewardTier) (unlockedTierCount : Z) (cart : Cart) :
  let r := updateMultiTierProgress tiers unlockedTierCount cart in
  tp_tiers r = sort_by threshold tiers
  /\ tp_unlocked r = unlockedTiers (sort_by threshold tiers) cart
  /\ tp_currentTier r = last (tp_unlocked r)
  /\ tp_unlockedTierCount r = Z.of_nat (length (tp_unlocked r))
  /\ (forall next,
        tp_nextTier r = Some next ->
        next ∈ tiers
        /\ total_price cart < threshold next
        /\ tp_remaining r = Some (threshold next - total_price cart)
        /\ forall t, t ∈ tiers -> total_price cart < threshold t ->
                     threshold next <= threshold t)
  /\ (tp_nextTier r = None ->
      tp_remaining r = None /\ tp_unlocked r = sort_by threshold tiers).
Proof.
  intros r. subst r. unfold updateMultiTierProgress.
  pose proof (sort_by_sorted threshold tiers) as Hsorted.
  pose proof (sort_by_Permutation threshold tiers) as Hperm.
  rewrite (tierScan_sorted _ (total_price cart) None [] Hsorted).
  cbn zeta. cbn [app tp_tiers tp_unlocked tp_currentTier tp_unlockedTierCount
                  tp_nextTier tp_remaining].
  set (sorted := sort_by threshold tiers) in *.
  set (locked := List.filter (fun t => negb (threshold t <=? total_price cart)) sorted).
  split; [done|]. split; [done|]. split.
  { unfold unlockedTiers. by destruct (last _). }
  split; [done|]. split.
  - intros next Hnext.
    assert (Hin : next ∈ locked).
    { destruct locked as [|x l]; [done|]. injection Hnext as ->. apply list_elem_of_here. }
    pose proof Hin as Hin'. apply elem_of_List_filter in Hin' as [Hs Hlocked].
    apply negb_true_iff, Z.leb_gt in Hlocked.
    split; [by rewrite <- Hperm|]. split; [done|]. split; [by rewrite Hnext|].
    intros t Ht Hlt.
    assert (Htl : t ∈ locked).
    { apply elem_of_List_filter. split; [by rewrite Hperm|].
      by apply negb_true_iff, Z.leb_gt. }
    assert (Hsl : StronglySorted (fun a b => threshold a <= threshold b) locked).
    { clear -Hsorted. subst locked. induction Hsorted as [|x l Hs IH Hall]; [constructor|].
      cbn [List.filter]. destruct (negb _); [|done].
      constructor; [done|]. rewrite Forall_forall in Hall |- *.
      intros y [Hy _]%elem_of_List_filter. by apply Hall. }
    destruct locked as [|x l]; [done|]. injection Hnext as ->.
    apply StronglySorted_inv in Hsl as [_ Hall].
    apply elem_of_cons in Htl as [->|Htl]; [lia|].
    rewrite Forall_forall in Hall. by apply Hall.
  - intros Hnone. split; [by rewrite Hnone|].
    assert (Hl : locked = []) by by destruct locked.
    unfold unlockedTiers. subst locked. clear -Hl.
    induction sorted as [|x l IH]; [done|]. cbn [List.filter] in *.
    destruct (threshold x <=? total_price cart); cbn [negb] in Hl; [|done].
    by rewrite IH.
Qed.

(** ** The countdown *)

Lemma padStart2_pretty m : 0 <= m < 60 -> padStart2 (pretty m) = twoDigits m.
Proof.
  intros Hm.
  assert (Hall : forallb (fun k => String.eqb (padStart2 (pretty (Z.of_nat k)))
                                              (twoDigits (Z.of_nat k)))
                   (seq 0 60) = true) by (vm_compute; reflexivity).
  rewrite forallb_forall in Hall.
  specialize (Hall (Z.to_nat m)). rewrite Z2Nat.id in Hall by lia.
  apply String.eqb_eq, Hall, in_seq. lia.
Qed.

(** X8. While time is left, the countdown shows the whole seconds that are
    left, split into hours, minutes and seconds: minutes and seconds are
    below 60 and always written with two digits, except that the minutes
    come unpadded, and the hours are left out, when less than an hour is
    left. *)
Theorem countdown_shows_the_whole_seconds_left (diff : Z) :
  0 < diff ->
  let left := diff / 1000 in
  let h := left / 3600 in
  let m := (left / 60) mod 60 in
  let s := left mod 60 in
  h * 3600 + m * 60 + s = left
  /\ 0 <= h /\ 0 <= m < 60 /\ 0 <= s < 60
  /\ updateTimerDisplay diff
     = TimerShows (if 0 <? h
                   then pretty h +:+ ":" +:+ twoDigits m +:+ ":" +:+ twoDigits s
                   else pretty m +:+ ":" +:+ twoDigits s).
Proof.
  intros Hd left h m s.
  assert (Hh : diff / (1000 * 60 * 60) = h).
  { subst h left. change (1000 * 60 * 60) with 3600000.
    Z.div_mod_to_equations. lia. }
  assert (Hm : Z.rem diff (1000 * 60 * 60) / (1000 * 60) = m).
  { subst m left. rewrite Z.rem_mod_nonneg by lia.
    change (1000 * 60 * 60) with 3600000. change (1000 * 60) with 60000.
    Z.div_mod_to_equations. lia. }
  assert (Hs : Z.rem diff (1000 * 60) / 1000 = s).
  { subst s left. rewrite Z.rem_mod_nonneg by lia. change (1000 * 60) with 60000.
    Z.div_mod_to_equations. lia. }
  assert (Hbm : 0 <= m < 60) by (apply Z.mod_pos_bound; lia).
  assert (Hbs : 0 <= s < 60) by (apply Z.mod_pos_bound; lia).
  split; [subst h m s; Z.div_mod_to_equations; lia|].
  split; [subst h left; Z.div_mod_to_equations; lia|].
  split; [done|]. split; [done|].
  unfold updateTimerDisplay. destruct (Z.leb_spec diff 0); [lia|].
  rewrite Hh, Hm, Hs. by rewrite !padStart2_pretty.
Qed.

(** One hour, one minute and one second and a half: 1:01:01. *)
Lemma countdown_example : updateTimerDisplay 3661500 = TimerShows "1:01:01".
Proof.
  apply (countdown_shows_the_whole_seconds_left 3661500). lia.
Defined.

(** ** Reward keys *)

Lemma digit_pretty_N_char d :
  (d < 10)%N -> JS.digit 10 (pretty_N_char d) = Some (Z.of_N d).
Proof.
  intros Hd.
  assert (d = 0 \/ d = 1 \/ d = 2 \/ d = 3 \/ d = 4 \/ d = 5 \/ d = 6 \/ d = 7
          \/ d = 8 \/ d = 9)%N as Hcases by lia.
  repeat (destruct Hcases as [->|Hcases]; [reflexivity|]). by subst.
Qed.

Lemma digits_pretty_N_go x s :
  (0 < x)%N ->
  JS.digits 10 None (pretty_N_go x s) = JS.digits 10 (Some (Z.of_N x)) s.
Proof.
  revert s. induction (N.lt_wf_0 x) as [x _ IH]; intros s Hx.
  rewrite pretty_N_go_step by done.
  pose proof (N.mod_lt x 10 ltac:(lia)) as Hd.
  pose proof (N.div_mod x 10 ltac:(lia)) as Hdm.
  destruct (decide (x `div` 10 = 0)%N) as [E|E].
  - rewrite E, pretty_N_go_0. cbn [JS.digits]. rewrite digit_pretty_N_char by done.
    f_equal. f_equal. change (default 0 None) with 0. lia.
  - rewrite IH; [|apply N.div_lt; lia|lia].
    cbn [JS.digits]. rewrite digit_pretty_N_char by done.
    f_equal. f_equal.
    change (default 0 (Some (Z.of_N (x `div` 10)))) with (Z.of_N (x `div` 10)). lia.
Qed.

Lemma pretty_N_go_head x s :
  (0 < x)%N ->
  exists d rest, (1 <= d <= 9)%N /\ pretty_N_go x s = String (pretty_N_char d) rest.
Proof.
  revert s. induction (N.lt_wf_0 x) as [x _ IH]; intros s Hx.
  rewrite pretty_N_go_step by done.
  pose proof (N.mod_lt x 10 ltac:(lia)) as Hd.
  pose proof (N.div_mod x 10 ltac:(lia)) as Hdm.
  destruct (decide (x `div` 10 = 0)%N) as [E|E].
  - rewrite E, pretty_N_go_0. exists (x `mod` 10)%N, s. split; [lia|done].
  - apply IH; [apply N.div_lt; lia|lia].
Qed.

(** [parseInt] reads back the decimal text of a number that is not
    negative. *)
Lemma parseInt_pretty (z : Z) : 0 <= z -> JS.parseInt (pretty z) = Some z.
Proof.
  intros Hz. destruct z as [|p|p]; [reflexivity| |lia].
  change (pretty (Z.pos p)) with (pretty_N_go (N.pos p) "").
  pose proof (digits_pretty_N_go (N.pos p) "" ltac:(lia)) as Hdigits.
  destruct (pretty_N_go_head (N.pos p) "" ltac:(lia)) as (d & rest & Hd & Hhead).
  rewrite Hhead in *.
  assert (Hp : JS.parseInt (String (pretty_N_char d) rest)
               = match JS.digits 10 None (String (pretty_N_char d) rest) with
                 | Some v => Some (1 * v)
                 | None => None
                 end).
  { assert (d = 1 \/ d = 2 \/ d = 3 \/ d = 4 \/ d = 5 \/ d = 6 \/ d = 7
            \/ d = 8 \/ d = 9)%N as Hcases by lia.
    repeat (destruct Hcases as [->|Hcases]; [reflexivity|]). by subst. }
  rewrite Hp, Hdigits. reflexivity.
Qed.

Lemma pretty_N_char_not_dash d : pretty_N_char d <> "-"%char.
Proof. unfold pretty_N_char. by repeat case_match. Qed.

Lemma includes_dash_pretty_Z (z : Z) : 0 <= z -> JS.includes "-" (pretty z) = false.
Proof.
  destruct z as [|p|p]; [done| |lia]. intros _.
  apply (includes_pretty_N _ (N.pos p)), pretty_N_char_not_dash.
Qed.

Lemma split_rewardKey t :
  JS.includes "-" (rewardType t) = false ->
  JS.split "-" (rewardKey t) = rewardType t :: JS.split "-" (pretty (threshold t)).
Proof.
  intros Hty. unfold rewardKey.
  change (rewardType t +:+ "-" +:+ pretty (threshold t))
    with (rewardType t +:+ String "-" (pretty (threshold t))).
  by rewrite split_app_sep, split_without.
Qed.

(** X9. The key of a tier leads back to a tier of the same type and
    threshold, which is what lets the pass take a reward back: for a tier
    of the list whose type holds no dash and whose threshold is not
    negative, [findTierOfKey] on the tier's key finds the first tier of the
    list with that type and threshold. With a negative threshold the key
    holds two dashes in a row, the threshold is read as [NaN], and no tier
    is ever found. *)
Theorem reward_key_leads_back_to_its_tier (tiers : list RewardTier) (t : RewardTier) :
  JS.includes "-" (rewardType t) = false ->
  (0 <= threshold t ->
   findTierOfKey tiers (rewardKey t)
   = List.find (fun t' => bool_decide (rewardType t' = rewardType t)
                          && bool_decide (threshold t' = threshold t)) tiers
   /\ (t ∈ tiers ->
       exists t', findTierOfKey tiers (rewardKey t) = Some t'
                  /\ t' ∈ tiers /\ rewardKey t' = rewardKey t))
  /\ (threshold t < 0 -> findTierOfKey tiers (rewardKey t) = None).
Proof.
  intros Hty. split.
  - intros Hth.
    assert (Hfind : findTierOfKey tiers (rewardKey t)
                    = List.find (fun t' => bool_decide (rewardType t' = rewardType t)
                                           && bool_decide (threshold t' = threshold t))
                        tiers).
    { unfold findTierOfKey. rewrite split_rewardKey by done.
      rewrite split_without by by apply includes_dash_pretty_Z.
      cbn [lookup list_lookup mbind option_bind]. rewrite parseInt_pretty by done.
      induction tiers as [|u us IH]; [done|]. cbn [List.find].
      rewrite IH.
      rewrite (bool_decide_ext (Some (rewardType u) = Some (rewardType t))
                 (rewardType u = rewardType t)) by (split; congruence).
      by rewrite (bool_decide_ext (Some (threshold u) = Some (threshold t))
                    (threshold u = threshold t)) by (split; congruence). }
    split; [done|]. intros Hin. rewrite Hfind.
    destruct (List.find _ tiers) as [t'|] eqn:E.
    + apply find_some in E as [Hin' Hsame]. exists t'. split; [done|].
      split; [by apply list_elem_of_In|].
      apply andb_prop in Hsame as [H1%bool_decide_eq_true H2%bool_decide_eq_true].
      unfold rewardKey. by rewrite H1, H2.
    + exfalso. apply list_elem_of_In in Hin.
      pose proof (find_none _ _ E t Hin) as Hn. cbn in Hn.
      by rewrite !bool_decide_eq_true_2 in Hn.
  - intros Hneg. unfold findTierOfKey. rewrite split_rewardKey by done.
    destruct (threshold t) as [|p|p] eqn:E; [lia|lia|].
    change (pretty (Z.neg p)) with (String "-" (pretty (N.pos p))).
    cbn [JS.split Ascii.eqb Bool.eqb lookup list_lookup mbind option_bind].
    change (JS.parseInt "") with (@None Z).
    induction tiers as [|u us IH]; [done|]. cbn [List.find].
    rewrite (bool_decide_eq_false_2 (Some (threshold u) = None)) by done.
    by rewrite andb_false_r.
Qed.

(** The key of the mug tier, [free_gift-1000]. *)
Lemma reward_key_example :
  findTierOfKey [ex_tier_ship; ex_tier_gift] (rewardKey ex_tier_gift)
  = List.find (fun t' => bool_decide (rewardType t' = "free_gift")
                         && bool_decide (threshold t' = 1000))
      [ex_tier_ship; ex_tier_gift].
Proof.
  apply (reward_key_leads_back_to_its_tier [ex_tier_ship; ex_tier_gift] ex_tier_gift).
  - reflexivity.
  - simpl. lia.
Defined.

(** ** Automatic mode *)

Section AutomaticFacts.
Variable net : nat -> Response.
Variable now : nat -> Z.
Variable JSON_parse : string -> option JS.json.

Lemma addAutomaticBxgyItem_run offer handle qty s :
  addAutomaticBxgyItem net offer handle qty s
  = Returns tt
      (set_timers (S (timers s))
         (set_isApplyingBxgy false
            (set_isInternalCartUpdate false
               (set_requests
                  (requests s ++ automaticSent net (length (requests s)) offer handle qty)
                  s)))).
Proof.
  unfold addAutomaticBxgyItem, automaticSent, scheduleRefresh.
  unfold try_finally, try_catch. rewrite !bind_run. cbn [assign].
  rewrite !bind_run. cbn [assign]. rewrite bind_run. unfold fetch at 1.
  cbn [requests set_isApplyingBxgy set_isInternalCartUpdate isInternalCartUpdate].
  destruct (net (length (requests s))) as [|[] body]; [done| |done].
  cbn [response_ok negb]. destruct body as [c|p| |]; cbn [json_product]; [done| |done..].
  rewrite bind_run. cbn [mret M_ret].
  destruct (variants p) as [|variant vs]; [done|].
  rewrite bind_run. unfold fetch.
  cbn [requests set_requests set_isApplyingBxgy set_isInternalCartUpdate
         isInternalCartUpdate].
  destruct (net _) as [|ok body]; cbn; by rewrite <- app_assoc.
Qed.

(** An enabled pass that is not already applying reads the clock and
    dispatches on the first offer; whatever the dispatch throws is caught. *)
Lemma applyBxgyRewards_enabled cart s offer rest :
  isApplyingBxgy s = false ->
  bxgyEnabled s = true ->
  bxgyOffers s = offer :: rest ->
  let Q := calculateBxgyQualifyingQuantity JSON_parse cart offer in
  applyBxgyRewards net now JSON_parse cart s
  = match applyBxgyRewards_dispatch net now offer cart
            (JS.or_str (rewardMode offer) "cheapest_in_cart")
            (rewardsEarnedFreeItems offer Q) (now (ticks s))
            (now (ticks s) - lastBxgyActionTime s) (set_ticks (S (ticks s)) s) with
    | Diverges => Diverges
    | Returns _ s1 =>
        Returns tt (set_lastBxgyState
                      (rewardsEarnedCycles offer Q, rewardsEarnedFreeItems offer Q) s1)
    | Throws _ s1 => Returns tt s1
    end.
Proof.
  intros Hguard Hen Hoff Q.
  unfold applyBxgyRewards, this, dateNow. rewrite !bind_run. rewrite Hguard.
  rewrite !bind_run. cbn [lastBxgyActionTime bxgyEnabled bxgyOffers set_ticks].
  rewrite Hen, Hoff. cbn [negb]. unfold try_catch. rewrite bind_run. fold Q.
  by destruct (applyBxgyRewards_dispatch _ _ _ _ _ _ _ _ _).
Qed.

Lemma dispatch_automatic offer cart earned t dt s :
  applyBxgyRewards_dispatch net now offer cart "automatic" earned t dt s
  = if (earned =? 0) && (0 <? sumFreeQuantity cart)
    then (assign (set_lastBxgyActionTime t) ;;
          removeBxgyFreeItems net cart (sumFreeQuantity cart)) s
    else if 2000 <=? dt then applyAutomaticBxgyReward net now offer cart earned s
    else Returns tt s.
Proof.
  unfold applyBxgyRewards_dispatch.
  change (String.eqb "automatic" "cheapest_in_cart") with false.
  change (String.eqb "automatic" "selection") with false.
  change (String.eqb "automatic" "automatic") with true. cbv iota.
  by destruct ((earned =? 0) && (0 <? sumFreeQuantity cart)), (2000 <=? dt).
Qed.

End AutomaticFacts.

(** X10. In automatic mode, outside the cooldown and with fewer free
    units in the cart than earned, the pass stamps the action time and
    tops up the shortfall: it looks the product up and, once the product is
    read and has a variant, asks for earned - free units of its first
    variant, tagged as free. Whatever the network answers, the pass
    returns with both guard flags lowered and one refresh scheduled. *)
Theorem automatic_mode_tops_up_the_shortfall
    (net : nat -> Response) (now : nat -> Z) (JSON_parse : string -> option JS.json)
    (cart : Cart) (s : PopCart) (offer : BxgyOffer) (rest : list BxgyOffer) :
  isApplyingBxgy s = false ->
  bxgyEnabled s = true ->
  bxgyOffers s = offer :: rest ->
  rewardMode offer = "automatic" ->
  automaticProductHandle offer <> "" ->
  let earned :=
    rewardsEarnedFreeItems offer (calculateBxgyQualifyingQuantity JSON_parse cart offer) in
  let free := sumFreeQuantity cart in
  let handle := automaticProductHandle offer in
  let n0 := length (requests s) in
  free < earned ->
  2000 <= now (ticks s) - lastBxgyActionTime s ->
  exists s',
    applyBxgyRewards net now JSON_parse cart s = Returns tt s'
    /\ requests s' = requests s ++ automaticSent net n0 offer handle (earned - free)
    /\ (forall p variant vs,
          net n0 = Http true (BProduct p) -> variants p = variant :: vs ->
          requests s'
          = requests s ++ [GetProduct handle;
                           CartAdd variant (earned - free)
                                   (bxgyFreeProperties (offer_title offer))])
    /\ (response_ok (net n0) = false -> requests s' = requests s ++ [GetProduct handle])
    /\ timers s' = S (timers s)
    /\ lastBxgyActionTime s' = now (S (ticks s))
    /\ isApplyingBxgy s' = false
    /\ isInternalCartUpdate s' = false.
Proof.
  intros Hguard Hen Hoff Hmode Hhandle earned free handle n0 Hlt Hcool.
  rewrite (applyBxgyRewards_enabled net now JSON_parse cart s offer rest Hguard Hen Hoff).
  rewrite Hmode. cbn [JS.or_str]. fold earned. rewrite dispatch_automatic. fold free.
  assert (Hz : (earned =? 0) && (0 <? free) = false).
  { destruct (Z.eqb_spec earned 0), (Z.ltb_spec 0 free); try done. lia. }
  rewrite Hz. destruct (Z.leb_spec 2000 (now (ticks s) - lastBxgyActionTime s)); [|lia].
  unfold applyAutomaticBxgyReward. fold handle free.
  destruct (String.eqb_spec handle ""); [done|].
  destruct (Z.eqb_spec earned free); [lia|].
  rewrite bind_run. unfold dateNow. cbn [ticks set_ticks].
  rewrite bind_run. cbn [assign].
  destruct (Z.ltb_spec free earned); [|lia].
  rewrite addAutomaticBxgyItem_run.
  cbn [requests timers set_ticks set_lastBxgyActionTime].
  eexists. split; [reflexivity|].
  cbn [requests timers lastBxgyActionTime isApplyingBxgy isInternalCartUpdate
         set_lastBxgyState set_timers set_isApplyingBxgy set_isInternalCartUpdate
         set_requests set_lastBxgyActionTime set_ticks].
  fold n0. split; [done|]. split.
  { intros p variant vs Hnet Hv. unfold automaticSent. by rewrite Hnet, Hv. }
  split; [|done].
  intros Hfail. unfold automaticSent. destruct (net n0) as [|[] body]; done.
Qed.

(** Buy 3 get 1 on six paid units and no free one: two stickers are asked
    for. *)
Lemma automatic_top_up_example :
  exists s',
    applyBxgyRewards ex_net_sticker ex_now no_JSON ex_cart_abc ex_state_auto = Returns tt s'
    /\ requests s'
       = [GetProduct "sticker";
          CartAdd 55 2 (bxgyFreeProperties "Bundle")].
Proof.
  destruct (automatic_mode_tops_up_the_shortfall ex_net_sticker ex_now no_JSON
              ex_cart_abc ex_state_auto (ex_offer 3 1 "automatic" "all") [])
    as (s' & Hrun & _ & Hsent & _);
    [reflexivity | reflexivity | reflexivity | reflexivity | discriminate
    | vm_compute; reflexivity | vm_compute; discriminate |].
  exists s'. split; [exact Hrun|].
  exact (Hsent ex_sticker 55 [] eq_refl eq_refl).
Defined.



(** ** What a BXGY pass may send *)

#[global] Instance same_timers_refl : Reflexive same_timers.
Proof. by intros s. Qed.

#[global] Instance same_timers_trans : Transitive same_timers.
Proof. unfold same_timers. intros s1 s2 s3 H12 H23. congruence. Qed.

Lemma or_str_other r d m : JS.or_str r d = m -> m <> d -> r = m.
Proof. unfold JS.or_str. destruct r; [congruence|done]. Qed.

(** One step of a proof that a method schedules no refresh. *)
Ltac timers_step :=
  match goal with
  | |- keeps _ (mbind _ _) => apply keeps_bind; [try apply _; try apply _ | |intros ?]
  | |- keeps _ (try_catch _ _) => apply keeps_try_catch; [try apply _; try apply _ | |intros ?]
  | |- keeps _ (try_finally _ _) => apply keeps_try_finally; [try apply _; try apply _ | |]
  | |- keeps _ js_return => apply keeps_return; apply _
  | |- keeps _ (mret _) => apply keeps_ret; apply _
  | |- keeps _ (throw _) => apply keeps_throw; apply _
  | |- keeps _ (this _) => apply keeps_this; apply _
  | |- keeps _ (assign _) =>
      apply keeps_assign; intros ?; unfold same_timers; reflexivity
  | |- keeps _ (if ?b then _ else _) => destruct b
  | |- keeps _ (match ?x with _ => _ end) => destruct x
  end.

Section PassWrites.
Variable net : nat -> Response.
Variable now : nat -> Z.
Variable JSON_parse : string -> option JS.json.

Lemma removeBxgyFreeItems_same_timers cart qty :
  keeps same_timers (removeBxgyFreeItems net cart qty).
Proof.
  intros s. destruct (Z.ltb_spec 0 qty).
  - by rewrite removeBxgyFreeItems_run.
  - by rewrite removeBxgyFreeItems_nothing.
Qed.

Lemma hideSelectionPicker_same_timers : keeps same_timers hideSelectionPicker.
Proof. unfold hideSelectionPicker. timers_step. Qed.

Lemma showSelectionPicker_same_timers offer earned cart :
  keeps same_timers (showSelectionPicker offer earned cart).
Proof.
  unfold showSelectionPicker, hideSelectionPicker, preloadSelectionProducts.
  repeat timers_step.
Qed.

Lemma dispatch_selection_same_timers offer cart earned t dt :
  keeps same_timers (applyBxgyRewards_dispatch net now offer cart "selection" earned t dt).
Proof.
  unfold applyBxgyRewards_dispatch.
  change (String.eqb "selection" "cheapest_in_cart") with false.
  change (String.eqb "selection" "selection") with true. cbv iota.
  repeat first [ apply removeBxgyFreeItems_same_timers
               | apply showSelectionPicker_same_timers
               | apply hideSelectionPicker_same_timers
               | timers_step ].
Qed.

Lemma applyBxgyRewards_guarded cart s :
  isApplyingBxgy s = true -> applyBxgyRewards net now JSON_parse cart s = Returns tt s.
Proof.
  intros Hguard. unfold applyBxgyRewards, this, mbind, M_bind. by rewrite Hguard.
Qed.

Lemma applyBxgyRewards_off cart s :
  isApplyingBxgy s = false ->
  bxgyEnabled s = false \/ bxgyOffers s = [] ->
  applyBxgyRewards net now JSON_parse cart s
  = Returns tt (set_selectionPickerActive false (set_ticks (S (ticks s)) s)).
Proof.
  intros Hguard Hoff. unfold applyBxgyRewards, this, dateNow, mbind, M_bind.
  rewrite Hguard. cbn [lastBxgyActionTime bxgyEnabled bxgyOffers set_ticks].
  destruct (bxgyOffers s) as [|offer rest]; [done|].
  destruct Hoff as [->|?]; done.
Qed.

End PassWrites.

Ltac writes_mode offer rest :=
  intros _; split; [done|]; split; [done|]; exists offer, rest;
  split; [done|]; first [by left | by right].

(** X12. A BXGY pass returns whatever the network does. It sends a
    request only when BXGY is enabled, no other pass is applying, and the
    first offer is in selection or automatic mode: in cheapest-in-cart
    mode, and for a mode it does not know, it never writes to the cart. It
    schedules a refresh only when, in automatic mode, fewer free units are
    in the cart than earned. *)
Theorem bxgy_pass_writes_only_in_selection_and_automatic_mode
    (net : nat -> Response) (now : nat -> Z) (JSON_parse : string -> option JS.json)
    (cart : Cart) (s : PopCart) :
  exists s',
    applyBxgyRewards net now JSON_parse cart s = Returns tt s'
    /\ (requests s' <> requests s ->
        isApplyingBxgy s = false /\ bxgyEnabled s = true
        /\ exists offer rest,
             bxgyOffers s = offer :: rest
             /\ (rewardMode offer = "selection" \/ rewardMode offer = "automatic"))
    /\ (timers s' <> timers s ->
        exists offer rest,
          bxgyOffers s = offer :: rest
          /\ rewardMode offer = "automatic"
          /\ sumFreeQuantity cart
             < rewardsEarnedFreeItems offer
                 (calculateBxgyQualifyingQuantity JSON_parse cart offer)).
Proof.
  destruct (isApplyingBxgy s) eqn:Hguard.
  { exists s. rewrite applyBxgyRewards_guarded by done.
    split; [done|]. split; intros H; by destruct H. }
  destruct (bxgyOffers s) as [|offer rest] eqn:Hoff.
  { eexists. rewrite applyBxgyRewards_off by auto.
    split; [reflexivity|]. split; intros H; by destruct H. }
  destruct (bxgyEnabled s) eqn:Hen.
  2:{ eexists. rewrite applyBxgyRewards_off by auto.
      split; [reflexivity|]. split; intros H; by destruct H. }
  rewrite (applyBxgyRewards_enabled net now JSON_parse cart s offer rest Hguard Hen Hoff).
  set (Q := calculateBxgyQualifyingQuantity JSON_parse cart offer).
  set (mode := JS.or_str (rewardMode offer) "cheapest_in_cart").
  destruct (String.eqb_spec mode "selection") as [Hsel|Hsel].
  { apply or_str_other in Hsel; [|done]. subst mode. rewrite Hsel. cbn [JS.or_str].
    pose proof (dispatch_selection_same_timers net now offer cart
                  (rewardsEarnedFreeItems offer Q) (now (ticks s))
                  (now (ticks s) - lastBxgyActionTime s)
                  (set_ticks (S (ticks s)) s)) as Ht.
    destruct (safe_applyBxgyRewards_dispatch net now offer cart "selection"
                (rewardsEarnedFreeItems offer Q) (now (ticks s))
                (now (ticks s) - lastBxgyActionTime s)
                (set_ticks (S (ticks s)) s)) as ([] & s1 & Hs1).
    rewrite Hs1 in *. eexists. split; [reflexivity|]. split.
    - writes_mode offer rest.
    - intros H. destruct H. unfold same_timers in Ht. by cbn in *. }
  destruct (String.eqb_spec mode "automatic") as [Haut|Haut].
  { apply or_str_other in Haut; [|done]. subst mode. rewrite Haut. cbn [JS.or_str].
    rewrite dispatch_automatic.
    set (earned := rewardsEarnedFreeItems offer Q).
    set (s0 := set_ticks (S (ticks s)) s).
    destruct ((earned =? 0) && (0 <? sumFreeQuantity cart)).
    - rewrite bind_run. cbn [assign].
      pose proof (removeBxgyFreeItems_same_timers net cart (sumFreeQuantity cart)
                    (set_lastBxgyActionTime (now (ticks s)) s0)) as Ht.
      destruct (safe_removeBxgyFreeItems net cart (sumFreeQuantity cart)
                  (set_lastBxgyActionTime (now (ticks s)) s0)) as ([] & s1 & Hs1).
      rewrite Hs1 in *. eexists. split; [reflexivity|]. split; [writes_mode offer rest|].
      intros H. destruct H. unfold same_timers in Ht. by cbn in *.
    - destruct (2000 <=? now (ticks s) - lastBxgyActionTime s).
      2:{ eexists. split; [reflexivity|]. split; [writes_mode offer rest|].
          intros H. by destruct H. }
      unfold applyAutomaticBxgyReward.
      destruct (String.eqb (automaticProductHandle offer) "").
      { eexists. split; [reflexivity|]. split; [writes_mode offer rest|]. intros H. by destruct H. }
      destruct (earned =? sumFreeQuantity cart).
      { eexists. split; [reflexivity|]. split; [writes_mode offer rest|]. intros H. by destruct H. }
      rewrite bind_run. unfold dateNow. rewrite bind_run. cbn [assign].
      destruct (Z.ltb_spec (sumFreeQuantity cart) earned) as [Hlt|Hge].
      + rewrite addAutomaticBxgyItem_run. eexists. split; [reflexivity|].
        split; [writes_mode offer rest|]. intros _. by exists offer, rest.
      + set (s2 := set_lastBxgyActionTime _ _).
        pose proof (removeBxgyFreeItems_same_timers net cart
                      (sumFreeQuantity cart - earned) s2) as Ht.
        destruct (safe_removeBxgyFreeItems net cart (sumFreeQuantity cart - earned) s2)
          as ([] & s1 & Hs1).
        rewrite Hs1 in *. eexists. split; [reflexivity|]. split; [writes_mode offer rest|].
        intros H. destruct H. unfold same_timers in Ht. by cbn in *. }
  (* cheapest in cart, or a mode that the switch does not know *)
  unfold applyBxgyRewards_dispatch, hideSelectionPicker.
  destruct (String.eqb mode "cheapest_in_cart").
  - eexists. split; [reflexivity|]. split; intros H; by destruct H.
  - destruct (String.eqb_spec mode "selection"); [done|].
    destruct (String.eqb_spec mode "automatic"); [done|].
    eexists. split; [reflexivity|]. split; intros H; by destruct H.
Qed.

(** ** A free gift that never shows in the cart *)



Section GiftLoop.
Variable net : nat -> Response.
Variable now : nat -> Z.
Variable JSON_parse : string -> option JS.json.
Variable parseFloat : string -> option Q.
Variable tier : RewardTier.
Variable handle : string.
Variable variant : Z.
Variable n0 : nat.

Hypothesis tier_gift : rewardType tier = "free_gift".
Hypothesis tier_handle : rewardValue tier = Some handle.
Hypothesis handle_given : handle <> "".

(** Every third request from [n0] on is answered with a cart that reaches
    the tier and holds no gift of the variant; the request after it with
    the gift product; and the request after that, which adds the gift, is
    not rejected. *)
Hypothesis net_cart :
  forall j, exists ok c,
    net (n0 + 3 * j)%nat = Http ok (BCart c)
    /\ threshold tier <= total_price c
    /\ List.find (fun item => (variant_id item =? variant) && is_free_gift item)
                 (items c) = None.
Hypothesis net_product :
  forall j, exists p vs,
    net (n0 + 3 * j + 1)%nat = Http true (BProduct p) /\ variants p = variant :: vs.
Hypothesis net_add : forall j, net (n0 + 3 * j + 2)%nat <> Rejected.



End GiftLoop.




(** ** A refresh that cannot read the cart *)

Lemma reloadDrawerSection_run net s :
  reloadDrawerSection net s = Returns tt (set_requests (requests s ++ [GetSection]) s).
Proof.
  unfold reloadDrawerSection, try_catch. rewrite bind_run. unfold fetch.
  destruct (net (length (requests s))) as [|ok body]; [done|].
  cbn [is_cart_write andb]. by destruct (isInternalCartUpdate _).
Qed.

Lemma refreshCart_never_throws net now JSON_parse parseFloat fuel s e s' :
  refreshCart net now JSON_parse parseFloat fuel s <> Throws e s'.
Proof.
  destruct fuel as [|fuel]; [done|].
  cbn [refreshCart]. unfold try_catch.
  match goal with |- match ?m with _ => _ end <> _ => destruct m as [|a s1|e1 s1] end;
    [done|done|].
  by rewrite reloadDrawerSection_run.
Qed.

(** X14. A refresh never throws, and an answer that holds no cart ends it
    with a request for the drawer section, no pass being run. When the
    request is rejected or the body is not JSON, the controller keeps the
    cart it had. When the body is JSON that holds no cart, such as an error
    object, the refresh has stored it before the rendering throws: the cart
    that the controller had is lost. *)
Theorem refresh_falls_back_to_the_section
    (net : nat -> Response) (now : nat -> Z) (JSON_parse : string -> option JS.json)
    (parseFloat : string -> option Q) (fuel : nat) (s : PopCart) :
  let n0 := length (requests s) in
  let asked := set_requests (requests s ++ [GetCart; GetSection]) s in
  (forall e s', refreshCart net now JSON_parse parseFloat fuel s <> Throws e s')
  /\ (net n0 = Rejected \/ (exists ok, net n0 = Http ok BText) ->
      refreshCart net now JSON_parse parseFloat (S fuel) s = Returns tt asked)
  /\ ((exists ok body, net n0 = Http ok body
                       /\ body <> BText /\ forall c, body <> BCart c) ->
      refreshCart net now JSON_parse parseFloat (S fuel) s
      = Returns tt (set_this_cart None asked)).
Proof.
  intros n0 asked. split; [|split].
  - intros e s'. apply refreshCart_never_throws.
  - intros Hno. cbn [refreshCart]. unfold try_catch. rewrite bind_run. unfold fetch.
    fold n0. destruct Hno as [Hnet|[ok Hnet]]; rewrite Hnet.
    + rewrite reloadDrawerSection_run. cbn [requests set_requests].
      by rewrite <- app_assoc.
    + cbn [is_cart_write andb].
      assert (Hs : (if isInternalCartUpdate (set_requests (requests s ++ [GetCart]) s)
                    then set_requests (requests s ++ [GetCart]) s
                    else set_requests (requests s ++ [GetCart]) s)
                   = set_requests (requests s ++ [GetCart]) s)
        by by destruct (isInternalCartUpdate _).
      rewrite Hs. cbn [json_cart]. rewrite bind_run. cbn [throw].
      rewrite reloadDrawerSection_run. cbn [requests set_requests].
      by rewrite <- app_assoc.
  - intros (ok & body & Hnet & Htext & Hcart).
    cbn [refreshCart]. unfold try_catch. rewrite bind_run. unfold fetch.
    fold n0. rewrite Hnet. cbn [is_cart_write andb].
    assert (Hs : (if isInternalCartUpdate (set_requests (requests s ++ [GetCart]) s)
                  then set_requests (requests s ++ [GetCart]) s
                  else set_requests (requests s ++ [GetCart]) s)
                 = set_requests (requests s ++ [GetCart]) s)
      by by destruct (isInternalCartUpdate _).
    rewrite Hs.
    destruct body as [c|p| |]; [by destruct (Hcart c)| | |done];
      cbn [json_cart]; repeat (rewrite bind_run; cbn [mret M_ret assign throw]);
      rewrite reloadDrawerSection_run; cbn [requests set_requests set_this_cart];
      unfold asked; by rewrite <- app_assoc.
Qed.

(** The drawer holds a cart, and the refresh is answered with an error
    object: the section is asked for, and the cart is gone. *)
Lemma refresh_fallback_example :
  refreshCart ex_net_not_found ex_now no_JSON ex_parseFloat 3
    (set_this_cart (Some ex_cart0) ex_state0)
  = Returns tt (set_this_cart None (set_requests [GetCart; GetSection] ex_state0)).
Proof.
  apply (refresh_falls_back_to_the_section ex_net_not_found ex_now no_JSON
           ex_parseFloat 2 (set_this_cart (Some ex_cart0) ex_state0)).
  exists false, BOther. repeat split; discriminate.
Defined.

(** ** Tiers that only set attributes *)

Section AttributeOnly.
Variable net : nat -> Response.
Variable parseFloat : string -> option Q.
Variable refreshCart' : M unit.
Variable cart : Cart.

Lemma updateCartAttributes_run unlocked s :
  updateCartAttributes net parseFloat unlocked s
  = Returns tt
      (set_isInternalCartUpdate false
         (set_requests (requests s ++ [CartUpdate (cartAttributes parseFloat unlocked)]) s)).
Proof.
  unfold updateCartAttributes, try_finally, try_catch.
  rewrite !bind_run. cbn [assign]. rewrite bind_run. unfold fetch.
  cbn [requests set_isInternalCartUpdate isInternalCartUpdate set_requests].
  by destruct (net (length (requests s))).
Qed.

Lemma quiet_refl s : quiet s s.
Proof. by repeat split. Qed.

Lemma quiet_trans s1 s2 s3 : quiet s1 s2 -> quiet s2 s3 -> quiet s1 s3.
Proof.
  unfold quiet. intros (? & ? & ? & ? & ? & ?) (? & ? & ? & ? & ? & ?).
  repeat split; congruence.
Qed.

Lemma applyRewards_unlocked_quiet unlocked s :
  Forall (fun t => rewardType t <> "free_gift") unlocked ->
  exists s',
    applyRewards_unlocked net refreshCart' cart unlocked s = Returns tt s'
    /\ quiet s s'
    /\ (length (appliedRewards s') <= length (appliedRewards s) + length unlocked)%nat.
Proof.
  revert s. induction unlocked as [|t unlocked IH]; intros s Hall.
  { exists s. split; [done|]. split; [apply quiet_refl|lia]. }
  apply Forall_cons in Hall as [Ht Hall].
  cbn [applyRewards_unlocked]. rewrite bind_run. cbn [this]. rewrite bind_run.
  destruct (JS.set_has (rewardKey t) (appliedRewards s)) eqn:Hhas.
  - cbn [js_return mret M_ret]. destruct (IH s Hall) as (s' & Hrun & Hq & Hlen).
    exists s'. split; [done|]. split; [done|]. simpl. lia.
  - rewrite bind_run. unfold applyReward.
    destruct (String.eqb_spec (rewardType t) "free_gift"); [done|].
    cbn [js_return mret M_ret assign].
    destruct (IH (set_appliedRewards (JS.set_add (rewardKey t) (appliedRewards s)) s) Hall)
      as (s' & Hrun & Hq & Hlen).
    exists s'. split; [done|]. split.
    + eapply quiet_trans; [|exact Hq]. by repeat split.
    + cbn [appliedRewards set_appliedRewards] in Hlen.
      rewrite set_add_new, length_app in Hlen by done. simpl in *. lia.
Qed.

Lemma findTierOfKey_elem tiers k t : findTierOfKey tiers k = Some t -> t ∈ tiers.
Proof. unfold findTierOfKey. intros H. by apply find_some in H as [?%list_elem_of_In _]. Qed.

Lemma applyRewards_applied_quiet fuel tiers keys index s :
  Forall (fun t => rewardType t <> "free_gift") tiers ->
  (length (appliedRewards s) - index < fuel)%nat ->
  exists s',
    applyRewards_applied net fuel refreshCart' cart tiers keys index s = Returns tt s'
    /\ quiet s s'.
Proof.
  intros Hall. revert index s. induction fuel as [|fuel IH]; intros index s Hfuel; [lia|].
  cbn [applyRewards_applied]. rewrite bind_run. cbn [this].
  destruct (appliedRewards s !! index) as [[k|]|] eqn:Hi.
  - pose proof (lookup_lt_Some _ _ _ Hi) as Hlt. rewrite bind_run.
    destruct (bool_decide (k ∈ keys)).
    + cbn [js_return mret M_ret]. apply IH. lia.
    + rewrite bind_run.
      assert (Hrm : match findTierOfKey tiers k with
                    | Some tier => removeReward net refreshCart' tier cart
                    | None => js_return
                    end s = Returns tt s).
      { destruct (findTierOfKey tiers k) as [t|] eqn:Hfind; [|done].
        apply findTierOfKey_elem in Hfind. rewrite Forall_forall in Hall.
        specialize (Hall t Hfind). unfold removeReward.
        by destruct (String.eqb_spec (rewardType t) "free_gift"). }
      rewrite Hrm. cbn [assign].
      destruct (IH (S index)
                  (set_appliedRewards (JS.set_delete k (appliedRewards s)) s))
        as (s' & Hrun & Hq).
      { cbn [appliedRewards set_appliedRewards]. unfold JS.set_delete.
        rewrite length_map. lia. }
      exists s'. split; [done|]. eapply quiet_trans; [|exact Hq]. by repeat split.
  - pose proof (lookup_lt_Some _ _ _ Hi) as Hlt. apply IH. lia.
  - exists s. split; [done|apply quiet_refl].
Qed.

End AttributeOnly.

(** X15. Tiers other than free gifts never touch the lines of the cart:
    when no tier of the controller is a free gift, a reward-tier pass with
    fuel for its walk over the applied keys returns, whatever the network
    does, having sent nothing, or only the one attribute update that
    follows a change of the unlocked count or of free shipping. It starts
    no refresh and schedules none. *)
Theorem attribute_only_tiers_send_one_update_at_most
    (net : nat -> Response) (parseFloat : string -> option Q) (fuel : nat)
    (refreshCart' : M unit) (cart : Cart) (s : PopCart) :
  Forall (fun t => rewardType t <> "free_gift") (rewardTiers s) ->
  (length (appliedRewards s) + length (rewardTiers s) < fuel)%nat ->
  let unlocked := unlockedTiers (sort_by threshold (rewardTiers s)) cart in
  let changed :=
    negb (Z.of_nat (length unlocked) =? fst (lastRewardsState s))
    || negb (Bool.eqb (hasFreeShipping unlocked) (snd (lastRewardsState s))) in
  exists s',
    applyRewards net parseFloat fuel refreshCart' cart s = Returns tt s'
    /\ timers s' = timers s
    /\ this_cart s' = this_cart s
    /\ (rewardTiers s = [] -> s' = s)
    /\ (rewardTiers s <> [] ->
        requests s'
        = requests s ++ (if changed
                         then [CartUpdate (cartAttributes parseFloat unlocked)]
                         else [])).
Proof.
  intros Hall Hfuel.
  destruct (rewardTiers s) as [|t0 ts] eqn:Hts.
  { intros unlocked changed. exists s.
    unfold applyRewards. rewrite bind_run. cbn [this]. rewrite Hts. by repeat split. }
  rewrite <- Hts in *. intros unlocked changed.
  unfold applyRewards. rewrite bind_run. cbn [this].
  assert (Hstep : forall A B : M unit,
             match rewardTiers s with [] => A | _ :: _ => B end = B)
    by (intros; by rewrite Hts).
  rewrite Hstep. clear Hstep. rewrite bind_run. cbn [assign].
  set (tiers := sort_by threshold (rewardTiers s)) in *.
  set (s0 := set_rewardTiers tiers s).
  assert (Hperm : tiers ≡ₚ rewardTiers s) by apply sort_by_Permutation.
  assert (Hall' : Forall (fun t => rewardType t <> "free_gift") tiers) by by rewrite Hperm.
  assert (Hallu : Forall (fun t => rewardType t <> "free_gift") unlocked).
  { rewrite Forall_forall in Hall' |- *. intros t [Ht _]%elem_of_List_filter.
    by apply Hall'. }
  assert (Hlenu : (length unlocked <= length (rewardTiers s))%nat).
  { rewrite <- (Permutation_length Hperm). apply List.filter_length_le. }
  rewrite bind_run.
  destruct (applyRewards_unlocked_quiet net refreshCart' cart unlocked s0 Hallu)
    as (s1 & Hrun1 & Hq1 & Hlen1).
  fold unlocked. rewrite Hrun1, bind_run.
  destruct (applyRewards_applied_quiet net refreshCart' cart fuel tiers
              (List.map rewardKey unlocked) 0 s1 Hall')
    as (s2 & Hrun2 & Hq2).
  { unfold s0 in Hlen1. cbn [appliedRewards set_rewardTiers] in Hlen1. lia. }
  rewrite Hrun2, bind_run. cbn [this].
  pose proof (quiet_trans _ _ _ Hq1 Hq2) as (Hr & Htm & Hc & Htr & Hl & Hflag).
  unfold s0 in Hr, Htm, Hc, Htr, Hl, Hflag.
  cbn [requests timers this_cart rewardTiers lastRewardsState set_rewardTiers] in *.
  rewrite Hl. fold changed. destruct changed.
  - rewrite bind_run, updateCartAttributes_run. cbn [assign].
    eexists. split; [reflexivity|].
    cbn [requests timers this_cart set_lastRewardsState set_isInternalCartUpdate
           set_requests].
    rewrite Hr. split; [done|]. split; [done|]. split; [|done].
    intros Hnil. by rewrite Hnil in Hts.
  - exists s2. split; [done|]. rewrite Hr, app_nil_r.
    split; [done|]. split; [done|]. split; [|done].
    intros Hnil. by rewrite Hnil in Hts.
Qed.

(** Both tiers are reached: one attribute update goes out, and the
    refresh, which would not return here, is never started. *)
Lemma attribute_only_example :
  exists s',
    applyRewards ex_net_ok ex_parseFloat 10 diverge ex_cart0 ex_state_attr = Returns tt s'
    /\ (rewardTiers ex_state_attr <> [] ->
        requests s'
        = [CartUpdate [ ("_popcart_rewards_count", Some "2");
                        ("_popcart_free_shipping", Some "true");
                        ("_popcart_discount_type", Some "discount_percent");
                        ("_popcart_discount_value", Some "10") ]]).
Proof.
  destruct (attribute_only_tiers_send_one_update_at_most ex_net_ok ex_parseFloat 10
              diverge ex_cart0 ex_state_attr)
    as (s' & Hrun & _ & _ & _ & Hreq).
  - repeat constructor; discriminate.
  - simpl. lia.
  - exists s'. split; [exact Hrun|exact Hreq].
Defined.

(** ** The quantity field *)

(** X16. A change of a quantity field asks for the quantity that the text
    holds when this is a positive integer, and otherwise, for a text that
    is not a number as for zero or a negative number, for quantity 0, which
    removes the line. When the request is rejected or answered with an
    error status, nothing else happens: the drawer is not refreshed. When
    it succeeds, the drawer is refreshed at once, and the interceptor
    schedules a second refresh. The decrease button does what the field
    does with the number lowered by one. *)
Theorem quantity_field_asks_for_the_number_or_removes_the_line
    (net : nat -> Response) (now : nat -> Z) (JSON_parse : string -> option JS.json)
    (parseFloat : string -> option Q) (fuel : nat) (key value : string) (s : PopCart) :
  isInternalCartUpdate s = false ->
  let qty :=
    match JS.parseInt value with
    | Some q => if 0 <? q then q else 0
    | None => 0
    end in
  let sent := set_requests (requests s ++ [CartChange key qty]) s in
  onQuantityChange net now JSON_parse parseFloat fuel key value s
  = match net (length (requests s)) with
    | Http true _ =>
        refreshCart net now JSON_parse parseFloat fuel (set_timers (S (timers s)) sent)
    | _ => Returns tt sent
    end
  /\ onDecrease net now JSON_parse parseFloat fuel key value s
     = onQuantityChange net now JSON_parse parseFloat fuel key
         (match JS.parseInt value with
          | Some q => pretty (Z.max 0 (q - 1))
          | None => value
          end) s.
Proof.
  intros Hflag qty sent. split.
  2:{ unfold onDecrease, onQuantityChange, removeItem.
      destruct (JS.parseInt value) as [q|] eqn:Hv; [|by rewrite Hv].
      rewrite parseInt_pretty by lia. cbn zeta.
      destruct (Z.ltb_spec 0 (q - 1)), (Z.ltb_spec 0 (Z.max 0 (q - 1))); try lia;
        [|done]. f_equal. lia. }
  assert (Hq : onQuantityChange net now JSON_parse parseFloat fuel key value s
               = updateQuantity net now JSON_parse parseFloat fuel key qty s).
  { unfold onQuantityChange, removeItem, qty.
    destruct (JS.parseInt value) as [q|]; [|done]. by destruct (0 <? q). }
  rewrite Hq. unfold updateQuantity, setLoading, try_finally, try_catch.
  rewrite !bind_run. cbn [js_return mret M_ret]. rewrite bind_run. unfold fetch.
  destruct (net (length (requests s))) as [|ok body]; [done|].
  cbn [isInternalCartUpdate set_requests is_cart_write andb]. rewrite Hflag.
  destruct ok; cbn [response_ok]; [|done].
  fold sent. change (timers sent) with (timers s).
  pose proof (refreshCart_never_throws net now JSON_parse parseFloat fuel
                (set_timers (S (timers s)) sent)) as Hnt.
  destruct (refreshCart net now JSON_parse parseFloat fuel _) as [|[] s1|e s1];
    [done|done|]. by destruct (Hnt e s1).
Qed.

(** The field of line A holds a text that is no number, and the request
    is answered with an error status: the line is asked to go, and the
    drawer is not refreshed. *)
Lemma quantity_field_example :
  onQuantityChange ex_net_not_found ex_now no_JSON ex_parseFloat 3 "A" "abc" ex_state0
  = Returns tt (set_requests [CartChange "A" 0] ex_state0).
Proof.
  apply (quantity_field_asks_for_the_number_or_removes_the_line ex_net_not_found ex_now
           no_JSON ex_parseFloat 3 "A" "abc" ex_state0).
  reflexivity.
Defined.

(** ** The settings endpoints *)

Lemma field_rest_without keys o k :
  Server.field k (Server.rest_without keys o)
  = if existsb (String.eqb k) keys then None else Server.field k o.
Proof.
  unfold Server.field, Server.rest_without.
  induction o as [|[k' v] o IH]; cbn [List.filter List.find fst snd].
  - by destruct (existsb _ keys).
  - destruct (String.eqb_spec k' k) as [->|Hne].
    + destruct (existsb (String.eqb k) keys) eqn:Hk; cbn [negb].
      * rewrite IH. done.
      * cbn [List.find fst]. by rewrite String.eqb_refl.
    + destruct (existsb (String.eqb k') keys); cbn [negb]; [done|].
      cbn [List.find fst]. by destruct (String.eqb_spec k' k).
Qed.

Lemma field_app_None k o1 o2 :
  Server.field k o1 = None -> Server.field k (o1 ++ o2) = Server.field k o2.
Proof.
  unfold Server.field. induction o1 as [|[k' v] o1 IH]; [done|].
  cbn [app List.find fst]. by destruct (String.eqb k' k).
Qed.

(** X17. For a shop that has a row, both endpoints answer 200 with the
    row's settings and its lists of tiers, upsells, add-ons and offers, cut
    down as follows: at the top of the settings the properties [id],
    [shop], [createdAt] and [updatedAt] are gone and every other property
    is as in the row; in every element of the four lists the properties
    [id], [cartSettingsId], [createdAt] and [updatedAt] are gone and every
    other property is as in the database. *)
Theorem reply_hides_the_internal_columns
    (findUnique : string -> option (option Server.CartSettings))
    (shop : string) (settings : Server.CartSettings) :
  shop <> "" ->
  findUnique shop = Some (Some settings) ->
  Forall
    (fun loader : (string -> option (option Server.CartSettings)) -> option string
                  -> Server.Reply =>
       let reply := loader findUnique (Some shop) in
       Server.status reply = 200
       /\ exists publicSettings rewardTiers upsells addOns bxgyOffers,
            Server.reply_body reply
            = JS.JObj [ ("settings", JS.JObj publicSettings);
                        ("rewardTiers", JS.JArr (List.map JS.JObj rewardTiers));
                        ("upsells", JS.JArr (List.map JS.JObj upsells));
                        ("addOns", JS.JArr (List.map JS.JObj addOns));
                        ("bxgyOffers", JS.JArr (List.map JS.JObj bxgyOffers)) ]
            /\ (forall k,
                  Server.field k publicSettings
                  = if existsb (String.eqb k) ["id"; "shop"; "createdAt"; "updatedAt"]
                    then None
                    else Server.field k (Server.settings_object settings))
            /\ Forall2
                 (fun row out =>
                    forall k,
                      Server.field k out
                      = if existsb (String.eqb k)
                                   ["id"; "cartSettingsId"; "createdAt"; "updatedAt"]
                        then None
                        else Server.field k row)
                 (Server.row_rewardTiers settings ++ Server.row_upsells settings
                  ++ Server.row_addOns settings ++ Server.row_bxgyOffers settings)
                 (rewardTiers ++ upsells ++ addOns ++ bxgyOffers)
            /\ length rewardTiers = length (Server.row_rewardTiers settings)
            /\ length upsells = length (Server.row_upsells settings)
            /\ length addOns = length (Server.row_addOns settings))
    [Server.Proxy.loader; Server.Settings.loader].
Proof.
  intros Hshop Hfind.
  assert (Hrows : forall rows,
             Forall2
               (fun row out =>
                  forall k,
                    Server.field k out
                    = if existsb (String.eqb k)
                                 ["id"; "cartSettingsId"; "createdAt"; "updatedAt"]
                      then None
                      else Server.field k row)
               rows
               (List.map (Server.rest_without
                            ["id"; "cartSettingsId"; "createdAt"; "updatedAt"]) rows)).
  { induction rows as [|row rows IH]; constructor; [|done].
    intros k. apply field_rest_without. }
  assert (Hbody : forall headers defaults,
             let reply := Server.loader_body headers defaults findUnique (Some shop) in
             Server.status reply = 200
             /\ Server.reply_body reply
                = JS.JObj
                    [ ("settings",
                       JS.JObj (Server.rest_without ["id"; "shop"; "createdAt"; "updatedAt"]
                                  (Server.settings_object settings)));
                      ("rewardTiers",
                       JS.JArr (Server.public_row <$> Server.row_rewardTiers settings));
                      ("upsells",
                       JS.JArr (Server.public_row <$> Server.row_upsells settings));
                      ("addOns",
                       JS.JArr (Server.public_row <$> Server.row_addOns settings));
                      ("bxgyOffers",
                       JS.JArr (Server.public_row <$> Server.row_bxgyOffers settings)) ]).
  { intros headers defaults. unfold Server.loader_body.
    destruct shop as [|a shop]; [done|]. by rewrite Hfind. }
  assert (Hmap : forall rows,
             Server.public_row <$> rows
             = List.map JS.JObj
                 (List.map (Server.rest_without
                              ["id"; "cartSettingsId"; "createdAt"; "updatedAt"]) rows)).
  { intros rows. induction rows as [|row rows IH]; [done|].
    cbn [fmap list_fmap List.map]. f_equal. exact IH. }
  repeat constructor.
  all: try (destruct (Hbody Server.Proxy.headers Server.Proxy.getDefaultSettings)
              as [Hst _]; exact Hst).
  all: try (destruct (Hbody Server.Settings.headers Server.Settings.getDefaultSettings)
              as [Hst _]; exact Hst).
  all: eexists _, _, _, _, _; split;
    [ first [ destruct (Hbody Server.Proxy.headers Server.Proxy.getDefaultSettings)
                as [_ Hb]; unfold Server.Proxy.loader; rewrite Hb
            | destruct (Hbody Server.Settings.headers Server.Settings.getDefaultSettings)
                as [_ Hb]; unfold Server.Settings.loader; rewrite Hb ];
      rewrite !Hmap; reflexivity
    | split; [intros k; apply field_rest_without|];
      split; [repeat apply Forall2_app; apply Hrows|];
      by rewrite !length_map ].
Qed.

(** The shop of the example through the proxy. *)
Lemma reply_example :
  Server.status (Server.Proxy.loader ex_db (Some "toys.example")) = 200.
Proof.
  destruct (proj1 (Forall_cons _ _ _)
              (reply_hides_the_internal_columns ex_db "toys.example" ex_settings_row
                 ltac:(discriminate) eq_refl))
    as [[Hst _] _].
  exact Hst.
Defined.

(** X18. The rows of the four lists leave the server a second time, and
    whole: the settings of the reply are the row without four of its
    properties, and the lists that the query includes are properties of the
    row. So, no column bearing the name of a list, the settings of the
    reply hold each list as the database has it, the [id] and the
    [cartSettingsId] of every element included, next to the list that the
    reply gives at its top without them. *)
Theorem reply_settings_still_hold_the_whole_rows
    (findUnique : string -> option (option Server.CartSettings))
    (shop : string) (settings : Server.CartSettings) :
  shop <> "" ->
  findUnique shop = Some (Some settings) ->
  (forall name, name ∈ ["rewardTiers"; "upsells"; "addOns"; "bxgyOffers"] ->
                Server.field name (Server.columns settings) = None) ->
  Forall
    (fun loader : (string -> option (option Server.CartSettings)) -> option string
                  -> Server.Reply =>
       let reply := loader findUnique (Some shop) in
       exists publicSettings,
         Server.field "settings" (body_fields reply) = Some (JS.JObj publicSettings)
         /\ Server.field "rewardTiers" publicSettings
            = Some (JS.JArr (List.map JS.JObj (Server.row_rewardTiers settings)))
         /\ Server.field "upsells" publicSettings
            = Some (JS.JArr (List.map JS.JObj (Server.row_upsells settings)))
         /\ Server.field "addOns" publicSettings
            = Some (JS.JArr (List.map JS.JObj (Server.row_addOns settings)))
         /\ Server.field "bxgyOffers" publicSettings
            = Some (JS.JArr (List.map JS.JObj (Server.row_bxgyOffers settings)))
         /\ Server.field "rewardTiers" (body_fields reply)
            = Some (JS.JArr (List.map Server.public_row (Server.row_rewardTiers settings))))
    [Server.Proxy.loader; Server.Settings.loader].
Proof.
  intros Hshop Hfind Hcols.
  assert (Hrel : forall name,
             name ∈ ["rewardTiers"; "upsells"; "addOns"; "bxgyOffers"] ->
             Server.field name
               (Server.rest_without ["id"; "shop"; "createdAt"; "updatedAt"]
                  (Server.settings_object settings))
             = Server.field name
                 [ ("rewardTiers", JS.JArr (JS.JObj <$> Server.row_rewardTiers settings));
                   ("upsells", JS.JArr (JS.JObj <$> Server.row_upsells settings));
                   ("addOns", JS.JArr (JS.JObj <$> Server.row_addOns settings));
                   ("bxgyOffers", JS.JArr (JS.JObj <$> Server.row_bxgyOffers settings)) ]).
  { intros name Hname. rewrite field_rest_without.
    unfold Server.settings_object. rewrite field_app_None by by apply Hcols.
    repeat (apply elem_of_cons in Hname as [->|Hname]; [reflexivity|]).
    by apply elem_of_nil in Hname. }
  assert (Hin : forall name, name ∈ ["rewardTiers"; "upsells"; "addOns"; "bxgyOffers"] ->
                             name ∈ ["rewardTiers"; "upsells"; "addOns"; "bxgyOffers"])
    by done.
  assert (Hbody : forall headers defaults,
             body_fields (Server.loader_body headers defaults findUnique (Some shop))
             = [ ("settings",
                  JS.JObj (Server.rest_without ["id"; "shop"; "createdAt"; "updatedAt"]
                             (Server.settings_object settings)));
                 ("rewardTiers",
                  JS.JArr (Server.public_row <$> Server.row_rewardTiers settings));
                 ("upsells", JS.JArr (Server.public_row <$> Server.row_upsells settings));
                 ("addOns", JS.JArr (Server.public_row <$> Server.row_addOns settings));
                 ("bxgyOffers",
                  JS.JArr (Server.public_row <$> Server.row_bxgyOffers settings)) ]).
  { intros headers defaults. unfold body_fields, Server.loader_body.
    destruct shop as [|a shop]; [done|]. by rewrite Hfind. }
  repeat constructor.
  all: eexists; unfold Server.Proxy.loader, Server.Settings.loader; rewrite Hbody;
    split; [reflexivity|];
    rewrite !Hrel by (repeat first [apply list_elem_of_here | apply list_elem_of_further]);
    by repeat split.
Qed.

(** The id of the tier of the example is in the reply of the proxy. *)
Lemma reply_whole_rows_example :
  exists publicSettings tier,
    Server.field "settings" (body_fields (Server.Proxy.loader ex_db (Some "toys.example")))
    = Some (JS.JObj publicSettings)
    /\ Server.field "rewardTiers" publicSettings = Some (JS.JArr [JS.JObj tier])
    /\ Server.field "id" tier = Some (JS.JStr "tier_1").
Proof.
  destruct (proj1 (Forall_cons _ _ _)
              (reply_settings_still_hold_the_whole_rows ex_db "toys.example"
                 ex_settings_row ltac:(discriminate) eq_refl
                 ltac:(intros name Hname;
                       repeat (apply elem_of_cons in Hname as [->|Hname]; [reflexivity|]);
                       by apply elem_of_nil in Hname)))
    as [(publicSettings & Hs & Ht & _) _].
  exists publicSettings, [ ("id", JS.JStr "tier_1"); ("cartSettingsId", JS.JStr "cs_1");
                           ("threshold", JS.JNum 1000); ("rewardType", JS.JStr "free_gift") ].
  split; [exact Hs|]. split; [exact Ht|reflexivity].
Defined.

(** ** Selection mode with slots to fill *)

(** X19. In selection mode the pass adds nothing itself. With a positive
    entitlement that the free units in the cart do not exceed, it records
    the open slots, entitlement minus free units, and sends no cart
    request: with no slot open it hides the picker; with slots open it
    shows the picker once the products are cached, waits while they are
    loading, and otherwise starts loading them, one lookup per handle. *)
Theorem selection_mode_offers_the_open_slots
    (net : nat -> Response) (now : nat -> Z) (JSON_parse : string -> option JS.json)
    (cart : Cart) (s : PopCart) (offer : BxgyOffer) (rest : list BxgyOffer) :
  isApplyingBxgy s = false ->
  bxgyEnabled s = true ->
  bxgyOffers s = offer :: rest ->
  rewardMode offer = "selection" ->
  let earned :=
    rewardsEarnedFreeItems offer (calculateBxgyQualifyingQuantity JSON_parse cart offer) in
  let free := sumFreeQuantity cart in
  0 < earned ->
  free <= earned ->
  exists s',
    applyBxgyRewards net now JSON_parse cart s = Returns tt s'
    /\ remainingFreeSlots s' = earned - free
    /\ timers s' = timers s
    /\ (free = earned -> selectionPickerActive s' = false /\ requests s' = requests s)
    /\ (free < earned ->
        if selectionProductsLoading s
        then selectionPickerActive s' = selectionPickerActive s
             /\ requests s' = requests s
        else if selectionProductsCache s
        then selectionPickerActive s' = true /\ requests s' = requests s
        else selectionPickerActive s' = selectionPickerActive s
             /\ requests s' = requests s ++ List.map GetProduct (productHandles offer)
             /\ (selectionProductsLoading s' = true <-> productHandles offer <> [])).
Proof.
  intros Hguard Hen Hoff Hmode earned free Hpos Hle.
  rewrite (applyBxgyRewards_enabled net now JSON_parse cart s offer rest Hguard Hen Hoff).
  rewrite Hmode. cbn [JS.or_str]. fold earned.
  unfold applyBxgyRewards_dispatch.
  change (String.eqb "selection" "cheapest_in_cart") with false.
  change (String.eqb "selection" "selection") with true. cbv iota. fold free.
  destruct (Z.eqb_spec earned 0); [lia|]. cbn [andb].
  destruct (Z.ltb_spec earned free); [lia|].
  destruct (Z.ltb_spec 0 earned); [|lia].
  unfold showSelectionPicker. fold free. rewrite bind_run. cbn [assign].
  replace (Z.max 0 (earned - free)) with (earned - free) by lia.
  destruct (Z.eqb_spec (earned - free) 0) as [Hz|Hz].
  { eexists. split; [reflexivity|].
    cbn [remainingFreeSlots timers selectionPickerActive requests set_lastBxgyState
           set_selectionPickerActive set_remainingFreeSlots set_ticks].
    split; [done|]. split; [done|]. split; [done|]. intros; lia. }
  repeat (rewrite bind_run;
          cbn [this selectionProductsCache selectionProductsLoading
                 set_remainingFreeSlots set_ticks]).
  destruct (selectionProductsLoading s) eqn:Hload.
  { rewrite andb_false_r.
    eexists. split; [reflexivity|].
    cbn [remainingFreeSlots timers selectionPickerActive requests set_lastBxgyState
           set_remainingFreeSlots set_ticks].
    split; [done|]. split; [done|]. split; [intros; lia|]. done. }
  destruct (selectionProductsCache s) eqn:Hcache; cbn [negb andb].
  { eexists. split; [reflexivity|].
    cbn [remainingFreeSlots timers selectionPickerActive requests set_lastBxgyState
           set_selectionPickerActive set_remainingFreeSlots set_ticks].
    split; [done|]. split; [done|]. split; [intros; lia|]. done. }
  unfold preloadSelectionProducts.
  repeat (rewrite bind_run;
          cbn [this bxgyEnabled bxgyOffers set_remainingFreeSlots set_ticks]).
  rewrite Hen, Hoff, Hmode.
  change (String.eqb "selection" "selection") with true. cbn [negb].
  destruct (productHandles offer) as [|h hs] eqn:Hh.
  { eexists. split; [reflexivity|].
    cbn [remainingFreeSlots timers selectionPickerActive requests selectionProductsLoading
           set_lastBxgyState set_remainingFreeSlots set_ticks].
    rewrite app_nil_r, Hload.
    split; [done|]. split; [done|]. split; [intros; lia|]. intros _.
    split; [done|]. split; [done|]. split; [done|]. intros Hne. by destruct Hne. }
  repeat (rewrite bind_run;
          cbn [this selectionProductsCache selectionProductsLoading
                 set_remainingFreeSlots set_ticks]).
  rewrite Hload, Hcache. cbn [orb]. rewrite bind_run. cbn [assign].
  eexists. split; [reflexivity|].
  cbn [remainingFreeSlots timers selectionPickerActive requests selectionProductsLoading
         set_lastBxgyState set_remainingFreeSlots set_ticks set_requests
         set_selectionProductsLoading].
  split; [done|]. split; [done|]. split; [intros; lia|]. intros _.
  split; [done|]. split; [done|]. split; [done|]. intros _. done.
Qed.

(** Buy 3 get 1 on six paid units and nothing free in the cart yet: two
    slots are open. The two products of the picker were asked for when the
    settings were loaded and are still loading, so the pass sends nothing
    more. *)
Lemma selection_open_slots_example :
  exists s',
    applyBxgyRewards ex_net_ok ex_now no_JSON ex_cart_abc ex_state_picker = Returns tt s'
    /\ remainingFreeSlots s' = 2
    /\ requests s' = [GetProduct "tee"; GetProduct "cap"].
Proof.
  destruct (selection_mode_offers_the_open_slots ex_net_ok ex_now no_JSON ex_cart_abc
              ex_state_picker (ex_offer_picker 3 1) [])
    as (s' & Hrun & Hslots & _ & _ & Hopen);
    [reflexivity | reflexivity | reflexivity | reflexivity
    | vm_compute; reflexivity | vm_compute; discriminate |].
  exists s'. split; [exact Hrun|]. split; [exact Hslots|].
  destruct (Hopen ltac:(vm_compute; reflexivity)) as (_ & Hreq). exact Hreq.
Defined.

(** ** Every reply of the settings routes *)


